(** * Weight-only quantization front end: a shallow embedding

    This development embeds the control logic of
    [intel_extension_for_transformers/transformers/modeling/modeling_auto.py]
    (module replacement, low-bit save and reload, the calibration collate
    functions and the quantization dispatcher of [from_pretrained]) and proves
    properties of it.

    Tensors are kept only as far as the control logic inspects them: a
    one-dimensional tensor of token ids is a [list Z], a stacked batch is a
    list of rows.  Python dictionaries are [gmap string _]; objects that the
    code mutates in place are records threaded through the functions. *)

From stdpp Require Import base option list strings gmap.
From Stdlib Require Import ZArith Lia.

Local Open Scope string_scope.
Local Open Scope list_scope.

Set Warnings "-register-all".

(** ** Python preliminaries *)

Module Py.

(** [x in [s1, ..., sn]] on a list of strings. *)
Definition in_list (x : string) (l : list string) : bool :=
  existsb (String.eqb x) l.

(** [sub in s] on strings: substring containment. *)
Fixpoint contains (sub s : string) : bool :=
  if String.prefix sub s then true
  else match s with
       | EmptyString => false
       | String _ s' => contains sub s'
       end.

(** [str(l)] for a list of strings. *)
Definition repr_list (l : list string) : string :=
  "[" +:+ String.concat ", " (map (fun s => "'" +:+ s +:+ "'") l) +:+ "]".

(** [x is not None and x in l], the shape of a membership test on an
    attribute that may be [None] ([None] is never a member of a list of
    strings). *)
Definition opt_in_list (x : option string) (l : list string) : bool :=
  match x with
  | Some s => in_list s l
  | None => false
  end.

End Py.

(** ** Effects: logging, exceptions, process exit *)

Inductive level := INFO | WARNING | ERROR.

Record log_record := LogRecord { log_level : level; log_msg : string }.

Inductive exn :=
| ValueError (msg : string)
| AssertionError (msg : string)
| KeyError (key : string)
| AttributeError (msg : string)
| UnboundLocalError (name : string)
| TypeError (msg : string)
| RuntimeError (msg : string).

(** How a call ends: it returns, raises, or terminates the process through
    [exit(code)]. *)
Inductive result (A : Type) :=
| Return (a : A)
| Raise (e : exn)
| Exit (code : Z).
Arguments Return {A} a.
Arguments Raise {A} e.
Arguments Exit {A} code.

(** Computations over a mutable state [S] (the logger's records, or a whole
    world of files and objects). *)
Definition ST (S A : Type) : Type := S -> result A * S.

Global Instance ST_ret {S} : MRet (ST S) := fun A (a : A) s => (Return a, s).

Global Instance ST_bind {S} : MBind (ST S) := fun A B (k : A -> ST S B) (m : ST S A) s =>
  match m s with
  | (Return a, s') => k a s'
  | (Raise e, s') => (Raise e, s')
  | (Exit c, s') => (Exit c, s')
  end.

Definition raise {S A} (e : exn) : ST S A := fun s => (Raise e, s).
Definition exit {S A} (code : Z) : ST S A := fun s => (Exit code, s).
Definition get {S} : ST S S := fun s => (Return s, s).
Definition modify {S} (f : S -> S) : ST S unit := fun s => (Return tt, f s).

(** [try: m except Exception as e: handler(e)]; [exit] is not an
    [Exception] and passes through. *)
Definition try_except {S A} (m : ST S A) (handler : exn -> ST S A) : ST S A :=
  fun s =>
    match m s with
    | (Raise e, s') => handler e s'
    | r => r
    end.

(** Computations that only write to the logger. *)
Abbreviation M := (ST (list log_record)).

Definition logger (lv : level) (msg : string) : M unit :=
  modify (fun lg => (lg ++ [LogRecord lv msg])%list).

(** Run a computation from an empty log. *)
Definition run {A} (m : M A) : result A * list log_record := m [].

(** ** The quantization configuration *)

(** The configuration classes of [..utils]; [isinstance] tests become tests on
    this tag. *)
Inductive config_class :=
| RtnConfig | AwqConfig | TeqConfig | GPTQConfig | AutoRoundConfig
| SmoothQuantConfig | StaticQuantConfig | DynamicQuantConfig
| QuantAwareTrainingConfig | MixedPrecisionConfig | BitsAndBytesConfig.

Global Instance config_class_eq_dec : EqDecision config_class.
Proof. solve_decision. Defined.

(** The [quant_method] string of a configuration class, as stored in
    [config.json] (only the classes that [load_low_bit] and the saved-model
    branch of [from_pretrained] look up have one here). *)
Definition quant_method_value (c : config_class) : string :=
  match c with
  | RtnConfig => "rtn"
  | AwqConfig => "awq"
  | TeqConfig => "teq"
  | GPTQConfig => "gptq"
  | AutoRoundConfig => "autoround"
  | SmoothQuantConfig => "sq"
  | StaticQuantConfig => "static"
  | DynamicQuantConfig => "dynamic"
  | QuantAwareTrainingConfig => "qat"
  | MixedPrecisionConfig => "mp"
  | BitsAndBytesConfig => "bitsandbytes"
  end.

Inductive torch_dtype := float32 | float16 | bfloat16 | other_dtype (name : string).

Global Instance torch_dtype_eq_dec : EqDecision torch_dtype.
Proof. solve_decision. Defined.

(** A dtype attribute holds a name, or (when the caller or [from_pretrained]
    put one there) a [torch.dtype]. *)
Inductive dtype_value :=
| DStr (name : string)
| DTorch (d : torch_dtype).

Global Instance dtype_value_eq_dec : EqDecision dtype_value.
Proof. solve_decision. Defined.

(** [v == s] for a string [s]. *)
Definition dtype_is (v : dtype_value) (s : string) : bool :=
  match v with
  | DStr name => String.eqb name s
  | DTorch _ => false
  end.

(** The fields of a configuration object that the modelled code reads or
    writes.  Attributes that may hold [None] are options. *)
Record quantization_config := QuantizationConfig {
  qc_class : config_class;
  bits : option Z;
  weight_dtype : option string;
  scale_dtype : option string;
  compute_dtype : option dtype_value;
  group_size : Z;
  sym : option bool;
  zero_point : option bool
}.

Definition set_weight_dtype (q : quantization_config) (w : string) : quantization_config :=
  {| qc_class := qc_class q; bits := bits q; weight_dtype := Some w;
     scale_dtype := scale_dtype q; compute_dtype := compute_dtype q;
     group_size := group_size q; sym := sym q; zero_point := zero_point q |}.

Definition set_scale_dtype (q : quantization_config) (s : string) : quantization_config :=
  {| qc_class := qc_class q; bits := bits q; weight_dtype := weight_dtype q;
     scale_dtype := Some s; compute_dtype := compute_dtype q;
     group_size := group_size q; sym := sym q; zero_point := zero_point q |}.

Definition set_compute_dtype (q : quantization_config) (c : string) : quantization_config :=
  {| qc_class := qc_class q; bits := bits q; weight_dtype := weight_dtype q;
     scale_dtype := scale_dtype q; compute_dtype := Some (DStr c);
     group_size := group_size q; sym := sym q; zero_point := zero_point q |}.

(** ** The module graph *)

(** Tensor payloads are never inspected by the control logic; they are carried
    as lists of integers (token ids and permutation indices are integers, the
    other payloads stand for their stored words). *)
Definition tensor := list Z.

(** [neural_compressor]'s [WeightOnlyLinear]: the constructor arguments the
    code passes, and the buffers that [pack] and the code set afterwards. *)
Record weight_only_linear := WeightOnlyLinearObj {
  wol_in_features : Z;
  wol_out_features : Z;
  wol_bits : option Z;
  wol_groupsize : Z;
  wol_dtype : string;
  wol_zp : bool;
  wol_bias : bool;
  wol_scale_dtype : string;
  wol_g_idx_arg : bool;
  wol_use_optimum_format : bool;
  wol_g_idx : option tensor;
  wol_packed : option (tensor * tensor * option tensor * option tensor)
}.

Definition set_g_idx (w : weight_only_linear) (g : option tensor) : weight_only_linear :=
  {| wol_in_features := wol_in_features w; wol_out_features := wol_out_features w;
     wol_bits := wol_bits w; wol_groupsize := wol_groupsize w; wol_dtype := wol_dtype w;
     wol_zp := wol_zp w; wol_bias := wol_bias w; wol_scale_dtype := wol_scale_dtype w;
     wol_g_idx_arg := wol_g_idx_arg w; wol_use_optimum_format := wol_use_optimum_format w;
     wol_g_idx := g; wol_packed := wol_packed w |}.

(** [WeightOnlyLinear.__init__]: a truthy [g_idx] argument registers a zero
    buffer of [in_features] entries, otherwise the attribute is [None]. *)
Definition WeightOnlyLinear_init (in_features out_features : Z) (bits : option Z)
    (groupsize : Z) (dtype : string) (zp bias : bool) (scale_dtype : string)
    (g_idx use_optimum_format : bool) : weight_only_linear :=
  {| wol_in_features := in_features; wol_out_features := out_features;
     wol_bits := bits; wol_groupsize := groupsize; wol_dtype := dtype;
     wol_zp := zp; wol_bias := bias; wol_scale_dtype := scale_dtype;
     wol_g_idx_arg := g_idx; wol_use_optimum_format := use_optimum_format;
     wol_g_idx := if g_idx then Some (repeat 0%Z (Z.to_nat in_features)) else None;
     wol_packed := None |}.

(** What [QuantizedLinearQBits.recover_qparms()] returns, together with the
    module's [bias]. *)
Record qbits_linear := QBitsLinear {
  qb_groupsize : Z;
  qb_in_features : Z;
  qb_out_features : Z;
  qb_desc_act : bool;
  qb_g_idx : option tensor;
  qb_weight_dtype : string;
  qb_bits : option Z;
  qb_scales_dtype : string;
  qb_scales : tensor;
  qb_zp : bool;
  qb_zeros : option tensor;
  qb_int_weight : tensor;
  qb_bias : option tensor
}.

(** Two-dimensional buffers whose layout the code changes are lists of rows;
    [t_] is [tensor.t_().contiguous()]. *)
Definition matrix := list (list Z).

Definition t_ (m : matrix) : matrix :=
  match m with
  | [] => []
  | r :: _ => map (fun j => map (fun row => nth j row 0%Z) m) (seq 0 (length r))
  end.

(** The fields of [intel_extension_for_pytorch]'s [WeightOnlyQuantizedLinear]
    that [convert_model_to_public] touches. *)
Record xpu_linear := XpuLinear {
  xl_qweight : matrix;
  xl_scales : matrix;
  xl_weight_transposed : bool
}.

(** A module of the graph.  [torch.nn.Linear], [WeightOnlyLinear],
    [QuantizedLinearQBits] and [WeightOnlyQuantizedLinear] have no children;
    every other module is an [Other] with its ordered [_modules] dictionary. *)
Inductive module :=
| Linear (in_features out_features : Z) (bias : option tensor)
| WeightOnlyLinear (w : weight_only_linear)
| QuantizedLinearQBits (q : qbits_linear)
| WeightOnlyQuantizedLinear (x : xpu_linear)
| Other (children : list (string * module)).

Definition children (m : module) : list (string * module) :=
  match m with
  | Other ch => ch
  | _ => []
  end.

Definition is_leaf (m : module) : bool :=
  match m with
  | Other _ => false
  | _ => true
  end.

(** A qualified name is kept as the list of its components; [qualname] is
    the dotted string that [named_modules] yields.  Child names are not empty
    and hold no dot ([torch] refuses such names), so [key.split(".")] in
    [set_module] gives the components back. *)
Definition path := list string.

Fixpoint qualname (p : path) : string :=
  match p with
  | [] => ""
  | [n] => n
  | n :: rest => n +:+ "." +:+ qualname rest
  end.

(** Dictionary lookup and in-place update in an ordered dictionary. *)
Fixpoint assoc {A} (k : string) (l : list (string * A)) : option A :=
  match l with
  | [] => None
  | (k', v) :: l' => if String.eqb k k' then Some v else assoc k l'
  end.

Fixpoint update {A} (k : string) (f : A -> A) (l : list (string * A)) : list (string * A) :=
  match l with
  | [] => []
  | (k', v) :: l' => if String.eqb k k' then (k', f v) :: l' else (k', v) :: update k f l'
  end.

(** [model.get_submodule]: follow a path from a module. *)
Fixpoint get_module (m : module) (p : path) {struct p} : option module :=
  match p with
  | [] => Some m
  | n :: rest =>
      match assoc n (children m) with
      | Some c => get_module c rest
      | None => None
      end
  end.

(** [set_module(model, name, new_module)] of [neural_compressor]: walk to the
    parent of [name] and rebind its last component.  [rebind] is the walk;
    the root has no parent, so the empty path rebinds nothing. *)
Fixpoint rebind (m : module) (p : path) (new_module : module) {struct p} : module :=
  match p with
  | [] => new_module
  | n :: rest =>
      match m with
      | Other ch => Other (update n (fun c => rebind c rest new_module) ch)
      | _ => m
      end
  end.

Definition set_module (model : module) (p : path) (new_module : module) : module :=
  match p with
  | [] => model
  | _ :: _ => rebind model p new_module
  end.

(** [model.named_modules()] below a module: the submodules with their paths,
    parents before children, children in dictionary order. *)
Fixpoint named_modules (prefix : path) (m : module) : list (path * module) :=
  (prefix, m) ::
  match m with
  | Other ch =>
      (fix go (l : list (string * module)) : list (path * module) :=
         match l with
         | [] => []
         | (n, c) :: l' => (named_modules (prefix ++ [n]) c ++ go l')%list
         end) ch
  | _ => []
  end.

(** Keys of a dictionary are distinct, at every level of the graph. *)
Fixpoint distinct_names (l : list string) : bool :=
  match l with
  | [] => true
  | n :: l' => negb (Py.in_list n l') && distinct_names l'
  end.

Fixpoint wf_module (m : module) : bool :=
  match m with
  | Other ch =>
      distinct_names (map fst ch) &&
      (fix go (l : list (string * module)) : bool :=
         match l with
         | [] => true
         | (_, c) :: l' => wf_module c && go l'
         end) ch
  | _ => true
  end.

(** ** [build_woq_model] *)

(** The exclusion test of [build_woq_model] on a dotted name. *)
Definition excluded (n : string) : bool :=
  Py.contains "lm_head" n || Py.contains "output_layer" n || Py.contains "embed_out" n.

(** [getattr(quantization_config, "zero_point",
             not getattr(quantization_config, "sym", False))] *)
Definition zp_of (q : quantization_config) : bool :=
  match zero_point q with
  | Some z => z
  | None => negb (default false (sym q))
  end.

(** One iteration of the loop of [build_woq_model] on the pair [(n, m)]. *)
Definition build_woq_step (q : quantization_config) (model : module)
    (nm : path * module) : module :=
  let '(n, m) := nm in
  if excluded (qualname n) then model
  else match m with
       | Linear in_features out_features bias =>
           let new_module :=
             WeightOnlyLinear_init in_features out_features (bits q) (group_size q)
               "int" (zp_of q) (bool_decide (bias <> None)) "fp32" true true in
           set_module model n (WeightOnlyLinear new_module)
       | _ => model
       end.

(** [build_woq_model(model, quantization_config)].  The generator of
    [named_modules] is consumed while the graph is rebound; a rebound module
    is a childless one that has just been yielded, so the sequence is the one
    of the graph at entry. *)
Definition build_woq_model (model : module) (q : quantization_config) : module :=
  fold_left (build_woq_step q) (named_modules [] model) model.

(** A small causal language model: one decoder block with a dense MLP layer,
    and the generation head. *)
Definition example_model : module :=
  Other [("model", Other [("layers", Other [("0", Other [("mlp", Linear 768 3072 None)])])]);
         ("lm_head", Linear 768 32000 None)].

Definition example_rtn_config : quantization_config :=
  {| qc_class := RtnConfig; bits := Some 4%Z; weight_dtype := None;
     scale_dtype := None; compute_dtype := None; group_size := 128;
     sym := Some true; zero_point := None |}.

(** ** [recover_export_model] *)

(** [WeightOnlyLinear.pack(int_weight, scales, zeros, bias, g_idx)] belongs to
    [neural_compressor]; the code below is modelled for any behaviour of it. *)
Definition pack_method : Type :=
  weight_only_linear -> tensor -> tensor -> option tensor -> option tensor ->
  option tensor -> weight_only_linear.

(** [torch.argsort] on a one-dimensional integer tensor (stable). *)
Fixpoint insert_by_key (kv : Z * Z) (l : list (Z * Z)) : list (Z * Z) :=
  match l with
  | [] => [kv]
  | h :: t => if (snd kv <=? snd h)%Z then kv :: l else h :: insert_by_key kv t
  end.

Definition argsort (t : tensor) : tensor :=
  map fst (foldr insert_by_key [] (zip (map Z.of_nat (seq 0 (length t))) t)).

(** The [pack] of [neural_compressor] 2.5, as far as [g_idx] goes: a given
    [g_idx] is stored, and in the optimum format it is then replaced by
    [argsort(g_idx) // groupsize]. *)
Definition nc_pack : pack_method :=
  fun w int_weight scales zeros bias g_idx =>
    {| wol_in_features := wol_in_features w; wol_out_features := wol_out_features w;
       wol_bits := wol_bits w; wol_groupsize := wol_groupsize w; wol_dtype := wol_dtype w;
       wol_zp := wol_zp w; wol_bias := wol_bias w; wol_scale_dtype := wol_scale_dtype w;
       wol_g_idx_arg := wol_g_idx_arg w; wol_use_optimum_format := wol_use_optimum_format w;
       wol_g_idx :=
         match g_idx with
         | Some g =>
             Some (if wol_use_optimum_format w
                   then map (fun i => (i / wol_groupsize w)%Z) (argsort g)
                   else g)
         | None => wol_g_idx w
         end;
       wol_packed := Some (int_weight, scales, zeros, bias) |}.

Section Recover.

Variable pack : pack_method.

(** The body of the [isinstance(module, QuantizedLinearQBits)] branch: the
    new module is built with [g_idx=desc_act], packed with the recovered
    [g_idx], and [g_idx] is set again when it is not [None]. *)
Definition recover_linear (module : qbits_linear) : weight_only_linear :=
  let new_module :=
    WeightOnlyLinear_init (qb_in_features module) (qb_out_features module)
      (qb_bits module) (qb_groupsize module) "int" (qb_zp module)
      (bool_decide (qb_bias module <> None)) (qb_scales_dtype module)
      (qb_desc_act module) true in
  let packed :=
    pack new_module (qb_int_weight module) (qb_scales module) (qb_zeros module)
      (qb_bias module) (qb_g_idx module) in
  match qb_g_idx module with
  | Some g_idx => set_g_idx packed (Some g_idx)
  | None => packed
  end.

(** [recover_export_model(model)]: each child that is a
    [QuantizedLinearQBits] is rebound under its name; a child with children
    is recursed into.  The root itself is never rebound. *)
Fixpoint recover_export_model (model : module) : module :=
  match model with
  | Other ch =>
      Other ((fix go (l : list (string * module)) : list (string * module) :=
                match l with
                | [] => []
                | (name, module) :: l' =>
                    (name,
                     match module with
                     | QuantizedLinearQBits q => WeightOnlyLinear (recover_linear q)
                     | Other (_ :: _) => recover_export_model module
                     | _ => module
                     end) :: go l'
                end) ch)
  | _ => model
  end.

(** What the loop puts in place of one child. *)
Definition recover_child (c : module) : module :=
  match c with
  | QuantizedLinearQBits q => WeightOnlyLinear (recover_linear q)
  | Other (_ :: _) => recover_export_model c
  | _ => c
  end.

End Recover.

(** ** Saving a low-bit model *)

(** What a written file holds, as a function of the state it was written
    from. *)
Inductive file_content :=
| QuantizeConfigJson (q : quantization_config)
| ConfigJson (q : option quantization_config)
| Weights (graph : module)
| AllCheckpointKeys (graph : module).

Inductive fs_node :=
| File (content : option file_content)
| Directory.

Definition filesystem := gmap string fs_node.

Definition isfile (fs : filesystem) (p : string) : bool :=
  match fs !! p with
  | Some (File _) => true
  | _ => false
  end.

Definition join (dir name : string) : string := dir +:+ "/" +:+ name.

(** The [device] attribute of a model: a [torch.device], which is what the
    property of a loaded [transformers] model returns, or a string. *)
Inductive device_value :=
| TorchDevice (type : string)
| DeviceStr (s : string).

(** [device == s] for a string [s]: a [torch.device] does not compare equal
    to a string, whatever its type. *)
Definition device_eq_str (d : device_value) (s : string) : bool :=
  match d with
  | DeviceStr s' => String.eqb s' s
  | TorchDevice _ => false
  end.

(** The model object: the attributes that [save_low_bit] and its helpers read
    or write.  [quantization_config_attr] is [None] when the object has no
    such attribute; [config_quantization_config] is the entry of that name in
    the model's [config]; [save_pretrained_bound] says whether the instance carries
    its own [save_pretrained] (the bound [save_low_bit]) over the one of its
    class. *)
Record model_obj := ModelObj {
  device : device_value;
  is_fx_model : bool;
  quantization_config_attr : option quantization_config;
  config_quantization_config : option quantization_config;
  graph : module;
  save_pretrained_bound : bool;
  contiguous : bool
}.

Definition set_graph (self : model_obj) (g : module) : model_obj :=
  {| device := device self; is_fx_model := is_fx_model self;
     quantization_config_attr := quantization_config_attr self;
     config_quantization_config := config_quantization_config self; graph := g;
     save_pretrained_bound := save_pretrained_bound self; contiguous := contiguous self |}.

Definition set_save_pretrained_bound (self : model_obj) (b : bool) : model_obj :=
  {| device := device self; is_fx_model := is_fx_model self;
     quantization_config_attr := quantization_config_attr self;
     config_quantization_config := config_quantization_config self; graph := graph self;
     save_pretrained_bound := b; contiguous := contiguous self |}.

Definition set_config_quantization_config (self : model_obj)
    (q : option quantization_config) : model_obj :=
  {| device := device self; is_fx_model := is_fx_model self;
     quantization_config_attr := quantization_config_attr self;
     config_quantization_config := q; graph := graph self;
     save_pretrained_bound := save_pretrained_bound self; contiguous := contiguous self |}.

Definition set_contiguous (self : model_obj) (b : bool) : model_obj :=
  {| device := device self; is_fx_model := is_fx_model self;
     quantization_config_attr := quantization_config_attr self;
     config_quantization_config := config_quantization_config self; graph := graph self;
     save_pretrained_bound := save_pretrained_bound self; contiguous := b |}.

(** The state that [save_low_bit] works on. *)
Record world := World {
  fs : filesystem;
  self_obj : model_obj;
  log : list log_record
}.

Definition wlogger (lv : level) (msg : string) : ST world unit :=
  modify (fun w => World (fs w) (self_obj w) (log w ++ [LogRecord lv msg])).

Definition write_file (p : string) (c : file_content) : ST world unit :=
  modify (fun w => World (<[p := File (Some c)]> (fs w)) (self_obj w) (log w)).

Definition update_self (f : model_obj -> model_obj) : ST world unit :=
  modify (fun w => World (fs w) (f (self_obj w)) (log w)).

(** The directories above a path: its prefixes that stop before a
    separator (character 47), from the top. *)
Fixpoint parents (seen rest : string) : list string :=
  match rest with
  | EmptyString => []
  | String c rest' =>
      (if Ascii.eqb c (Ascii.ascii_of_nat 47) && negb (String.eqb seen "")
       then [seen] else [])
      ++ parents (seen +:+ String c EmptyString) rest'
  end.

Definition ancestors (p : string) : list string := parents "" p.

Definition mkdir_missing (files : filesystem) (d : string) : filesystem :=
  match files !! d with
  | None => <[d := Directory]> files
  | Some _ => files
  end.

(** [os.makedirs(p, exist_ok=True)]: the directories above [p] that are
    missing are made, from the top, then [p] itself. *)
Definition makedirs (p : string) : ST world unit :=
  w ← get;
  if isfile (fs w) p then raise (RuntimeError "FileExistsError")
  else modify (fun w => World (<[p := Directory]> (foldl mkdir_missing (fs w) (ancestors p)))
                              (self_obj w) (log w)).

(** The weight dtypes whose layout is already the portable one. *)
Definition portable_weight_dtypes : list string :=
  ["fp8_e5m2"; "fp8_e4m3"; "nf4"; "fp4"; "int4_fullrange"].

(** The loop of the [xpu] branch of [convert_model_to_public]. *)
Fixpoint untranspose (m : module) : module :=
  match m with
  | WeightOnlyQuantizedLinear x =>
      if xl_weight_transposed x
      then WeightOnlyQuantizedLinear
             {| xl_qweight := t_ (xl_qweight x); xl_scales := t_ (xl_scales x);
                xl_weight_transposed := false |}
      else m
  | Other ch =>
      Other ((fix go (l : list (string * module)) : list (string * module) :=
                match l with
                | [] => []
                | (name, c) :: l' => (name, untranspose c) :: go l'
                end) ch)
  | _ => m
  end.

Section Persistence.

Variable pack : pack_method.
(** [WEIGHTS_NAME] of [..utils.utility], and the file name under which a
    configuration's own [save_pretrained] writes it. *)
Variable WEIGHTS_NAME : string.
Variable QUANT_CONFIG : string.

(** [convert_model_to_public(model)]; the caller has checked that the model
    has a [quantization_config]. *)
Definition convert_model_to_public (model : model_obj) (q : quantization_config)
    : model_obj :=
  if device_eq_str (device model) "xpu" then set_graph model (untranspose (graph model))
  else if negb (Py.opt_in_list (weight_dtype q) portable_weight_dtypes)
  then set_graph model (recover_export_model pack (graph model))
  else model.

(** [make_contiguous(model)] *)
Definition make_contiguous (model : model_obj) : model_obj := set_contiguous model true.

(** [save_low_bit(self, save_directory, push_to_hub, **kwargs)];
    [use_auth_token] is the entry of that name in [kwargs]. *)
Definition save_low_bit (save_directory : string) (push_to_hub : bool)
    (use_auth_token : option string) : ST world unit :=
  w ← get;
  match quantization_config_attr (self_obj w) with
  | None => raise (AssertionError "Detected this model is not a low-bit model.")
  | Some q =>
      if isfile (fs w) save_directory then
        wlogger ERROR ("Provided path (" +:+ save_directory +:+
                       ") should be a directory, not a file")
      else if is_fx_model (self_obj w) then
        write_file (join save_directory QUANT_CONFIG) (QuantizeConfigJson q);;
        update_self (fun self => set_config_quantization_config self (Some q));;
        write_file (join save_directory "config.json") (ConfigJson (Some q));;
        write_file (join save_directory WEIGHTS_NAME) (Weights (graph (self_obj w)))
      else
        update_self (fun self => convert_model_to_public self q);;
        makedirs save_directory;;
        w1 ← get;
        (if save_pretrained_bound (self_obj w1)
         then update_self (fun self => set_save_pretrained_bound self false)
         else raise (AttributeError "save_pretrained"));;
        update_self make_contiguous;;
        w2 ← get;
        write_file (join save_directory "config.json")
          (ConfigJson (config_quantization_config (self_obj w2)));;
        write_file (join save_directory WEIGHTS_NAME) (Weights (graph (self_obj w2)));;
        update_self (fun self => set_save_pretrained_bound self true);;
        write_file (join save_directory "all_checkpoint_keys.json")
          (AllCheckpointKeys (graph (self_obj w2)));;
        (if push_to_hub then
           match use_auth_token with
           | Some _ => raise (AttributeError "warn")
           | None => raise (UnboundLocalError "token")
           end
         else mret tt);;
        write_file (join save_directory QUANT_CONFIG) (QuantizeConfigJson q)
  end.

End Persistence.

(** A packed model as [save_low_bit] meets it on a CPU: the decoder layer is
    a [QuantizedLinearQBits] quantized with activation reordering. *)
Definition example_qbits : qbits_linear :=
  {| qb_groupsize := 2; qb_in_features := 4; qb_out_features := 2;
     qb_desc_act := true; qb_g_idx := Some [2; 0; 1; 3]%Z;
     qb_weight_dtype := "int4_clip"; qb_bits := Some 4%Z; qb_scales_dtype := "fp32";
     qb_scales := [1; 1; 1; 1]%Z; qb_zp := false; qb_zeros := None;
     qb_int_weight := [1; 2; 3; 4; 5; 6; 7; 8]%Z; qb_bias := None |}.

Definition example_packed_graph : module :=
  Other [("model", Other [("layers", Other [("0", Other [("mlp", QuantizedLinearQBits example_qbits)])])]);
         ("lm_head", Linear 4 16 None)].

Definition example_gptq_config : quantization_config :=
  {| qc_class := GPTQConfig; bits := Some 4%Z; weight_dtype := Some "int4_clip";
     scale_dtype := Some "fp32"; compute_dtype := Some (DStr "fp32"); group_size := 2;
     sym := Some true; zero_point := None |}.

Definition example_low_bit_model : model_obj :=
  {| device := TorchDevice "cpu"; is_fx_model := false;
     quantization_config_attr := Some example_gptq_config;
     config_quantization_config := Some example_gptq_config;
     graph := example_packed_graph; save_pretrained_bound := true; contiguous := false |}.

(** The same object before it became a low-bit model. *)
Definition example_plain_model : model_obj :=
  {| device := TorchDevice "cpu"; is_fx_model := false;
     quantization_config_attr := None;
     config_quantization_config := None;
     graph := example_model; save_pretrained_bound := false; contiguous := false |}.

(** A file system where [out/model.bin] is a file and [out] a directory. *)
Definition example_fs : filesystem :=
  {[ "out" := Directory; "out/model.bin" := File None ]}.

(** ** Reloading a low-bit model *)

(** The weight dtypes that [load_low_bit] accepts when one is given. *)
Definition recognized_weight_dtypes : list string :=
  ["int4_fullrange"; "int4_clip"; "int8"; "fp8_e5m2"; "fp8_e4m3"; "nf4";
   "fp4_e2m1_bnb"; "fp4_e2m1"].

(** The weight dtypes whose skeleton [load_low_bit] builds with
    [replace_linear]. *)
Definition replace_linear_weight_dtypes : list string :=
  ["fp8_e5m2"; "fp8_e4m3"; "fp4"; "nf4"; "int4_fullrange"].

(** The warnings of the two fall-backs. *)
Definition scale_dtype_warnings : list log_record :=
  [LogRecord WARNING "scale_dtype only supports fp32, bf16, fp16.";
   LogRecord WARNING
     "fp32 scale_dtype is used, please change the config.json if you don't want to use it."].

Definition bits_warnings : list log_record :=
  [LogRecord WARNING "bits number only supports 4, 8.";
   LogRecord WARNING
     "int4_clip weight_dtype is used, please change the config.json if you don't want to use it."].

(** [if quantization_config.scale_dtype is None: ...] and the test that
    follows it. *)
Definition resolve_scale_dtype (q : quantization_config) : M quantization_config :=
  let q := match scale_dtype q with
           | None => set_scale_dtype q "fp32"
           | Some _ => q
           end in
  if negb (Py.opt_in_list (scale_dtype q) ["fp32"; "fp16"; "bf16"]) then
    logger WARNING "scale_dtype only supports fp32, bf16, fp16.";;
    let q := set_scale_dtype q "fp32" in
    logger WARNING
      "fp32 scale_dtype is used, please change the config.json if you don't want to use it.";;
    mret q
  else mret q.

(** The block headed "weight dtype is higher priority than bits in
    config.json when both existed". *)
Definition resolve_weight_dtype (q : quantization_config) : M quantization_config :=
  match weight_dtype q with
  | None =>
      if bool_decide (bits q = Some 4%Z) then
        logger INFO
          ("int4_clip" +:+ " quantization weight_dtype is used due to bits is 4 in config.json.");;
        mret (set_weight_dtype q "int4_clip")
      else if bool_decide (bits q = Some 8%Z) then
        logger INFO
          ("int8" +:+ " quantization weight_dtype is used due to bits is 8 in config.json.");;
        mret (set_weight_dtype q "int8")
      else
        logger WARNING "bits number only supports 4, 8.";;
        logger WARNING
          "int4_clip weight_dtype is used, please change the config.json if you don't want to use it.";;
        mret (set_weight_dtype q "int4_clip")
  | Some w =>
      if negb (Py.in_list w recognized_weight_dtypes) then
        logger WARNING "Please provide the correct bits number or weight_dtype in config.json.";;
        raise (ValueError
                 "weight_dtype must be a string in 'int8', 'int4_fullrange', 'int4_clip', 'nf4', 'fp4_e2m1_bnb', 'fp4_e2m1', 'fp8_e5m2, fp8_e4m3'")
      else
        logger INFO (w +:+ " quantization weight_dtype is used.");;
        mret q
  end.

Section Reload.

(** Of [..llm.quantization.utils]: [replace_linear(model, quantization_config,
    device, empty_weights)] and [convert_dtype_torch2str]. *)
Variable replace_linear : module -> quantization_config -> string -> bool -> module.
Variable convert_dtype_torch2str : torch_dtype -> string.

(** [CpuInfo().bf16] *)
Variable cpu_bf16 : bool.

(** [if quantization_config.compute_dtype is None: ... else: ...] *)
Definition resolve_compute_dtype (use_cpu use_xpu : bool) (dtype : option torch_dtype)
    (q : quantization_config) : quantization_config :=
  match compute_dtype q with
  | None =>
      if use_xpu then
        set_compute_dtype q
          (match dtype with
           | None => "fp16"
           | Some d => if bool_decide (d = bfloat16) then "fp16"
                       else convert_dtype_torch2str d
           end)
      else
        set_compute_dtype q
          (match dtype with
           | None => "fp32"
           | Some d =>
               if (negb cpu_bf16 && bool_decide (d = bfloat16)) || bool_decide (d = float16)
               then "fp32" else convert_dtype_torch2str d
           end)
  | Some c =>
      if (negb cpu_bf16 && dtype_is c "bf16") || (use_cpu && dtype_is c "fp16")
      then set_compute_dtype q "fp32" else q
  end.

(** The choice of the builder of the empty-weight skeleton. *)
Definition allocate_skeleton (model : module) (q : quantization_config)
    (device_map : string) : module :=
  if negb (Py.opt_in_list (weight_dtype q) replace_linear_weight_dtypes)
  then build_woq_model model q
  else replace_linear model q (if String.eqb device_map "auto" then "cpu" else device_map)
         true.

(** [load_low_bit], from the test on the quantization method (after the
    checkpoint files are resolved) to the allocation of the skeleton.
    [q] is the configuration read by [from_dict], [dtype] the resolved
    [torch_dtype], [model] the graph that [model_class(config)] builds under
    [init_empty_weights].  [None] is the early return through
    [neural_compressor]'s own [load]. *)
Definition load_low_bit (q : quantization_config) (device_map : string)
    (dtype : option torch_dtype) (model : module)
    : M (option (quantization_config * module)) :=
  let use_cpu := String.eqb device_map "cpu" in
  let use_xpu := String.eqb device_map "xpu" in
  if Py.in_list (quant_method_value (qc_class q)) ["static"; "dynamic"; "qat"]
  then mret None
  else
    let q := resolve_compute_dtype use_cpu use_xpu dtype q in
    q ← resolve_scale_dtype q;
    q ← resolve_weight_dtype q;
    mret (Some (q, allocate_skeleton model q device_map)).

End Reload.

(** A configuration saved with a bit width that is neither 4 nor 8 and no
    weight dtype. *)
Definition example_3bit_config : quantization_config :=
  {| qc_class := RtnConfig; bits := Some 3%Z; weight_dtype := None;
     scale_dtype := None; compute_dtype := None; group_size := 128;
     sym := Some true; zero_point := None |}.

(** ** The dispatcher of [from_pretrained] *)

Definition model_type_list : list string :=
  ["llama"; "gptj"; "mpt"; "opt"; "gptneox"; "dolly"; "polyglot"; "starcoder";
   "falcon"; "bloom"; "chatglm2"; "chatglm"; "baichuan"; "mistral"; "qwen"; "phi";
   "whisper"; "qwen2"; "gemma"].

Definition model_type_list_for_gptq : list string :=
  ["llama"; "gptj"; "mpt"; "falcon"; "chatglm2"; "chatglm"; "baichuan"; "mistral";
   "qwen"; "phi"].

(** The [quantization_config] entry of a saved [config.json]. *)
Inductive json :=
| JNull
| JBool (b : bool)
| JInt (z : Z)
| JStr (s : string).

Definition saved_dict := gmap string json.

(** [v in [s1, ..., sn]] for a JSON value and strings. *)
Definition json_in_list (v : json) (l : list string) : bool :=
  match v with
  | JStr s => Py.in_list s l
  | _ => false
  end.

(** The [ConfigInit] table of the saved-model branch. *)
Definition ConfigInit (quant_method : json) : option config_class :=
  match quant_method with
  | JStr s =>
      if String.eqb s "rtn" then Some RtnConfig
      else if String.eqb s "awq" then Some AwqConfig
      else if String.eqb s "teq" then Some TeqConfig
      else if String.eqb s "gptq" then Some GPTQConfig
      else if String.eqb s "autoround" then Some AutoRoundConfig
      else None
  | _ => None
  end.

(** What [from_pretrained] calls and this file does not define: the methods
    of the configuration classes, the dtype conversions of
    [..llm.quantization.utils], the call [cls.load_low_bit(...)] with all its
    file handling, and what the environment offers. *)
Record collaborators := Collaborators {
  post_init_runtime : quantization_config -> M quantization_config;
  from_dict : config_class -> saved_dict -> quantization_config;
  new_RtnConfig : option Z -> option dtype_value -> option string -> quantization_config;
  convert_dtype_str2torch : option dtype_value -> torch_dtype;
  convert_dtype_torch2str : torch_dtype -> string;
  reload : saved_dict -> M unit;
  exn_message : exn -> string;
  is_accelerate_available : bool;
  is_bitsandbytes_available : bool;
  cpu_bf16 : bool
}.

(** The arguments of a call, and the [config] it resolves to. *)
Record request := Request {
  rq_model_file : option string;
  rq_model_type : option string;
  rq_hub_model_type : option string;
  rq_use_embedding_runtime : bool;
  rq_device_map : string;
  rq_quantization_config : option quantization_config;
  rq_config_model_type : option string;
  rq_config_quantization_config : option (option saved_dict);
  rq_use_llm_runtime : option bool;
  rq_use_neural_speed : option bool;
  rq_load_in_8bit : bool;
  rq_load_in_4bit : bool;
  rq_torch_dtype : option torch_dtype
}.

(** Where a call ends when it returns: the branch that builds the model.
    The two neural-speed calls [Model.init(...)] carry their arguments. *)
Inductive route :=
| NeuralSpeedGGUF (model_type : string)
| EmbeddingRuntime
| NeuralSpeedModel (q : quantization_config) (use_gptq use_awq : bool)
| NeuralSpeedFP32
| LowBitReload
| OrigModel
| MixedPrecisionPath
| WeightOnlyPath (q : quantization_config)
| SmoothQuantPath
| DynamicQuantPath
| StaticQuantPath
| QuantAwareTrainingPath
| PlainLoad.


Definition rtn_only_error : log_record :=
  LogRecord ERROR "Only Supports RTN Quantization in Neural Speed.".

Section Dispatcher.

Variable env : collaborators.

Definition use_cpu (r : request) : bool := String.eqb (rq_device_map r) "cpu".
Definition use_xpu (r : request) : bool := String.eqb (rq_device_map r) "xpu".

(** The branch [if model_file is not None]. *)
Definition load_gguf (r : request) : M route :=
  logger INFO "Using Neural Speed to load the GGUF model...";;
  model_type ←
    match rq_model_type r with
    | Some t =>
        if negb (String.eqb t "") then mret t
        else match rq_hub_model_type r with
             | Some t' => mret t'
             | None =>
                 logger ERROR "Can't get model_type from this Hugginface repo.";;
                 exit 0
             end
    | None =>
        match rq_hub_model_type r with
        | Some t' => mret t'
        | None =>
            logger ERROR "Can't get model_type from this Hugginface repo.";;
            exit 0
        end
    end;
  logger INFO ("The model_type is " +:+ model_type);;
  if negb (Py.in_list model_type model_type_list) then
    logger ERROR
      ("Can't support this model_type. Please set the correct model_type, supported model_type: "
       +:+ Py.repr_list model_type_list);;
    exit 0
  else mret (NeuralSpeedGGUF model_type).

(** The three-way choice of [use_neural_speed]. *)
Definition resolve_use_neural_speed (r : request) : M bool :=
  match rq_use_llm_runtime r with
  | Some b =>
      logger WARNING
        "use_llm_runtime is deprecated in version 1.3.2, please use_neural_speed instead.";;
      mret (b && negb (use_xpu r))
  | None =>
      match rq_use_neural_speed r with
      | Some b => mret (b && negb (use_xpu r))
      | None =>
          match rq_config_model_type r with
          | None =>
              logger ERROR "Can't get the model_type. Please check the correct model_type";;
              exit 0
          | Some model_type =>
              if Py.in_list model_type model_type_list && negb (use_xpu r) then
                match rq_quantization_config r with
                | Some q =>
                    if bool_decide (qc_class q = GPTQConfig)
                       && negb (Py.in_list model_type model_type_list_for_gptq)
                    then mret false else mret true
                | None => mret true
                end
              else mret false
          end
      end
  end.

(** The neural-speed branch for a checkpoint whose [config] carries a
    [quantization_config]. *)
Definition load_saved_by_neural_speed (r : request) (saved : saved_dict)
    (quant_method : json) : M route :=
  q ← match rq_quantization_config r with
      | Some q => mret q
      | None =>
          match ConfigInit quant_method with
          | None => raise (AssertionError "Detect this model is not a low-bit model.")
          | Some cls =>
              logger INFO "Loading Low Bits model by Neural Speed.";;
              post_init_runtime env (from_dict env cls saved)
          end
      end;
  let value := quant_method_value (qc_class q) in
  mret (NeuralSpeedModel q
          (String.eqb value "gptq" || String.eqb value "autoround" || String.eqb value "rtn")
          (String.eqb value "awq")).

(** The [else] branch next to it: reload through [load_low_bit]. *)
Definition load_saved_low_bit (saved : saved_dict) : M route :=
  logger INFO "quantization_config: {...}";;
  try_except
    (reload env saved;;
     logger INFO "Saved low bit model loading successfully. Other input args will be ignored.";;
     mret LowBitReload)
    (fun e =>
       logger ERROR (exn_message env e);;
       logger ERROR "Saved low bit model loading failed, please check your model.";;
       exit 0).

(** The block [if load_in_8bit or load_in_4bit]: [inl] is a model returned
    from inside it, [inr] the configuration the dispatch goes on with. *)
Definition load_in_bits (r : request) (use_neural_speed : bool)
    : M (route + option quantization_config) :=
  if is_accelerate_available env && is_bitsandbytes_available env
     && negb (use_cpu r) && negb (use_xpu r)
  then
    logger INFO "WeightOnlyQuant bitsandbytes done.";;
    mret (inl OrigModel)
  else
    logger INFO (rq_device_map r +:+ " device is used.");;
    let torch_dtype :=
      default (if use_xpu r then float16 else float32) (rq_torch_dtype r) in
    ((if use_xpu r && negb (bool_decide (torch_dtype = float16))
      then raise (AssertionError
                    "Intel GPU only support torch.float16 now, will support other dtype in future!")
      else mret tt) : M unit);;
    let compute :=
      if use_cpu r && negb (cpu_bf16 env) && bool_decide (torch_dtype = bfloat16)
      then DTorch float32 else DStr (convert_dtype_torch2str env torch_dtype) in
    if rq_load_in_4bit r then
      match rq_quantization_config r with
      | None =>
          if use_neural_speed
          then mret (inr (Some (new_RtnConfig env None (Some (DStr "fp32")) (Some "nf4"))))
          else mret (inr (Some (new_RtnConfig env (Some 4%Z) (Some compute)
                                  (Some (if use_cpu r then "nf4" else "int4_fullrange")))))
      | Some q =>
          match weight_dtype q with
          | None => raise (TypeError "argument of type 'NoneType' is not iterable")
          | Some w =>
              if Py.contains "4" w
                 && bool_decide (convert_dtype_str2torch env (compute_dtype q) = torch_dtype)
              then mret (inr (Some q))
              else raise (AssertionError
                            "Quantization_config.weight_dtype should be 'nf4', 'int4_fullrange', 'int4_clip',")
          end
      end
    else
      match rq_quantization_config r with
      | None =>
          if use_neural_speed
          then mret (inr (Some (new_RtnConfig env None
                                  (Some (DStr (if cpu_bf16 env then "bf16" else "fp32")))
                                  (Some "int8"))))
          else mret (inr (Some (new_RtnConfig env (Some 8%Z) (Some compute) (Some "int8"))))
      | Some q =>
          if bool_decide (weight_dtype q = Some "int8")
             && bool_decide (compute_dtype q = Some (DTorch torch_dtype))
          then mret (inr (Some q))
          else raise (AssertionError
                        "Quantization_config.weight_dtype should be 'int8' and compute_dtype should be {torch_dtype}.")
      end.

(** The chain of [isinstance] tests that picks the branch. *)
Definition dispatch (use_neural_speed : bool) (q : option quantization_config)
    : M route :=
  match q with
  | Some q =>
      match qc_class q with
      | MixedPrecisionConfig => mret MixedPrecisionPath
      | RtnConfig | AwqConfig | TeqConfig | GPTQConfig | AutoRoundConfig =>
          logger INFO "Applying Weight Only Quantization.";;
          if use_neural_speed then
            if negb (bool_decide (qc_class q = RtnConfig)) then
              logger ERROR "Only Supports RTN Quantization in Neural Speed.";;
              exit 0
            else
              logger INFO "Quantize model by Neural Speed with RTN Algorithm.";;
              q ← post_init_runtime env q;
              mret (NeuralSpeedModel q false false)
          else mret (WeightOnlyPath q)
      | SmoothQuantConfig => mret SmoothQuantPath
      | DynamicQuantConfig => mret DynamicQuantPath
      | StaticQuantConfig => mret StaticQuantPath
      | QuantAwareTrainingConfig => mret QuantAwareTrainingPath
      | BitsAndBytesConfig =>
          if use_neural_speed then
            logger INFO "Using Neural Speed with FP32 model dtype.";;
            mret NeuralSpeedFP32
          else mret PlainLoad
      end
  | None =>
      if use_neural_speed then
        logger INFO "Using Neural Speed with FP32 model dtype.";;
        mret NeuralSpeedFP32
      else mret PlainLoad
  end.

(** What follows the block on the saved [quantization_config]. *)
Definition load_fresh (r : request) (use_neural_speed : bool) : M route :=
  if bool_decide (qc_class <$> rq_quantization_config r = Some BitsAndBytesConfig)
  then mret OrigModel
  else if rq_load_in_8bit r || rq_load_in_4bit r then
    res ← load_in_bits r use_neural_speed;
    match res with
    | inl model => mret model
    | inr q => dispatch use_neural_speed q
    end
  else dispatch use_neural_speed (rq_quantization_config r).

(** [from_pretrained], as far as the choice of the branch. *)
Definition from_pretrained (r : request) : M route :=
  match rq_model_file r with
  | Some _ => load_gguf r
  | None =>
      if rq_use_embedding_runtime r then mret EmbeddingRuntime
      else
        resolve_use_neural_speed r ≫= fun use_neural_speed : bool =>
        match rq_config_quantization_config r with
        | None => load_fresh r use_neural_speed
        | Some None =>
            logger WARNING
              "Quantization_config loading failed. If you want to load saved low bit model, please check your quantizate_config.json.";;
            load_fresh r use_neural_speed
        | Some (Some saved) =>
            if use_neural_speed then
              match saved !! "quant_method" with
              | None => raise (KeyError "quant_method")
              | Some quant_method =>
                  if negb (json_in_list quant_method ["dynamic"; "static"; "qat"])
                  then load_saved_by_neural_speed r saved quant_method
                  else load_saved_low_bit saved
              end
            else load_saved_low_bit saved
        end
  end.

End Dispatcher.

(** *** Stand-ins for the collaborators *)

(** Modelled from the spec: [post_init_runtime] of the configuration
    classes is not in the sources at hand.  It "adapts fields for an
    alternate fast-inference runtime path (valid only for the RTN tag; any
    other tag routed there must fail fast with [UnsupportedCombination])". *)
Definition post_init_runtime_spec (q : quantization_config) : M quantization_config :=
  if bool_decide (qc_class q = RtnConfig) then mret q
  else raise (RuntimeError "UnsupportedCombination").

Definition json_str (v : option json) : option string :=
  match v with
  | Some (JStr s) => Some s
  | _ => None
  end.

Definition json_bool (v : option json) : option bool :=
  match v with
  | Some (JBool b) => Some b
  | _ => None
  end.

Definition json_int (v : option json) : option Z :=
  match v with
  | Some (JInt z) => Some z
  | _ => None
  end.

(** Modelled from the spec: [from_dict] of the configuration classes is not
    in the sources at hand; it rebuilds a configuration of the given class
    from the persisted mapping. *)
Definition from_dict_spec (cls : config_class) (d : saved_dict) : quantization_config :=
  {| qc_class := cls; bits := json_int (d !! "bits");
     weight_dtype := json_str (d !! "weight_dtype");
     scale_dtype := json_str (d !! "scale_dtype");
     compute_dtype := DStr <$> json_str (d !! "compute_dtype");
     group_size := default 32%Z (json_int (d !! "group_size"));
     sym := json_bool (d !! "sym"); zero_point := json_bool (d !! "zero_point") |}.

(** An environment to run the dispatcher in: a CPU host without
    [bitsandbytes], the dtype names of the configuration files, and a reload
    that succeeds. *)
Definition reference_env : collaborators :=
  {| post_init_runtime := post_init_runtime_spec;
     from_dict := from_dict_spec;
     new_RtnConfig := fun b c w =>
       {| qc_class := RtnConfig; bits := b; weight_dtype := w; scale_dtype := Some "fp32";
          compute_dtype := c; group_size := 32; sym := Some true; zero_point := None |};
     convert_dtype_str2torch := fun v =>
       match v with
       | Some (DTorch d) => d
       | Some (DStr s) =>
           if String.eqb s "fp16" then float16
           else if String.eqb s "bf16" then bfloat16 else float32
       | None => float32
       end;
     convert_dtype_torch2str := fun d =>
       match d with
       | float32 => "fp32"
       | float16 => "fp16"
       | bfloat16 => "bf16"
       | other_dtype n => n
       end;
     reload := fun _ => mret tt;
     exn_message := fun e =>
       match e with
       | ValueError m | AssertionError m | KeyError m | AttributeError m
       | UnboundLocalError m | TypeError m | RuntimeError m => m
       end;
     is_accelerate_available := true;
     is_bitsandbytes_available := false;
     cpu_bf16 := true |}.

(** A llama checkpoint that was saved after GPTQ quantization, loaded with a
    GPTQ configuration of the caller's and every other argument left at its
    default. *)
Definition example_saved_gptq : saved_dict :=
  {[ "quant_method" := JStr "gptq"; "bits" := JInt 4; "weight_dtype" := JStr "int4_clip";
     "group_size" := JInt 2 ]}.





(** ** The default calibration pipeline *)

Module Torch.

(** [t[:stop]] on a one-dimensional tensor. *)
Definition slice_to (t : tensor) (stop : Z) : tensor :=
  if (stop <? 0)%Z then take (Z.to_nat (Z.of_nat (length t) + stop)) t
  else take (Z.to_nat stop) t.

(** [torch.nn.functional.pad(t, (0, pad_len), value=v)] on a
    one-dimensional tensor: a negative [pad_len] crops at the right, down
    to the empty tensor, and a negative resulting size is an error. *)
Definition pad (t : tensor) (pad_len : Z) (value : Z) : M tensor :=
  if (0 <=? pad_len)%Z then mret (t ++ replicate (Z.to_nat pad_len) value)
  else if (Z.of_nat (length t) + pad_len <? 0)%Z
  then raise (RuntimeError "negative output size")
  else mret (take (Z.to_nat (Z.of_nat (length t) + pad_len)) t).

(** [torch.vstack] of one-dimensional tensors: the rows must have one
    length. *)
Definition vstack (rows : list tensor) : M matrix :=
  match rows with
  | [] => raise (RuntimeError "vstack expects a non-empty TensorList")
  | r :: rest =>
      if forallb (fun r' => Nat.eqb (length r') (length r)) rest then mret rows
      else raise (RuntimeError "Sizes of tensors must match except in dimension 0")
  end.

Definition ones (n : nat) : tensor := replicate n 1%Z.

Definition arange (n : nat) : tensor := map Z.of_nat (seq 0 n).

End Torch.

(** [re.search(pattern, s)] for a pattern of literal characters and dots
    (character 46), which match any character but the newline (character
    10). *)
Fixpoint re_match_here (pattern s : string) : bool :=
  match pattern with
  | EmptyString => true
  | String c pattern' =>
      match s with
      | EmptyString => false
      | String d s' =>
          (if Ascii.eqb c (Ascii.ascii_of_nat 46) then negb (Ascii.eqb d (Ascii.ascii_of_nat 10))
           else Ascii.eqb c d)
          && re_match_here pattern' s'
      end
  end.

Fixpoint re_search (pattern s : string) : bool :=
  re_match_here pattern s
  || match s with
     | EmptyString => false
     | String _ s' => re_search pattern s'
     end.

(** An entry of the dictionary that a collate function returns. *)
Inductive batch_value :=
| Stacked (m : matrix)
| PastKeyValues.

Definition batch := gmap string batch_value.

Definition dataset_schema_error : log_record :=
  LogRecord ERROR
    "Please check dataset prompt identifier, NeelNanda/pile-10k is default used calibration dataset.".

Section Calibration.

(** The tokenizer's result is left abstract. *)
Variable encoding : Type.
Variable tokenizer : list string -> encoding.

(** [tokenize_function(examples)]; the three copies of it (SmoothQuant,
    static quantization, quantization-aware training) are the same text. *)
Definition tokenize_function (examples : gmap string (list string)) : M encoding :=
  match examples !! "code" with
  | Some code => mret (tokenizer code)
  | None =>
      match examples !! "prompt" with
      | Some prompt => mret (tokenizer prompt)
      | None =>
          match examples !! "text" with
          | Some text => mret (tokenizer text)
          | None =>
              logger ERROR
                "Please check dataset prompt identifier, NeelNanda/pile-10k is default used calibration dataset.";;
              exit 0
          end
      end
  end.

Variable calib_padding : bool.
Variable calib_len : Z.
Variable calib_pad_val : Z.

(** The first statement of the loop body, shared by the three
    [collate_batch]: truncate without padding, pad (or crop) with it. *)
Definition fit_input_ids (input_ids : tensor) : M tensor :=
  if negb calib_padding then
    mret (if (Z.of_nat (length input_ids) >? calib_len)%Z
          then Torch.slice_to input_ids calib_len else input_ids)
  else
    let pad_len := (calib_len - Z.of_nat (length input_ids))%Z in
    Torch.pad input_ids pad_len calib_pad_val.

(** [MODEL_TYPES_REQUIRING_POSITION_IDS] of [..utils.utility]. *)
Variable MODEL_TYPES_REQUIRING_POSITION_IDS : list string.

Variable model_type : string.

(** [collate_batch] of the SmoothQuant branch.  A record of the batch is
    given by its "input_ids" column, the only one that [set_format]
    keeps. *)
Definition collate_batch (texts : list tensor) : M (batch * tensor) :=
  rows ← mapM (fun text =>
                 input_ids ← fit_input_ids text;
                 let last_ind := (Z.of_nat (length input_ids) - 1)%Z in
                 let attention_mask :=
                   if Py.in_list model_type ["bloom"; "qwen"]
                   then 0%Z :: Torch.ones (length input_ids)
                   else Torch.ones (length input_ids) in
                 let position_ids := Torch.arange (length input_ids) in
                 mret (input_ids, attention_mask, position_ids, last_ind)) texts;
  let input_ids_padded := map (fun r => r.1.1.1) rows in
  let attention_mask_padded := map (fun r => r.1.1.2) rows in
  let position_ids_padded := map (fun r => r.1.2) rows in
  let last_ind := map (fun r => r.2) rows in
  if Py.in_list model_type MODEL_TYPES_REQUIRING_POSITION_IDS then
    input_ids ← Torch.vstack input_ids_padded;
    attention_mask ← Torch.vstack attention_mask_padded;
    position_ids ← Torch.vstack position_ids_padded;
    mret ({[ "input_ids" := Stacked input_ids;
             "attention_mask" := Stacked attention_mask;
             "position_ids" := Stacked position_ids;
             "past_key_values" := PastKeyValues ]}, last_ind)
  else
    input_ids ← Torch.vstack input_ids_padded;
    attention_mask ← Torch.vstack attention_mask_padded;
    mret ({[ "input_ids" := Stacked input_ids;
             "attention_mask" := Stacked attention_mask;
             "past_key_values" := PastKeyValues ]}, last_ind).

(** [collate_batch] of the static quantization branch (and, with the
    [train_] parameters in place of the [calib_] ones, of the
    quantization-aware training branch). *)
Definition collate_batch_static (texts : list tensor) : M (batch * tensor) :=
  rows ← mapM (fun text =>
                 input_ids ← fit_input_ids text;
                 mret (input_ids, (Z.of_nat (length input_ids) - 1)%Z)) texts;
  input_ids ← Torch.vstack (map fst rows);
  mret ({[ "input_ids" := Stacked input_ids ]}, map snd rows).

(** [model.config.auto_map["AutoConfig"]] and
    [model.prepare_inputs_for_generation(input_ids)["position_ids"]]. *)
Variable auto_config : string.
Variable prepare_position_ids : matrix -> matrix.

(** [collate_batch_for_chatglm]: the dictionary is built from the variables
    that the last record of the batch leaves. *)
Definition collate_batch_for_chatglm (texts : list tensor) : M (batch * tensor) :=
  rows ← mapM (fun text =>
                 input_ids ← Torch.vstack [text];
                 let truncated :=
                   map (fun row => if (Z.of_nat (length row) >? calib_len)%Z
                                   then Torch.slice_to row calib_len else row) input_ids in
                 let input_ids :=
                   if re_search "THUDM/chatglm-6b" auto_config
                   then map (fun row => row ++ [130001; 130004]%Z) truncated
                   else truncated in
                 let prepared := prepare_position_ids input_ids in
                 let attention_mask := map (fun row => Torch.ones (length row)) input_ids in
                 let last_ind := (Z.of_nat (length (default [] (head input_ids))) - 1)%Z in
                 mret (input_ids, attention_mask, prepared, last_ind)) texts;
  match last rows with
  | None => raise (UnboundLocalError "input_ids")
  | Some (input_ids, attention_mask, position_ids, _) =>
      mret ({[ "input_ids" := Stacked input_ids;
               "attention_mask" := Stacked attention_mask;
               "position_ids" := Stacked position_ids;
               "past_key_values" := PastKeyValues ]}, map (fun r => r.2) rows)
  end.

(** What [collate_batch_for_chatglm] makes of the tokens of a record. *)
Definition chatglm_row (text : tensor) : tensor :=
  (if (Z.of_nat (length text) >? calib_len)%Z then Torch.slice_to text calib_len else text)
  ++ (if re_search "THUDM/chatglm-6b" auto_config then [130001; 130004]%Z else []).

(** The [collate_fn] that the SmoothQuant branch hands to its
    [DataLoader]. *)
Definition collate_fn (texts : list tensor) : M (batch * tensor) :=
  if String.eqb model_type "chatglm" then collate_batch_for_chatglm texts
  else collate_batch texts.

End Calibration.

(** A record that has only a "prompt" column, and a stand-in tokenizer (one
    token per character). *)
Definition example_prompt_record : gmap string (list string) :=
  {[ "prompt" := ["def f(x):"] ]}.

Definition example_tokenizer (texts : list string) : list tensor :=
  map (fun t => map (fun c => Z.of_nat (Ascii.nat_of_ascii c)) (String.list_ascii_of_string t)) texts.

(** Modelled from the spec: [replace_linear] of [..llm.quantization.utils]
    is not in the sources at hand.  It "recursively visits every submodule;
    candidates are ordinary dense linear layers whose qualified name does not
    match an exclusion set", and for each candidate it "constructs a
    [PackedLinearLayer] with matching [in_features]/[out_features]/bias-presence",
    here in skeleton mode. *)
Fixpoint replace_linear_at (prefix : path) (q : quantization_config) (m : module) : module :=
  match m with
  | Linear in_features out_features bias =>
      if excluded (qualname prefix) then m
      else QuantizedLinearQBits
             {| qb_groupsize := group_size q; qb_in_features := in_features;
                qb_out_features := out_features; qb_desc_act := false; qb_g_idx := None;
                qb_weight_dtype := default "" (weight_dtype q); qb_bits := bits q;
                qb_scales_dtype := default "" (scale_dtype q); qb_scales := [];
                qb_zp := zp_of q; qb_zeros := None; qb_int_weight := [];
                qb_bias := bias |}
  | Other ch =>
      Other ((fix go (l : list (string * module)) : list (string * module) :=
                match l with
                | [] => []
                | (name, c) :: l' => (name, replace_linear_at (prefix ++ [name]) q c) :: go l'
                end) ch)
  | _ => m
  end.

Definition replace_linear_spec (model : module) (q : quantization_config)
    (device : string) (empty_weights : bool) : module :=
  replace_linear_at [] q model.

(** A configuration saved with the "nf4" weight dtype. *)
Definition example_nf4_config : quantization_config :=
  {| qc_class := RtnConfig; bits := Some 4%Z; weight_dtype := Some "nf4";
     scale_dtype := Some "fp32"; compute_dtype := Some (DStr "fp32"); group_size := 32;
     sym := Some true; zero_point := None |}.

(** The batches that the SmoothQuant [collate_batch] builds for a llama model
    with [calib_len = 4]: from a record of six tokens with padding on, and
    from a record of three tokens with padding off. *)
Definition example_padded_batch : batch :=
  {[ "input_ids" := Stacked [[11; 12; 13; 14]%Z];
     "attention_mask" := Stacked [[1; 1; 1; 1]%Z];
     "position_ids" := Stacked [[0; 1; 2; 3]%Z];
     "past_key_values" := PastKeyValues ]}.

Definition example_short_batch : batch :=
  {[ "input_ids" := Stacked [[11; 12; 13]%Z];
     "attention_mask" := Stacked [[1; 1; 1]%Z];
     "position_ids" := Stacked [[0; 1; 2]%Z];
     "past_key_values" := PastKeyValues ]}.

(** ** More of the module replacement *)

(** The module that [build_woq_model] builds in place of a dense linear
    layer. *)
Definition woq_skeleton (q : quantization_config) (m : module) : module :=
  match m with
  | Linear in_features out_features bias =>
      WeightOnlyLinear
        (WeightOnlyLinear_init in_features out_features (bits q) (group_size q)
           "int" (zp_of q) (bool_decide (bias <> None)) "fp32" true true)
  | _ => m
  end.

Definition is_linear (m : module) : bool :=
  match m with
  | Linear _ _ _ => true
  | _ => false
  end.

(** The pairs [(n, m)] of [named_modules] that pass both tests of the loop of
    [build_woq_model] and name a module that has a parent. *)
Definition eligible (p : path) (m : module) : bool :=
  negb (excluded (qualname p)) && is_linear m && negb (bool_decide (p = [])).

(** What the loop of [build_woq_model] on [model0] has made of the childless
    modules once the names of [done] are behind it. *)
Definition leaves_done (q : quantization_config) (model0 : module) (done : list path)
    (acc : module) : Prop :=
  forall p m, get_module model0 p = Some m -> children m = [] ->
    get_module acc p
    = Some (if eligible p m && bool_decide (p ∈ done) then woq_skeleton q m else m).

(** A decoder with an embedding, a block whose attention projection is
    already a [QuantizedLinearQBits], a final norm and the generation
    head. *)
Definition example_decoder : module :=
  Other [("model",
          Other [("embed_tokens", Other []);
                 ("layers",
                  Other [("0", Other [("attn", QuantizedLinearQBits example_qbits);
                                      ("mlp", Linear 4 8 (Some [0; 0; 0; 0; 0; 0; 0; 0]%Z))])]);
                 ("norm", Other [])]);
         ("lm_head", Linear 4 16 None)].

Definition is_qbits (m : module) : bool :=
  match m with QuantizedLinearQBits _ => true | _ => false end.



(** A model whose [device] is the string "xpu" and whose one packed layer
    has been transposed by the kernels. *)
Definition example_xpu_model : model_obj :=
  {| device := DeviceStr "xpu"; is_fx_model := false;
     quantization_config_attr := Some example_gptq_config;
     config_quantization_config := Some example_gptq_config;
     graph :=
       Other [("transformer",
               Other [("h",
                       Other [("0",
                               Other [("fc",
                                       WeightOnlyQuantizedLinear
                                         {| xl_qweight := [[1; 2; 3]; [4; 5; 6]]%Z;
                                            xl_scales := [[7; 8]]%Z;
                                            xl_weight_transposed := true |})])])])];
     save_pretrained_bound := true; contiguous := false |}.

(** Two configurations that differ at most in their three dtypes. *)
Definition same_scheme (q q' : quantization_config) : Prop :=
  qc_class q' = qc_class q /\ bits q' = bits q /\ group_size q' = group_size q
  /\ sym q' = sym q /\ zero_point q' = zero_point q.

(** The routes that end in a [neural_speed] model. *)
Definition is_neural_speed (rt : route) : bool :=
  match rt with
  | NeuralSpeedGGUF _ | NeuralSpeedModel _ _ _ | NeuralSpeedFP32 => true
  | _ => false
  end.

(** An OPT checkpoint, dense, to be quantized with GPTQ, every other argument
    left at its default. *)
Definition example_opt_gptq_request : request :=
  {| rq_model_file := None; rq_model_type := None; rq_hub_model_type := None;
     rq_use_embedding_runtime := false; rq_device_map := "cpu";
     rq_quantization_config := Some example_gptq_config;
     rq_config_model_type := Some "opt";
     rq_config_quantization_config := None;
     rq_use_llm_runtime := None; rq_use_neural_speed := None;
     rq_load_in_8bit := false; rq_load_in_4bit := false; rq_torch_dtype := None |}.

(** A saved llama checkpoint loaded on an Intel GPU with
    [use_neural_speed=True]. *)
Definition example_xpu_request : request :=
  {| rq_model_file := None; rq_model_type := None; rq_hub_model_type := None;
     rq_use_embedding_runtime := false; rq_device_map := "xpu";
     rq_quantization_config := None;
     rq_config_model_type := Some "llama";
     rq_config_quantization_config := Some (Some example_saved_gptq);
     rq_use_llm_runtime := None; rq_use_neural_speed := Some true;
     rq_load_in_8bit := false; rq_load_in_4bit := false; rq_torch_dtype := None |}.

(** The reference environment with a reload that fails on a missing weights
    file. *)
Definition failing_reload_env : collaborators :=
  {| post_init_runtime := post_init_runtime reference_env;
     from_dict := from_dict reference_env;
     new_RtnConfig := new_RtnConfig reference_env;
     convert_dtype_str2torch := convert_dtype_str2torch reference_env;
     convert_dtype_torch2str := convert_dtype_torch2str reference_env;
     reload := fun _ => raise (UnboundLocalError "archive_file");
     exn_message := exn_message reference_env;
     is_accelerate_available := true;
     is_bitsandbytes_available := false;
     cpu_bf16 := true |}.

(** ** The calibration loop *)

Section CalibFunc.

Variable calib_padding : bool.
Variable calib_len : Z.
Variable calib_pad_val : Z.
Variable calib_iters : Z.

(** The loop of [calib_func(model)] in the static quantization branch, from
    its [i]-th round on.  The [DataLoader] is built with [batch_size=1] and
    [shuffle=False]: it hands out, record by record, what [collate_batch]
    makes of the record alone, and does so before the test on [i].  The value
    is the list of the dictionaries that the model is called with as keyword
    arguments, in order. *)
Fixpoint calib_loop (i : Z) (dataset : list tensor) : M (list batch) :=
  match dataset with
  | [] => mret []
  | text :: rest =>
      collate_batch_static calib_padding calib_len calib_pad_val [text] ≫=
      fun item : batch * tensor =>
        if (i >=? calib_iters)%Z then mret []
        else
          calls ← calib_loop (i + 1) rest;
          mret (item.1 :: calls)
  end.

Definition calib_func (dataset : list tensor) : M (list batch) := calib_loop 0 dataset.

End CalibFunc.

(** The batch that holds one row of tokens and nothing else. *)
Definition input_ids_batch (row : tensor) : batch := {[ "input_ids" := Stacked [row] ]}.

(** ** The checkpoint file of [load_low_bit] *)

(** What the look-up of the weights can fail with: an [EnvironmentError], or
    any other exception. *)
Inductive load_error :=
| EnvironmentError (msg : string)
| OtherError (e : exn).

#[export] Instance load_ret : MRet (sum load_error) := fun A x => inr x.

#[export] Instance load_bind : MBind (sum load_error) :=
  fun A B f m =>
    match m with
    | inl e => inl e
    | inr x => f x
    end.

Section Checkpoint.

(** The four file names of [..utils.utility]. *)
Variable WEIGHTS_NAME : string.
Variable WEIGHTS_INDEX_NAME : string.
Variable SAFE_WEIGHTS_NAME : string.
Variable SAFE_WEIGHTS_INDEX_NAME : string.

(** Of [transformers] and [os.path]: [_add_variant], [is_remote_url],
    [download_url], [cached_file] and [has_file] (each with the keyword
    arguments of its call), [isdir], [isfile], [join], and
    [is_safetensors_available()]. *)
Variable add_variant : string -> option string -> string.
Variable os_path_isdir : string -> bool.
Variable os_path_isfile : string -> bool.
Variable os_path_join : list string -> string.
Variable is_remote_url : string -> bool.
Variable download_url : string -> load_error + string.
Variable cached_file : string -> string -> load_error + option string.
Variable has_file : string -> string -> load_error + bool.
Variable is_safetensors_available : bool.

(** The body of the [try] that looks the weights up in the cache or on the
    hub: the file name it settled on, the resolved file and [is_sharded]. *)
Definition fetch (name : string) (variant : option string) (use_safetensors : option bool)
    (filename : string) : load_error + (string * string * bool) :=
  resolved_archive_file ← cached_file name filename;
  first ←
    match resolved_archive_file with
    | None =>
        if String.eqb filename (add_variant SAFE_WEIGHTS_NAME variant) then
          resolved_archive_file ←
            cached_file name (add_variant SAFE_WEIGHTS_INDEX_NAME variant);
          match resolved_archive_file with
          | Some _ => mret (filename, resolved_archive_file, true)
          | None =>
              if bool_decide (use_safetensors = Some true) then
                inl (EnvironmentError
                       (name +:+ " does not appear to have a file named"
                        +:+ " " +:+ add_variant SAFE_WEIGHTS_NAME variant +:+ " or "
                        +:+ add_variant SAFE_WEIGHTS_INDEX_NAME variant +:+ " "
                        +:+ "and thus cannot be loaded with `safetensors`. Please make sure that the model has "
                        +:+ "been saved with `safe_serialization=True` or do not set `use_safetensors=True`."))
              else
                let filename := add_variant WEIGHTS_NAME variant in
                resolved_archive_file ← cached_file name filename;
                mret (filename, resolved_archive_file, false)
          end
        else mret (filename, resolved_archive_file, false)
    | Some _ => mret (filename, resolved_archive_file, false)
    end;
  let '(filename, resolved_archive_file, is_sharded) := first in
  second ←
    match resolved_archive_file with
    | None =>
        if String.eqb filename (add_variant WEIGHTS_NAME variant) then
          resolved_archive_file ← cached_file name (add_variant WEIGHTS_INDEX_NAME variant);
          mret (resolved_archive_file,
                match resolved_archive_file with Some _ => true | None => is_sharded end)
        else mret (resolved_archive_file, is_sharded)
    | Some _ => mret (resolved_archive_file, is_sharded)
    end;
  let '(resolved_archive_file, is_sharded) := second in
  match resolved_archive_file with
  | Some resolved => mret (filename, resolved, is_sharded)
  | None =>
      match variant with
      | Some v =>
          has_file name WEIGHTS_NAME ≫= fun found : bool =>
          if found then
            inl (EnvironmentError
                   (name +:+ " does not appear to have a file named"
                    +:+ " " +:+ add_variant WEIGHTS_NAME variant
                    +:+ " but there is a file without the variant"
                    +:+ " " +:+ v
                    +:+ ". Use `variant=None` to load this model from those weights."))
          else
            inl (EnvironmentError
                   (name +:+ " does not appear to have a file named"
                    +:+ " " +:+ add_variant WEIGHTS_NAME variant +:+ "."))
      | None =>
          inl (EnvironmentError
                 (name +:+ " does not appear to have a file named"
                  +:+ " " +:+ add_variant WEIGHTS_NAME variant +:+ "."))
      end
  end.

(** [except EnvironmentError: raise] and [except Exception as e: raise
    EnvironmentError(...) from e]. *)
Definition reraise {A} (name : string) (variant : option string) (r : load_error + A)
    : load_error + A :=
  match r with
  | inl (OtherError _) =>
      inl (EnvironmentError
             ("Can't load the model for '" +:+ name +:+ "'. If you were trying to load it"
              +:+ " from 'https://huggingface.co/models', make sure you don't have a local directory with the"
              +:+ " same name. Otherwise, make sure '" +:+ name +:+ "' is the correct path to a"
              +:+ " directory containing a file named " +:+ add_variant WEIGHTS_NAME variant +:+ "."))
  | _ => r
  end.

(** The block of [load_low_bit] that finds the weights, from [is_sharded =
    False] to the two [logger.info]: the resolved file, [is_sharded], and the
    record logged.  A local directory in which none of the four files is
    found leaves [archive_file] unbound. *)
Definition resolve_archive_file (pretrained_model_name_or_path : option string)
    (subfolder : string) (variant : option string) (use_safetensors : option bool)
    : load_error + (option string * bool * list log_record) :=
  let use_safetensors :=
    if bool_decide (use_safetensors = None) && negb is_safetensors_available
    then Some false else use_safetensors in
  match pretrained_model_name_or_path with
  | None => mret (None, false, [])
  | Some name =>
      let local (archive_file : string) (is_sharded : bool) :=
        mret (Some archive_file, is_sharded,
              [LogRecord INFO ("loading weights file " +:+ archive_file)]) in
      let remote (filename resolved_archive_file : string) (is_sharded : bool) :=
        mret (Some resolved_archive_file, is_sharded,
              [LogRecord INFO ("loading weights file " +:+ filename +:+ " from cache at "
                               +:+ resolved_archive_file)]) in
      if os_path_isdir name then
        if os_path_isfile (os_path_join [name; subfolder; add_variant WEIGHTS_NAME variant])
        then local (os_path_join [name; subfolder; add_variant WEIGHTS_NAME variant]) false
        else if os_path_isfile
                  (os_path_join [name; subfolder; add_variant WEIGHTS_INDEX_NAME variant])
        then local (os_path_join [name; subfolder; add_variant WEIGHTS_INDEX_NAME variant])
               true
        else if os_path_isfile
                  (os_path_join [name; subfolder; add_variant SAFE_WEIGHTS_NAME variant])
        then local (os_path_join [name; subfolder; add_variant SAFE_WEIGHTS_NAME variant])
               false
        else if os_path_isfile
                  (os_path_join [name; subfolder; add_variant SAFE_WEIGHTS_INDEX_NAME variant])
        then local (os_path_join [name; subfolder;
                                  add_variant SAFE_WEIGHTS_INDEX_NAME variant]) true
        else inl (OtherError (UnboundLocalError "archive_file"))
      else if os_path_isfile (os_path_join [subfolder; name]) then local name false
      else if is_remote_url name then
        resolved_archive_file ← download_url name;
        remote name resolved_archive_file false
      else
        let filename :=
          if negb (bool_decide (use_safetensors = Some false))
          then add_variant SAFE_WEIGHTS_NAME variant
          else add_variant WEIGHTS_NAME variant in
        reraise name variant (fetch name variant use_safetensors filename) ≫=
        fun found : string * string * bool =>
          remote found.1.1 found.1.2 found.2
  end.

End Checkpoint.

(** A cache that holds the PyTorch weights of a repository and nothing
    else. *)
Definition example_cached_file (name filename : string) : load_error + option string :=
  if String.eqb filename "pytorch_model.bin" then inr (Some ("cache/" +:+ name +:+ "/" +:+ filename))
  else inr None.

(** A cache that holds a sharded safetensors checkpoint: the index, and not
    the single file. *)
Definition example_safetensors_cache (name filename : string) : load_error + option string :=
  if String.eqb filename "model.safetensors.index.json" then inr (Some ("cache/" +:+ filename))
  else inr None.

(** [os.path.join] on relative components: the empty ones are skipped. *)
Definition example_join (components : list string) : string :=
  String.concat "/" (filter (fun c => negb (String.eqb c "")) components).

(** ** The example script [run_generation_cpu_woq.py] *)

(** The command-line arguments that decide the configuration and the
    load. *)
Record script_args := ScriptArgs {
  arg_woq : bool;
  arg_woq_algo : string;
  arg_bits : Z;
  arg_weight_dtype : string;
  arg_scale_dtype : string;
  arg_compute_dtype : string;
  arg_group_size : Z;
  arg_scheme : option string;
  arg_bitsandbytes : bool;
  arg_load_in_4bit : bool;
  arg_load_in_8bit : bool;
  arg_use_neural_speed : bool
}.

(** [args.scheme = "asym" if args.scheme is None and args.woq_algo ==
    "AutoRound" else "sym"] *)
Definition scheme (args : script_args) : string :=
  if bool_decide (arg_scheme args = None) && String.eqb (arg_woq_algo args) "AutoRound"
  then "asym" else "sym".

(** A call of the constructor of a configuration class, with those of its
    keyword arguments that describe the quantization scheme; [None] is a
    keyword that the call does not pass. *)
Record config_call := ConfigCall {
  call_class : config_class;
  call_bits : option Z;
  call_sym : option bool;
  call_zero_point : option bool;
  call_group_size : option Z;
  call_compute_dtype : option string;
  call_scale_dtype : option string;
  call_weight_dtype : option string
}.

Definition print (line : string) : ST (list string) unit :=
  modify (fun out => (out ++ [line])%list).

Definition weight_only_call (cls : config_class) (args : script_args)
    (sym zero_point : option bool) : config_call :=
  {| call_class := cls; call_bits := Some (arg_bits args); call_sym := sym;
     call_zero_point := zero_point; call_group_size := Some (arg_group_size args);
     call_compute_dtype := Some (arg_compute_dtype args);
     call_scale_dtype := Some (arg_scale_dtype args);
     call_weight_dtype := Some (arg_weight_dtype args) |}.

(** The block "woq/bitsandbytes config setting". *)
Definition script_quantization_config (args : script_args)
    : ST (list string) (option config_call) :=
  let is_sym := String.eqb (scheme args) "sym" in
  if arg_woq args then
    if String.eqb (arg_woq_algo args) "Rtn"
    then mret (Some (weight_only_call RtnConfig args (Some is_sym) None))
    else if String.eqb (arg_woq_algo args) "Awq"
    then mret (Some (weight_only_call AwqConfig args None (Some (negb is_sym))))
    else if String.eqb (arg_woq_algo args) "Teq"
    then mret (Some (weight_only_call TeqConfig args (Some is_sym) None))
    else if String.eqb (arg_woq_algo args) "GPTQ"
    then mret (Some (weight_only_call GPTQConfig args (Some is_sym) None))
    else if String.eqb (arg_woq_algo args) "AutoRound"
    then mret (Some (weight_only_call AutoRoundConfig args (Some is_sym) None))
    else raise (AssertionError "Please set the correct '--woq_algo'")
  else if arg_bitsandbytes args then
    mret (Some {| call_class := BitsAndBytesConfig; call_bits := None; call_sym := None;
                  call_zero_point := None; call_group_size := None;
                  call_compute_dtype := None; call_scale_dtype := None;
                  call_weight_dtype := None |})
  else
    print "The quantization_config is None.";;
    mret None.

Section Script.

(** The constructors of the configuration classes, of [..utils]. *)
Variable new_config : config_call -> quantization_config.

(** The call of [from_pretrained] under "get optimized model", if there is
    one: the script passes neither [device_map] nor [config], and always
    passes [use_neural_speed].  [config_model_type] and
    [config_quantization_config] are what [AutoConfig] reads from the
    checkpoint. *)
Definition script_request (args : script_args) (quantization_config : option config_call)
    (config_model_type : option string)
    (config_quantization_config : option (option saved_dict)) : option request :=
  match quantization_config with
  | Some call =>
      Some {| rq_model_file := None; rq_model_type := None; rq_hub_model_type := None;
              rq_use_embedding_runtime := false; rq_device_map := "cpu";
              rq_quantization_config := Some (new_config call);
              rq_config_model_type := config_model_type;
              rq_config_quantization_config := config_quantization_config;
              rq_use_llm_runtime := None;
              rq_use_neural_speed := Some (arg_use_neural_speed args);
              rq_load_in_8bit := false; rq_load_in_4bit := false; rq_torch_dtype := None |}
  | None =>
      if arg_load_in_4bit args || arg_load_in_8bit args then
        Some {| rq_model_file := None; rq_model_type := None; rq_hub_model_type := None;
                rq_use_embedding_runtime := false; rq_device_map := "cpu";
                rq_quantization_config := None;
                rq_config_model_type := config_model_type;
                rq_config_quantization_config := config_quantization_config;
                rq_use_llm_runtime := None;
                rq_use_neural_speed := Some (arg_use_neural_speed args);
                rq_load_in_8bit := arg_load_in_8bit args;
                rq_load_in_4bit := arg_load_in_4bit args; rq_torch_dtype := None |}
      else None
  end.

End Script.

(** [--woq --woq_algo GPTQ --bits 4 --weight_dtype int4_clip --scheme asym] *)
Definition example_script_args : script_args :=
  {| arg_woq := true; arg_woq_algo := "GPTQ"; arg_bits := 4; arg_weight_dtype := "int4_clip";
     arg_scale_dtype := "fp32"; arg_compute_dtype := "fp32"; arg_group_size := 128;
     arg_scheme := Some "asym"; arg_bitsandbytes := false; arg_load_in_4bit := false;
     arg_load_in_8bit := false; arg_use_neural_speed := false |}.

(** A constructor that stores its keyword arguments. *)
Definition example_new_config (call : config_call) : quantization_config :=
  {| qc_class := call_class call; bits := call_bits call;
     weight_dtype := call_weight_dtype call; scale_dtype := call_scale_dtype call;
     compute_dtype := DStr <$> call_compute_dtype call;
     group_size := default 32%Z (call_group_size call);
     sym := call_sym call; zero_point := call_zero_point call |}.

(** * Properties *)

(** ** Python preliminaries *)

Lemma in_list_true x l : Py.in_list x l = true <-> In x l.
Proof.
  unfold Py.in_list. rewrite existsb_exists. split.
  - intros (y & Hy & Heq). apply String.eqb_eq in Heq. now subst.
  - intros Hin. exists x. split; [assumption | apply String.eqb_refl].
Qed.

Lemma prefix_append sub s t :
  String.prefix sub s = true -> String.prefix sub (s +:+ t) = true.
Proof.
  revert s. induction sub as [| a sub IH]; intros s H; [now destruct (s +:+ t) |].
  destruct s as [| b s]; simpl in *; [discriminate |].
  destruct (Ascii.ascii_dec a b); [now apply IH | discriminate].
Qed.

Lemma contains_cons sub b s :
  Py.contains sub (String b s) =
  if String.prefix sub (String b s) then true else Py.contains sub s.
Proof. reflexivity. Qed.

Lemma contains_append sub s t :
  Py.contains sub s = true -> Py.contains sub (s +:+ t) = true.
Proof.
  induction s as [| b s IH].
  - destruct sub as [| a sub]; simpl; [now destruct t | discriminate].
  - change (String b s +:+ t) with (String b (s +:+ t)).
    rewrite !contains_cons.
    destruct (String.prefix sub (String b s)) eqn:E; intros H.
    + change (String b (s +:+ t)) with (String b s +:+ t).
      now rewrite (prefix_append _ _ t E).
    + rewrite (IH H). now destruct (String.prefix sub (String b (s +:+ t))).
Qed.

Lemma append_cons a (s t : string) : String a s +:+ t = String a (s +:+ t).
Proof. reflexivity. Qed.

Lemma append_assoc (s t u : string) : (s +:+ t) +:+ u = s +:+ (t +:+ u).
Proof.
  induction s as [| a s IH]; [reflexivity |].
  rewrite !append_cons. now rewrite IH.
Qed.

Lemma append_nil_r (s : string) : s +:+ "" = s.
Proof.
  induction s as [| a s IH]; [reflexivity |].
  rewrite append_cons. now rewrite IH.
Qed.

(** ** The module graph *)

(** Induction on the graph, with the hypothesis on every child. *)
Lemma module_ind' (P : module -> Prop) :
  (forall i o b, P (Linear i o b)) ->
  (forall w, P (WeightOnlyLinear w)) ->
  (forall q, P (QuantizedLinearQBits q)) ->
  (forall x, P (WeightOnlyQuantizedLinear x)) ->
  (forall ch, Forall (fun nc => P (snd nc)) ch -> P (Other ch)) ->
  forall m, P m.
Proof.
  intros HL HW HQ HX HO.
  fix IH 1. intros [i o b | w | q | x | ch].
  - apply HL.
  - apply HW.
  - apply HQ.
  - apply HX.
  - apply HO. induction ch as [| [n c] ch IHch]; constructor.
    + apply IH.
    + apply IHch.
Qed.

(** ** Qualified names *)

Lemma qualname_app (p r : path) :
  p <> [] -> exists t, qualname (p ++ r) = qualname p +:+ t.
Proof.
  induction p as [| n p IH]; intros Hne; [congruence |].
  destruct p as [| n' p].
  - destruct r as [| x r].
    + exists "". simpl. now rewrite append_nil_r.
    + exists ("." +:+ qualname (x :: r)). reflexivity.
  - destruct IH as [t Ht]; [discriminate |].
    exists t. change (qualname ((n :: n' :: p) ++ r))
      with (n +:+ "." +:+ qualname ((n' :: p) ++ r)).
    rewrite Ht. change (qualname (n :: n' :: p)) with (n +:+ "." +:+ qualname (n' :: p)).
    now rewrite !append_assoc.
Qed.

Lemma excluded_append s t : excluded s = true -> excluded (s +:+ t) = true.
Proof.
  unfold excluded. rewrite !orb_true_iff.
  intros [[H | H] | H]; eauto using contains_append.
Qed.

Lemma excluded_below (p r : path) :
  excluded (qualname p) = true -> excluded (qualname (p ++ r)) = true.
Proof.
  intros H. destruct p as [| n p]; [discriminate H |].
  destruct (qualname_app (n :: p) r) as [t ->]; [discriminate |].
  now apply excluded_append.
Qed.

(** ** Ordered dictionaries and paths *)

Lemma assoc_update_eq {A} k (f : A -> A) l :
  assoc k (update k f l) = f <$> assoc k l.
Proof.
  induction l as [| [k' v] l IH]; simpl; [reflexivity |].
  destruct (String.eqb k k') eqn:E; simpl; rewrite E; [reflexivity | exact IH].
Qed.

Lemma assoc_update_ne {A} k k' (f : A -> A) l :
  k <> k' -> assoc k' (update k f l) = assoc k' l.
Proof.
  intros Hne. induction l as [| [k0 v] l IH]; simpl; [reflexivity |].
  destruct (String.eqb k k0) eqn:E; simpl.
  - apply String.eqb_eq in E. subst k0.
    destruct (String.eqb k' k) eqn:E'; [| reflexivity].
    apply String.eqb_eq in E'. congruence.
  - now rewrite IH.
Qed.

Lemma assoc_In {A} k (v : A) l : assoc k l = Some v -> In (k, v) l.
Proof.
  induction l as [| [k' v'] l IH]; simpl; [discriminate |].
  destruct (String.eqb k k') eqn:E.
  - apply String.eqb_eq in E. intros [= ->]. left. now subst.
  - intros H. right. now apply IH.
Qed.

Lemma In_assoc {A} k (v : A) l :
  distinct_names (map fst l) = true -> In (k, v) l -> assoc k l = Some v.
Proof.
  induction l as [| [k' v'] l IH]; simpl; [contradiction |].
  rewrite andb_true_iff, negb_true_iff. intros [Hfresh Hd] [Heq | Hin].
  - injection Heq as -> ->. now rewrite String.eqb_refl.
  - destruct (String.eqb k k') eqn:E; [| now apply IH].
    apply String.eqb_eq in E. subst k'. exfalso.
    assert (Py.in_list k (map fst l) = true) as Hc; [| congruence].
    apply in_list_true. apply (in_map fst) in Hin. exact Hin.
Qed.

Lemma get_module_leaf m n p :
  is_leaf m = true -> get_module m (n :: p) = None.
Proof. now destruct m. Qed.

Lemma get_module_app m p r :
  get_module m (p ++ r) = get_module m p ≫= fun c => get_module c r.
Proof.
  revert m. induction p as [| n p IH]; intros m; simpl; [reflexivity |].
  destruct (assoc n (children m)); [apply IH | reflexivity].
Qed.

(** Rebinding at [q] leaves every path that neither passes through [q] nor
    leads to it. *)
Lemma get_rebind_unrelated new_module q : forall m p,
  ~ q `prefix_of` p -> ~ p `prefix_of` q ->
  get_module (rebind m q new_module) p = get_module m p.
Proof.
  induction q as [| n q IH]; intros m p Hqp Hpq.
  - exfalso. apply Hqp. apply prefix_nil.
  - destruct p as [| n' p]; [exfalso; apply Hpq, prefix_nil |].
    destruct m as [i o b | w | x | y | ch]; try reflexivity.
    simpl. destruct (decide (n = n')) as [<- | Hne].
    + rewrite assoc_update_eq. destruct (assoc n ch) as [c |]; simpl; [| reflexivity].
      apply IH.
      * intros Hp. apply Hqp. now apply prefix_cons.
      * intros Hp. apply Hpq. now apply prefix_cons.
    + now rewrite assoc_update_ne.
Qed.

(** Rebinding a childless module at [q] keeps absent what was absent below
    [q]. *)
Lemma get_rebind_below new_module q r : forall m,
  is_leaf new_module = true -> r <> [] ->
  get_module m (q ++ r) = None ->
  get_module (rebind m q new_module) (q ++ r) = None.
Proof.
  induction q as [| n q IH]; intros m Hleaf Hr Hnone.
  - destruct r as [| x r]; [congruence |].
    change (get_module new_module (x :: r) = None). now apply get_module_leaf.
  - destruct m as [i o b | w | x | y | ch]; try reflexivity.
    simpl in *. rewrite assoc_update_eq.
    destruct (assoc n ch) as [c |]; simpl; [| reflexivity].
    now apply IH.
Qed.

(** Every pair that [named_modules] yields names the module found at that
    path. *)
Lemma named_modules_get m : forall pre q c,
  wf_module m = true ->
  In (q, c) (named_modules pre m) ->
  exists k, q = pre ++ k /\ get_module m k = Some c.
Proof.
  induction m as [i o b | w | x | y | ch IH] using module_ind'; intros pre q c Hwf Hin;
    try (destruct Hin as [[= <- <-] | []]; exists []; split;
         [now rewrite app_nil_r | reflexivity]).
  destruct Hin as [[= <- <-] | Hin].
  { exists []. split; [now rewrite app_nil_r | reflexivity]. }
  simpl in Hwf. apply andb_true_iff in Hwf as [Hd Hwf].
  enough (exists n c' k, In (n, c') ch /\ q = pre ++ n :: k /\ get_module c' k = Some c)
    as (n & c' & k & Hin' & -> & Hget).
  { exists (n :: k). split; [reflexivity |]. simpl.
    now rewrite (In_assoc _ _ _ Hd Hin'). }
  clear Hd. induction ch as [| [n c'] ch IHch]; [contradiction |].
  inversion IH as [| ? ? Hc Hrest]; subst.
  apply andb_true_iff in Hwf as [Hwc Hwrest].
  apply in_app_or in Hin as [Hin | Hin].
  - destruct (Hc _ _ _ Hwc Hin) as (k & -> & Hget).
    exists n, c', k. split; [now left |]. split; [| exact Hget].
    now rewrite <- app_assoc.
  - destruct (IHch Hrest Hwrest Hin) as (n0 & c0 & k & Hin' & Hq & Hget).
    exists n0, c0, k. split; [now right | now split].
Qed.

(** ** [build_woq_model] leaves the output heads alone *)

Lemma build_woq_step_excluded q model0 acc nm p :
  wf_module model0 = true ->
  In nm (named_modules [] model0) ->
  excluded (qualname p) = true ->
  get_module acc p = get_module model0 p ->
  get_module (build_woq_step q acc nm) p = get_module model0 p.
Proof.
  intros Hwf Hin Hex Hacc. destruct nm as [n m]. unfold build_woq_step.
  destruct (excluded (qualname n)) eqn:En; [exact Hacc |].
  destruct m as [i o b | w | x | y | ch]; try exact Hacc.
  destruct n as [| n0 n]; [exact Hacc |].
  unfold set_module. rewrite <- Hacc.
  destruct (decide ((n0 :: n) `prefix_of` p)) as [[k ->] | Hnp].
  - destruct k as [| k0 k]; [rewrite app_nil_r in Hex; congruence |].
    assert (get_module acc ((n0 :: n) ++ k0 :: k) = None) as Hnone.
    { rewrite Hacc, get_module_app.
      destruct (named_modules_get _ _ _ _ Hwf Hin) as (k' & Hk & Hget).
      simpl in Hk. subst k'. now rewrite Hget. }
    rewrite Hnone. now apply get_rebind_below.
  - destruct (decide (p `prefix_of` (n0 :: n))) as [[k Hk] | Hpn].
    + rewrite Hk in En. rewrite (excluded_below _ _ Hex) in En. discriminate.
    + now apply get_rebind_unrelated.
Qed.

Lemma build_woq_fold_excluded q model0 p l : forall acc,
  wf_module model0 = true ->
  (forall nm, In nm l -> In nm (named_modules [] model0)) ->
  excluded (qualname p) = true ->
  get_module acc p = get_module model0 p ->
  get_module (fold_left (build_woq_step q) l acc) p = get_module model0 p.
Proof.
  induction l as [| nm l IH]; intros acc Hwf Hsub Hex Hacc; [exact Hacc |].
  simpl. apply IH; try assumption.
  - intros nm' Hin. apply Hsub. now right.
  - apply build_woq_step_excluded; try assumption. apply Hsub. now left.
Qed.

(** C5.  For every model graph (with the distinct child names of a dictionary)
    and every configuration, [build_woq_model] leaves in place whatever sits
    at a qualified name containing "lm_head", "output_layer" or "embed_out":
    the submodule found there afterwards is the one found there before, so a
    dense linear layer under such a name stays a dense linear layer. *)
Theorem build_woq_model_keeps_excluded (model : module) (q : quantization_config)
    (p : path) :
  wf_module model = true ->
  excluded (qualname p) = true ->
  get_module (build_woq_model model q) p = get_module model p.
Proof.
  intros Hwf Hex. unfold build_woq_model.
  apply build_woq_fold_excluded; auto.
Qed.

Lemma build_woq_model_keeps_excluded_witness :
  get_module (build_woq_model example_model example_rtn_config) ["lm_head"]
  = Some (Linear 768 32000 None).
Proof.
  rewrite (build_woq_model_keeps_excluded example_model example_rtn_config ["lm_head"]);
    reflexivity.
Defined.

(** The same call does pack the dense layer of the decoder block. *)
Example build_woq_model_packs_mlp :
  get_module (build_woq_model example_model example_rtn_config)
    ["model"; "layers"; "0"; "mlp"]
  = Some (WeightOnlyLinear
            (WeightOnlyLinear_init 768 3072 (Some 4%Z) 128 "int" false false "fp32" true true)).
Proof. reflexivity. Qed.

(** ** [recover_export_model] restores the permutation *)

Section RecoverFacts.

Variable pack : pack_method.

Lemma recover_export_model_Other ch :
  recover_export_model pack (Other ch)
  = Other (map (fun nc => (fst nc, recover_child pack (snd nc))) ch).
Proof.
  simpl. f_equal. induction ch as [| [n c] ch IH]; [reflexivity |].
  simpl. now rewrite IH.
Qed.

Lemma assoc_map_values {A} (f : A -> A) n l :
  assoc n (map (fun nc => (fst nc, f (snd nc))) l) = f <$> assoc n l.
Proof.
  induction l as [| [k v] l IH]; simpl; [reflexivity |].
  destruct (String.eqb n k); [reflexivity | exact IH].
Qed.

Lemma recover_linear_g_idx q g :
  qb_g_idx q = Some g -> wol_g_idx (recover_linear pack q) = Some g.
Proof. intros H. unfold recover_linear. now rewrite H. Qed.

Lemma recover_export_model_get p : forall model q,
  p <> [] ->
  get_module model p = Some (QuantizedLinearQBits q) ->
  get_module (recover_export_model pack model) p
  = Some (WeightOnlyLinear (recover_linear pack q)).
Proof.
  induction p as [| n p IH]; intros model q Hne Hget; [congruence |].
  destruct model as [i o b | w | x | y | ch]; try discriminate Hget.
  rewrite recover_export_model_Other. simpl in *.
  rewrite assoc_map_values.
  destruct (assoc n ch) as [c |]; [| discriminate]. simpl.
  destruct p as [| n' p].
  - injection Hget as ->. reflexivity.
  - destruct c as [i o b | w | x | y | [| c0 ch']]; try discriminate Hget.
    unfold recover_child. now apply IH.
Qed.

End RecoverFacts.

(** C7.  After [recover_export_model], every rewritten module (a
    [QuantizedLinearQBits] at a path [p] below the root) whose recovered
    [g_idx] is not [None] has become a [WeightOnlyLinear] whose [g_idx] field
    is that very array, whatever [pack] has done with its arguments. *)
Theorem recover_export_model_restores_g_idx (pack : pack_method) (model : module)
    (p : path) (q : qbits_linear) (g_idx : tensor) :
  p <> [] ->
  get_module model p = Some (QuantizedLinearQBits q) ->
  qb_g_idx q = Some g_idx ->
  exists w, get_module (recover_export_model pack model) p = Some (WeightOnlyLinear w)
            /\ wol_g_idx w = Some g_idx.
Proof.
  intros Hne Hget Hg. exists (recover_linear pack q). split.
  - now apply recover_export_model_get.
  - now apply recover_linear_g_idx.
Qed.

Lemma recover_export_model_restores_g_idx_witness :
  exists w,
    get_module (recover_export_model nc_pack example_packed_graph)
      ["model"; "layers"; "0"; "mlp"] = Some (WeightOnlyLinear w)
    /\ wol_g_idx w = Some [2; 0; 1; 3]%Z.
Proof.
  apply (recover_export_model_restores_g_idx nc_pack example_packed_graph
           ["model"; "layers"; "0"; "mlp"] example_qbits [2; 0; 1; 3]%Z);
    [discriminate | reflexivity | reflexivity].
Defined.

(** Without the assignment after [pack], the optimum-format packer would have
    left [argsort(g_idx) // groupsize] in the field. *)
Example nc_pack_rewrites_g_idx :
  wol_g_idx (nc_pack (WeightOnlyLinear_init 4 2 (Some 4%Z) 2 "int" false false "fp32" true true)
               [1; 2; 3; 4; 5; 6; 7; 8]%Z [1; 1; 1; 1]%Z None None (Some [2; 0; 1; 3]%Z))
  = Some [0; 1; 0; 1]%Z.
Proof. reflexivity. Qed.

(** ** [save_low_bit] on a path that is a file *)

(** C9, as the code has it.  With [save_directory] an existing file:
    on a model that has a [quantization_config], [save_low_bit] logs one
    error and returns, the files and the model object unchanged (no layout
    conversion, [save_pretrained] still bound, nothing written); on a model
    without one, the assertion that opens the function fails before the
    path is looked at, and nothing is logged. *)
Theorem save_low_bit_on_file (pack : pack_method) (WEIGHTS_NAME QUANT_CONFIG : string)
    (save_directory : string) (push_to_hub : bool) (use_auth_token : option string)
    (w : world) :
  isfile (fs w) save_directory = true ->
  (forall q, quantization_config_attr (self_obj w) = Some q ->
     save_low_bit pack WEIGHTS_NAME QUANT_CONFIG save_directory push_to_hub use_auth_token w
     = (Return tt,
        World (fs w) (self_obj w)
          (log w ++ [LogRecord ERROR ("Provided path (" +:+ save_directory +:+
                                      ") should be a directory, not a file")])))
  /\ (quantization_config_attr (self_obj w) = None ->
      save_low_bit pack WEIGHTS_NAME QUANT_CONFIG save_directory push_to_hub use_auth_token w
      = (Raise (AssertionError "Detected this model is not a low-bit model."), w)).
Proof.
  intros Hfile. split.
  - intros q Hq. unfold save_low_bit, mbind, ST_bind, get. simpl.
    rewrite Hq, Hfile. reflexivity.
  - intros Hq. unfold save_low_bit, mbind, ST_bind, get. simpl.
    rewrite Hq. reflexivity.
Qed.

Lemma save_low_bit_on_file_witness :
  save_low_bit nc_pack "pytorch_model.bin" "quantize_config.json" "out/model.bin" false None
    (World example_fs example_low_bit_model [])
  = (Return tt,
     World example_fs example_low_bit_model
       [LogRecord ERROR "Provided path (out/model.bin) should be a directory, not a file"]).
Proof.
  apply (proj1 (save_low_bit_on_file nc_pack "pytorch_model.bin" "quantize_config.json"
                  "out/model.bin" false None (World example_fs example_low_bit_model [])
                  ltac:(reflexivity)) example_gptq_config).
  reflexivity.
Defined.

(** C9 does not hold as stated on a model that has no [quantization_config]:
    the path is an existing file, yet the call raises instead of logging and
    returning. *)
Lemma save_low_bit_on_file_counterexample :
  isfile example_fs "out/model.bin" = true
  /\ save_low_bit nc_pack "pytorch_model.bin" "quantize_config.json" "out/model.bin" false None
       (World example_fs example_plain_model [])
     = (Raise (AssertionError "Detected this model is not a low-bit model."),
        World example_fs example_plain_model []).
Proof. split; reflexivity. Qed.

(** On a directory the same model is converted to the portable layout, its
    parameters made contiguous, and four files are written. *)
Example save_low_bit_on_directory :
  let '(r, w) :=
    save_low_bit nc_pack "pytorch_model.bin" "quantize_config.json" "out" false None
      (World example_fs example_low_bit_model []) in
  r = Return tt
  /\ graph (self_obj w) = recover_export_model nc_pack example_packed_graph
  /\ contiguous (self_obj w) = true
  /\ save_pretrained_bound (self_obj w) = true
  /\ fs w !! "out/all_checkpoint_keys.json"
     = Some (File (Some (AllCheckpointKeys (recover_export_model nc_pack example_packed_graph))))
  /\ fs w !! "out/quantize_config.json"
     = Some (File (Some (QuantizeConfigJson example_gptq_config))).
Proof. vm_compute. repeat split. Qed.

(** ** Reloading: the resolution of the dtypes *)

Ltac run_st :=
  unfold mbind, mret, ST_bind, ST_ret, logger, modify, raise, exit, get; simpl.


(** C1, as the code has it.  With [weight_dtype] unset, [bits = 4] gives
    "int4_clip" and [bits = 8] gives "int8"; every other [bits] value also
    gives "int4_clip", with two warnings and no error.  A [weight_dtype] that
    is set decides alone, whatever [bits] is: a recognized one is kept, any
    other one raises [ValueError]. *)
Theorem resolve_weight_dtype_policy (q : quantization_config) (lg : list log_record) :
  (weight_dtype q = None -> bits q = Some 4%Z ->
     exists lg', resolve_weight_dtype q lg = (Return (set_weight_dtype q "int4_clip"), lg'))
  /\ (weight_dtype q = None -> bits q = Some 8%Z ->
     exists lg', resolve_weight_dtype q lg = (Return (set_weight_dtype q "int8"), lg'))
  /\ (weight_dtype q = None -> bits q <> Some 4%Z -> bits q <> Some 8%Z ->
     resolve_weight_dtype q lg
     = (Return (set_weight_dtype q "int4_clip"), lg ++ bits_warnings))
  /\ (forall w, weight_dtype q = Some w -> Py.in_list w recognized_weight_dtypes = true ->
     exists lg', resolve_weight_dtype q lg = (Return q, lg'))
  /\ (forall w, weight_dtype q = Some w -> Py.in_list w recognized_weight_dtypes = false ->
     exists msg lg', resolve_weight_dtype q lg = (Raise (ValueError msg), lg')).
Proof.
  unfold resolve_weight_dtype. repeat split.
  - intros -> ->. eexists. reflexivity.
  - intros -> ->. eexists. reflexivity.
  - intros -> H4 H8. rewrite !bool_decide_eq_false_2 by assumption.
    run_st. now rewrite <- app_assoc.
  - intros w -> ->. eexists. reflexivity.
  - intros w -> ->. eexists _, _. reflexivity.
Qed.

Lemma resolve_weight_dtype_policy_witness :
  resolve_weight_dtype example_3bit_config []
  = (Return (set_weight_dtype example_3bit_config "int4_clip"), [] ++ bits_warnings).
Proof.
  apply (proj1 (proj2 (proj2 (resolve_weight_dtype_policy example_3bit_config []))));
    [reflexivity | discriminate | discriminate].
Defined.

(** C1 does not hold as stated at [bits = 3]: the step returns a
    configuration, with "int4_clip", and raises nothing. *)
Lemma resolve_weight_dtype_counterexample :
  weight_dtype example_3bit_config = None
  /\ bits example_3bit_config = Some 3%Z
  /\ exists q' lg',
       resolve_weight_dtype example_3bit_config [] = (Return q', lg')
       /\ weight_dtype q' = Some "int4_clip".
Proof. repeat split. eexists _, _. split; reflexivity. Qed.

Lemma resolve_weight_dtype_returns q lg q' lg' :
  resolve_weight_dtype q lg = (Return q', lg') ->
  exists w, weight_dtype q' = Some w /\ Py.in_list w recognized_weight_dtypes = true.
Proof.
  unfold resolve_weight_dtype. destruct (weight_dtype q) as [w |] eqn:Hw.
  - destruct (Py.in_list w recognized_weight_dtypes) eqn:Hin; run_st; [| discriminate].
    intros [= <- _]. eauto.
  - repeat case_bool_decide; run_st; intros [= <- _]; simpl; eauto.
Qed.

Section ReloadFacts.

Variable replace_linear : module -> quantization_config -> string -> bool -> module.
Variable convert_dtype_torch2str : torch_dtype -> string.
Variable cpu_bf16 : bool.

Lemma load_low_bit_unfold q device_map dtype model lg :
  Py.in_list (quant_method_value (qc_class q)) ["static"; "dynamic"; "qat"] = false ->
  load_low_bit replace_linear convert_dtype_torch2str cpu_bf16 q device_map dtype model lg
  = match resolve_scale_dtype
            (resolve_compute_dtype convert_dtype_torch2str cpu_bf16
               (String.eqb device_map "cpu") (String.eqb device_map "xpu") dtype q) lg with
    | (Return q1, lg1) =>
        match resolve_weight_dtype q1 lg1 with
        | (Return q2, lg2) =>
            (Return (Some (q2, allocate_skeleton replace_linear model q2 device_map)), lg2)
        | (Raise e, lg2) => (Raise e, lg2)
        | (Exit c, lg2) => (Exit c, lg2)
        end
    | (Raise e, lg1) => (Raise e, lg1)
    | (Exit c, lg1) => (Exit c, lg1)
    end.
Proof.
  intros Hgate. unfold load_low_bit. rewrite Hgate.
  unfold mbind, ST_bind at 1 2.
  destruct (resolve_scale_dtype _ lg) as [[q1 | e | c] lg1]; reflexivity.
Qed.

End ReloadFacts.

(** C2.  Whenever [load_low_bit] gets as far as the skeleton, the resolved
    weight dtype is one of the recognized ones, and the skeleton is the graph
    built by [replace_linear] with empty weights if that dtype is one of
    "fp8_e5m2", "fp8_e4m3", "fp4", "nf4", "int4_fullrange", and the graph built
    by [build_woq_model] otherwise. *)
Theorem load_low_bit_skeleton
    (replace_linear : module -> quantization_config -> string -> bool -> module)
    (convert_dtype_torch2str : torch_dtype -> string) (cpu_bf16 : bool)
    (q : quantization_config) (device_map : string) (dtype : option torch_dtype)
    (model : module) (lg : list log_record)
    (q' : quantization_config) (skeleton : module) (lg' : list log_record) :
  load_low_bit replace_linear convert_dtype_torch2str cpu_bf16 q device_map dtype model lg
  = (Return (Some (q', skeleton)), lg') ->
  exists w,
    weight_dtype q' = Some w
    /\ Py.in_list w recognized_weight_dtypes = true
    /\ skeleton =
       if Py.in_list w ["fp8_e5m2"; "fp8_e4m3"; "nf4"; "fp4"; "int4_fullrange"]
       then replace_linear model q' (if String.eqb device_map "auto" then "cpu" else device_map)
              true
       else build_woq_model model q'.
Proof.
  destruct (Py.in_list (quant_method_value (qc_class q)) ["static"; "dynamic"; "qat"]) eqn:Hgate.
  { unfold load_low_bit. rewrite Hgate. discriminate. }
  rewrite load_low_bit_unfold by assumption.
  destruct (resolve_scale_dtype _ lg) as [[q1 | e | c] lg1]; try discriminate.
  destruct (resolve_weight_dtype q1 lg1) as [[q2 | e | c] lg2] eqn:Hw; try discriminate.
  intros [= <- <- <-].
  destruct (resolve_weight_dtype_returns _ _ _ _ Hw) as (w & Hq2 & Hrec).
  exists w. repeat split; try assumption.
  unfold allocate_skeleton. rewrite Hq2. unfold Py.opt_in_list.
  unfold recognized_weight_dtypes, Py.in_list in Hrec. simpl in Hrec.
  repeat (apply orb_true_iff in Hrec as [Hrec | Hrec];
          [apply String.eqb_eq in Hrec; subst w; reflexivity |]).
  discriminate.
Qed.

(** ** The dispatcher and neural speed *)





(** ** Calibration: the field that is tokenized *)

(** C6.  [tokenize_function] tokenizes the "code" column if the record has
    one, else the "prompt" column, else the "text" column, and returns; with
    none of the three it logs an error and ends the process with
    [exit(0)]. *)
Theorem tokenize_function_field (encoding : Type) (tokenizer : list string -> encoding)
    (examples : gmap string (list string)) (lg : list log_record) :
  (forall code, examples !! "code" = Some code ->
     tokenize_function encoding tokenizer examples lg = (Return (tokenizer code), lg))
  /\ (forall prompt, examples !! "code" = None -> examples !! "prompt" = Some prompt ->
     tokenize_function encoding tokenizer examples lg = (Return (tokenizer prompt), lg))
  /\ (forall text, examples !! "code" = None -> examples !! "prompt" = None ->
     examples !! "text" = Some text ->
     tokenize_function encoding tokenizer examples lg = (Return (tokenizer text), lg))
  /\ (examples !! "code" = None -> examples !! "prompt" = None ->
     examples !! "text" = None ->
     tokenize_function encoding tokenizer examples lg
     = (Exit 0, lg ++ [dataset_schema_error])).
Proof.
  unfold tokenize_function. repeat split.
  - intros code ->. reflexivity.
  - intros prompt -> ->. reflexivity.
  - intros text -> -> ->. reflexivity.
  - intros -> -> ->. reflexivity.
Qed.

Lemma tokenize_function_field_witness :
  tokenize_function (list tensor) example_tokenizer example_prompt_record []
  = (Return (example_tokenizer ["def f(x):"]), []).
Proof.
  apply (proj1 (proj2 (tokenize_function_field (list tensor) example_tokenizer
                         example_prompt_record [])));
    reflexivity.
Defined.

(** ** Calibration: the length of a batch *)

Lemma length_slice_to (t : tensor) (stop : Z) :
  (0 <= stop)%Z -> length (Torch.slice_to t stop) = min (Z.to_nat stop) (length t).
Proof.
  intros H. unfold Torch.slice_to.
  destruct (Z.ltb_spec stop 0); [lia |]. apply length_take.
Qed.

Section CalibrationFacts.

Variable calib_padding : bool.
Variable calib_len : Z.
Variable calib_pad_val : Z.

(** Without padding the first [calib_len] tokens are kept. *)
Lemma fit_input_ids_no_padding (input_ids : tensor) lg :
  calib_padding = false -> (0 <= calib_len)%Z ->
  fit_input_ids calib_padding calib_len calib_pad_val input_ids lg
  = (Return (take (Z.to_nat calib_len) input_ids), lg).
Proof.
  intros -> Hlen. unfold fit_input_ids. simpl. unfold mret, ST_ret. do 2 f_equal.
  destruct (Z.gtb_spec (Z.of_nat (length input_ids)) calib_len).
  - unfold Torch.slice_to. destruct (Z.ltb_spec calib_len 0); [lia | reflexivity].
  - symmetry. apply take_ge. lia.
Qed.

(** With padding the first [calib_len] tokens are kept and a shorter
    sequence is filled at the right with [calib_pad_val]. *)
Lemma fit_input_ids_padding (input_ids : tensor) lg :
  calib_padding = true -> (0 <= calib_len)%Z ->
  fit_input_ids calib_padding calib_len calib_pad_val input_ids lg
  = (Return (take (Z.to_nat calib_len)
               (input_ids ++ replicate (Z.to_nat calib_len - length input_ids) calib_pad_val)),
     lg).
Proof.
  intros -> Hlen. unfold fit_input_ids, Torch.pad. simpl.
  destruct (Z.leb_spec 0 (calib_len - Z.of_nat (length input_ids))).
  - unfold mret, ST_ret. do 2 f_equal.
    replace (Z.to_nat (calib_len - Z.of_nat (length input_ids)))
      with (Z.to_nat calib_len - length input_ids) by lia.
    symmetry. apply take_ge. rewrite length_app, length_replicate. lia.
  - destruct (Z.ltb_spec (Z.of_nat (length input_ids) + (calib_len - Z.of_nat (length input_ids))) 0);
      [lia |].
    unfold mret, ST_ret. do 2 f_equal.
    replace (Z.to_nat calib_len - length input_ids) with 0 by lia.
    simpl. rewrite app_nil_r. f_equal. lia.
Qed.

Lemma fit_input_ids_returns (input_ids : tensor) lg :
  (0 <= calib_len)%Z ->
  exists row,
    fit_input_ids calib_padding calib_len calib_pad_val input_ids lg = (Return row, lg)
    /\ (calib_padding = false -> length row = min (Z.to_nat calib_len) (length input_ids))
    /\ (calib_padding = true -> length row = Z.to_nat calib_len).
Proof.
  intros Hlen.
  assert (calib_padding = true \/ calib_padding = false) as [Hp | Hp]
    by (destruct calib_padding; auto).
  - eexists. split; [now apply fit_input_ids_padding |]. split; [congruence |].
    intros _. rewrite length_take, length_app, length_replicate. lia.
  - eexists. split; [now apply fit_input_ids_no_padding |]. split; [| congruence].
    intros _. apply length_take.
Qed.

End CalibrationFacts.

Section CollateFacts.

Variable calib_padding : bool.
Variable calib_len : Z.
Variable calib_pad_val : Z.
Variable MODEL_TYPES_REQUIRING_POSITION_IDS : list string.
Variable model_type : string.

(** The batch of one record (the [DataLoader] is built with
    [batch_size=1]). *)
Lemma collate_batch_single (text row : tensor) lg :
  fit_input_ids calib_padding calib_len calib_pad_val text lg = (Return row, lg) ->
  exists b,
    collate_batch calib_padding calib_len calib_pad_val
      MODEL_TYPES_REQUIRING_POSITION_IDS model_type [text] lg
    = (Return (b, [(Z.of_nat (length row) - 1)%Z]), lg)
    /\ b !! "input_ids" = Some (Stacked [row])
    /\ b !! "position_ids"
       = (if Py.in_list model_type MODEL_TYPES_REQUIRING_POSITION_IDS
          then Some (Stacked [Torch.arange (length row)]) else None).
Proof.
  intros Hfit. unfold collate_batch. cbn [mapM].
  unfold mbind at 1. unfold ST_bind at 1.
  unfold mbind at 1. unfold ST_bind at 1.
  unfold mbind at 1. unfold ST_bind at 1.
  rewrite Hfit.
  destruct (Py.in_list model_type MODEL_TYPES_REQUIRING_POSITION_IDS);
    (eexists; split; [reflexivity | split; reflexivity]).
Qed.

Lemma collate_batch_static_single (text row : tensor) lg :
  fit_input_ids calib_padding calib_len calib_pad_val text lg = (Return row, lg) ->
  exists b,
    collate_batch_static calib_padding calib_len calib_pad_val [text] lg
    = (Return (b, [(Z.of_nat (length row) - 1)%Z]), lg)
    /\ b !! "input_ids" = Some (Stacked [row])
    /\ b !! "position_ids" = None.
Proof.
  intros Hfit. unfold collate_batch_static. cbn [mapM].
  unfold mbind at 1. unfold ST_bind at 1.
  unfold mbind at 1. unfold ST_bind at 1.
  unfold mbind at 1. unfold ST_bind at 1.
  rewrite Hfit.
  eexists; split; [reflexivity | split; reflexivity].
Qed.

Variable auto_config : string.
Variable prepare_position_ids : matrix -> matrix.

Lemma collate_batch_for_chatglm_single (text : tensor) lg :
  exists b last,
    collate_batch_for_chatglm calib_len auto_config prepare_position_ids [text] lg
    = (Return (b, last), lg)
    /\ b !! "input_ids" = Some (Stacked [chatglm_row calib_len auto_config text])
    /\ b !! "position_ids" = Some (Stacked (prepare_position_ids [chatglm_row calib_len auto_config text])).
Proof.
  unfold collate_batch_for_chatglm, chatglm_row. cbn [mapM].
  destruct (re_search "THUDM/chatglm-6b" auto_config); rewrite ?app_nil_r;
    (eexists _, _; split; [reflexivity | split; reflexivity]).
Qed.

Lemma length_chatglm_row (text : tensor) :
  (0 <= calib_len)%Z ->
  length (chatglm_row calib_len auto_config text)
  = min (Z.to_nat calib_len) (length text)
    + (if re_search "THUDM/chatglm-6b" auto_config then 2 else 0).
Proof.
  intros Hlen. unfold chatglm_row. rewrite length_app. f_equal.
  - destruct (Z.gtb_spec (Z.of_nat (length text)) calib_len).
    + now apply length_slice_to.
    + lia.
  - now destruct (re_search "THUDM/chatglm-6b" auto_config).
Qed.

Lemma chatglm_row_tokens (text : tensor) :
  (0 <= calib_len)%Z ->
  chatglm_row calib_len auto_config text
  = take (Z.to_nat calib_len) text
    ++ (if re_search "THUDM/chatglm-6b" auto_config then [130001; 130004]%Z else []).
Proof.
  intros Hlen. unfold chatglm_row. f_equal.
  destruct (Z.gtb_spec (Z.of_nat (length text)) calib_len).
  - unfold Torch.slice_to. destruct (Z.ltb_spec calib_len 0); [lia | reflexivity].
  - symmetry. apply take_ge. lia.
Qed.

End CollateFacts.

(** *** Batches of any size *)

Lemma mapM_ST_inv {S A B} (f : A -> ST S B) (l : list A) : forall s rows s',
  mapM f l s = (Return rows, s') ->
  Forall2 (fun x y => exists s1 s2, f x s1 = (Return y, s2)) l rows.
Proof.
  induction l as [| x l IH]; intros s rows s'; cbn [mapM].
  - intros [= <- _]. constructor.
  - unfold mbind at 1. unfold ST_bind at 1.
    destruct (f x s) as [[y | e | c] s1] eqn:Hx; try discriminate.
    unfold mbind at 1. unfold ST_bind at 1.
    destruct (mapM f l s1) as [[k | e | c] s2] eqn:Hl; try discriminate.
    intros [= <- _]. constructor; [eauto | eapply IH; eauto].
Qed.

Lemma vstack_inv (rows : list tensor) s m s' :
  Torch.vstack rows s = (Return m, s') -> m = rows /\ s' = s.
Proof.
  unfold Torch.vstack. destruct rows as [| r rest]; [discriminate |].
  destruct (forallb (fun r' => Nat.eqb (length r') (length r)) rest); [| discriminate].
  now intros [= <- <-].
Qed.

Lemma fit_input_ids_inv calib_padding calib_len calib_pad_val (text row : tensor) s s' :
  fit_input_ids calib_padding calib_len calib_pad_val text s = (Return row, s') ->
  (calib_padding = true -> Z.of_nat (length row) = calib_len)
  /\ (calib_padding = false -> (0 <= calib_len)%Z ->
      (Z.of_nat (length row) <= calib_len)%Z).
Proof.
  unfold fit_input_ids. destruct calib_padding; cbn [negb].
  - unfold Torch.pad.
    destruct (Z.leb_spec 0 (calib_len - Z.of_nat (length text))).
    + intros [= <- _]. split; [| discriminate]. intros _.
      rewrite length_app, length_replicate. lia.
    + destruct (Z.ltb_spec (Z.of_nat (length text) + (calib_len - Z.of_nat (length text))) 0);
        [discriminate |].
      intros [= <- _]. split; [| discriminate]. intros _. rewrite length_take. lia.
  - intros [= <- _]. split; [discriminate |]. intros _ Hlen.
    destruct (Z.gtb_spec (Z.of_nat (length text)) calib_len); [| lia].
    rewrite length_slice_to by assumption. lia.
Qed.

(** The rows of a batch that [collate_batch] returns are the fitted token
    sequences of its records, and "position_ids" is there, with the matching
    [arange] rows, exactly for the architectures of the list. *)
Lemma collate_batch_inv calib_padding calib_len calib_pad_val
    MODEL_TYPES_REQUIRING_POSITION_IDS model_type (texts : list tensor) lg b last lg' :
  collate_batch calib_padding calib_len calib_pad_val MODEL_TYPES_REQUIRING_POSITION_IDS
    model_type texts lg = (Return (b, last), lg') ->
  exists rows,
    b !! "input_ids" = Some (Stacked rows)
    /\ Forall2 (fun text row => exists s1 s2,
                  fit_input_ids calib_padding calib_len calib_pad_val text s1
                  = (Return row, s2)) texts rows
    /\ b !! "position_ids"
       = (if Py.in_list model_type MODEL_TYPES_REQUIRING_POSITION_IDS
          then Some (Stacked (map (fun row => Torch.arange (length row)) rows)) else None).
Proof.
  unfold collate_batch. unfold mbind at 1. unfold ST_bind at 1.
  destruct (@mapM (ST (list log_record)) _ _ _ _ _ texts lg) as [[tuples | e | c] lg1] eqn:Hm; try discriminate.
  apply mapM_ST_inv in Hm.
  assert (Forall2 (fun text t => (exists s1 s2,
                     fit_input_ids calib_padding calib_len calib_pad_val text s1
                     = (Return t.1.1.1, s2))
                   /\ t.1.2 = Torch.arange (length t.1.1.1)) texts tuples) as Hrows.
  { eapply Forall2_impl; [exact Hm |]. intros text t (s1 & s2 & Ht). revert Ht.
    unfold mbind at 1. unfold ST_bind at 1.
    destruct (fit_input_ids _ _ _ text s1) as [[row | e | c] s3] eqn:Hfit;
      try discriminate.
    intros [= <- <-]. split; [exists s1, s3; exact Hfit | reflexivity]. }
  clear Hm. intros Hrun. exists (map (fun t => t.1.1.1) tuples).
  assert (map (fun t : tensor * tensor * tensor * Z => t.1.2) tuples
          = map (fun row => Torch.arange (length row)) (map (fun t => t.1.1.1) tuples))
    as Hpos.
  { rewrite map_map. apply map_ext_Forall.
    eapply Forall2_Forall_r; [exact Hrows |].
    apply Forall_forall. intros text _ t [_ Ht]. exact Ht. }
  assert (Forall2 (fun text row => exists s1 s2,
                     fit_input_ids calib_padding calib_len calib_pad_val text s1
                     = (Return row, s2)) texts (map (fun t => t.1.1.1) tuples)) as Hfit.
  { apply Forall2_fmap_r. eapply Forall2_impl; [exact Hrows |]. now intros text t [H _]. }
  revert Hrun. destruct (Py.in_list model_type MODEL_TYPES_REQUIRING_POSITION_IDS).
  - unfold mbind at 1. unfold ST_bind at 1.
    destruct (Torch.vstack _ lg1) as [[m1 | e | c] lg2] eqn:H1; try discriminate.
    unfold mbind at 1. unfold ST_bind at 1.
    destruct (Torch.vstack _ lg2) as [[m2 | e | c] lg3] eqn:H2; try discriminate.
    unfold mbind at 1. unfold ST_bind at 1.
    destruct (Torch.vstack _ lg3) as [[m3 | e | c] lg4] eqn:H3; try discriminate.
    apply vstack_inv in H1 as [-> _]. apply vstack_inv in H3 as [-> _].
    intros [= <- _ _]. rewrite <- Hpos.
    split; [reflexivity |]. split; [exact Hfit | reflexivity].
  - unfold mbind at 1. unfold ST_bind at 1.
    destruct (Torch.vstack _ lg1) as [[m1 | e | c] lg2] eqn:H1; try discriminate.
    unfold mbind at 1. unfold ST_bind at 1.
    destruct (Torch.vstack _ lg2) as [[m2 | e | c] lg3] eqn:H2; try discriminate.
    apply vstack_inv in H1 as [-> _].
    intros [= <- _ _]. split; [reflexivity |]. split; [exact Hfit | reflexivity].
Qed.

Lemma collate_batch_static_inv calib_padding calib_len calib_pad_val
    (texts : list tensor) lg b last lg' :
  collate_batch_static calib_padding calib_len calib_pad_val texts lg
  = (Return (b, last), lg') ->
  exists rows,
    b !! "input_ids" = Some (Stacked rows)
    /\ Forall2 (fun text row => exists s1 s2,
                  fit_input_ids calib_padding calib_len calib_pad_val text s1
                  = (Return row, s2)) texts rows
    /\ b !! "position_ids" = None.
Proof.
  unfold collate_batch_static. unfold mbind at 1. unfold ST_bind at 1.
  destruct (@mapM (ST (list log_record)) _ _ _ _ _ texts lg) as [[tuples | e | c] lg1] eqn:Hm; try discriminate.
  apply mapM_ST_inv in Hm.
  unfold mbind at 1. unfold ST_bind at 1.
  destruct (Torch.vstack _ lg1) as [[m1 | e | c] lg2] eqn:H1; try discriminate.
  apply vstack_inv in H1 as [-> _]. intros [= <- _ _].
  exists (map fst tuples). repeat split; try reflexivity.
  apply Forall2_fmap_r. eapply Forall2_impl; [exact Hm |].
  intros text t (s1 & s2 & Ht). revert Ht.
  unfold mbind at 1. unfold ST_bind at 1.
  destruct (fit_input_ids _ _ _ text s1) as [[row | e | c] s3] eqn:Hfit;
    try discriminate.
  intros [= <- <-]. exists s1, s3. exact Hfit.
Qed.

(** [collate_batch_for_chatglm] returns the row of the last record of the
    batch, with the position ids prepared by the model. *)
Lemma collate_batch_for_chatglm_inv calib_len auto_config prepare_position_ids
    (texts : list tensor) lg b last_ind lg' :
  collate_batch_for_chatglm calib_len auto_config prepare_position_ids texts lg
  = (Return (b, last_ind), lg') ->
  exists text,
    last texts = Some text
    /\ b !! "input_ids" = Some (Stacked [chatglm_row calib_len auto_config text])
    /\ b !! "position_ids"
       = Some (Stacked (prepare_position_ids [chatglm_row calib_len auto_config text])).
Proof.
  unfold collate_batch_for_chatglm. unfold mbind at 1. unfold ST_bind at 1.
  destruct (@mapM (ST (list log_record)) _ _ _ _ _ texts lg) as [[tuples | e | c] lg1] eqn:Hm; try discriminate.
  apply mapM_ST_inv in Hm. apply Forall2_last in Hm.
  unfold matrix, tensor in *.
  destruct (last tuples) as [[[[ids mask] pos] li] |] eqn:Hlast;
    [| unfold raise; discriminate].
  inversion Hm as [text t (s1 & s2 & Ht) Htext Ht' |]; subst.
  intros [= <- _ _]. exists text. split; [reflexivity |].
  revert Ht. cbn. unfold chatglm_row.
  destruct (re_search "THUDM/chatglm-6b" auto_config); rewrite ?app_nil_r;
    intros [= <- _ <- _ _]; split; reflexivity.
Qed.

(** C4, as the code has it.  With a [calib_len] that is not negative, every
    batch that the SmoothQuant [collate_fn] returns holds, for an
    architecture other than chatglm, rows of at most [calib_len] tokens when
    padding is off and of exactly [calib_len] tokens when it is on; for
    chatglm it holds one row, the first [calib_len] tokens of the last record
    in their order, followed by the two end-of-sequence tokens 130001 and
    130004 when the checkpoint is chatglm-6b and by nothing otherwise,
    whatever the padding flag says.  A batch of one record (the [DataLoader]
    has [batch_size=1]) is always returned. *)
Theorem collate_fn_input_ids_length (calib_padding : bool) (calib_len calib_pad_val : Z)
    (MODEL_TYPES_REQUIRING_POSITION_IDS : list string) (model_type auto_config : string)
    (prepare_position_ids : matrix -> matrix) :
  (0 <= calib_len)%Z ->
  (forall texts lg b last_ind lg',
     collate_fn calib_padding calib_len calib_pad_val MODEL_TYPES_REQUIRING_POSITION_IDS
       model_type auto_config prepare_position_ids texts lg
     = (Return (b, last_ind), lg') ->
     exists rows,
       b !! "input_ids" = Some (Stacked rows)
       /\ (model_type <> "chatglm" -> calib_padding = false ->
           Forall (fun row => (Z.of_nat (length row) <= calib_len)%Z) rows)
       /\ (model_type <> "chatglm" -> calib_padding = true ->
           Forall (fun row => Z.of_nat (length row) = calib_len) rows)
       /\ (model_type = "chatglm" ->
           exists text row,
             last texts = Some text /\ rows = [row]
             /\ row
                = take (Z.to_nat calib_len) text
                  ++ (if re_search "THUDM/chatglm-6b" auto_config
                      then [130001; 130004]%Z else [])
             /\ length row
                = min (Z.to_nat calib_len) (length text)
                  + (if re_search "THUDM/chatglm-6b" auto_config then 2 else 0)))
  /\ (forall text lg, exists b last,
       collate_fn calib_padding calib_len calib_pad_val MODEL_TYPES_REQUIRING_POSITION_IDS
         model_type auto_config prepare_position_ids [text] lg
       = (Return (b, last), lg)).
Proof.
  intros Hlen. unfold collate_fn. split.
  - intros texts lg b last_ind lg' Hrun.
    destruct (String.eqb_spec model_type "chatglm") as [Heq | Hne].
    + apply collate_batch_for_chatglm_inv in Hrun as (text & Hlast & Hids & _).
      exists [chatglm_row calib_len auto_config text].
      split; [exact Hids |]. repeat split; try congruence.
      intros _. exists text, (chatglm_row calib_len auto_config text).
      split; [exact Hlast |]. split; [reflexivity |].
      split; [now apply chatglm_row_tokens | now apply length_chatglm_row].
    + apply collate_batch_inv in Hrun as (rows & Hids & Hfit & _).
      exists rows. split; [exact Hids |]. repeat split; try congruence.
      * intros _ Hp. eapply Forall2_Forall_r; [exact Hfit |].
        apply Forall_forall. intros text _ row (s1 & s2 & Hrow).
        apply fit_input_ids_inv in Hrow as [_ Hoff]. apply Hoff; [exact Hp | exact Hlen].
      * intros _ Hp. eapply Forall2_Forall_r; [exact Hfit |].
        apply Forall_forall. intros text _ row (s1 & s2 & Hrow).
        apply fit_input_ids_inv in Hrow as [Hon _]. now apply Hon.
  - intros text lg.
    destruct (String.eqb_spec model_type "chatglm") as [Heq | Hne].
    + destruct (collate_batch_for_chatglm_single calib_len auto_config prepare_position_ids
                  text lg) as (b & last & Hrun & _).
      now exists b, last.
    + destruct (fit_input_ids_returns calib_padding calib_len calib_pad_val text lg)
        as (row & Hfit & _); [exact Hlen |].
      destruct (collate_batch_single calib_padding calib_len calib_pad_val
                  MODEL_TYPES_REQUIRING_POSITION_IDS model_type text row lg Hfit)
        as (b & Hrun & _).
      now exists b, [(Z.of_nat (length row) - 1)%Z].
Qed.

Lemma collate_fn_input_ids_length_witness :
  exists rows,
    example_padded_batch !! "input_ids" = Some (Stacked rows)
    /\ Forall (fun row => Z.of_nat (length row) = 4%Z) rows.
Proof.
  destruct (proj1 (collate_fn_input_ids_length true 4 0 ["llama"] "llama" "" (fun m => m)
                     ltac:(lia))
              [[11; 12; 13; 14; 15; 16]%Z] [] example_padded_batch [3%Z] []
              ltac:(reflexivity))
    as (rows & Hids & _ & Hon & _).
  exists rows. split; [exact Hids |]. apply Hon; [discriminate | reflexivity].
Defined.

(** C4 does not hold as stated for chatglm.  With padding off, a record of
    six tokens and [calib_len = 4] gives a chatglm-6b batch of six tokens
    (four kept, two appended); with padding on, a record of two tokens gives
    a chatglm2 batch of two tokens, not four.  Nor does it hold for a
    negative [calib_len], for any architecture: the slice then counts from
    the end, and with [calib_len = -1] a record of two tokens keeps one
    token, more than [calib_len]. *)
Lemma collate_fn_chatglm_counterexample :
  (exists b last,
     collate_fn false 4 0 ["chatglm"] "chatglm"
       "THUDM/chatglm-6b--configuration_chatglm.ChatGLMConfig" (fun m => m)
       [[11; 12; 13; 14; 15; 16]%Z] []
     = (Return (b, last), [])
     /\ b !! "input_ids" = Some (Stacked [[11; 12; 13; 14; 130001; 130004]%Z]))
  /\ (exists b last,
     collate_fn true 4 0 ["chatglm"] "chatglm"
       "THUDM/chatglm2-6b--configuration_chatglm.ChatGLMConfig" (fun m => m)
       [[11; 12]%Z] []
     = (Return (b, last), [])
     /\ b !! "input_ids" = Some (Stacked [[11; 12]%Z]))
  /\ (exists b last,
     collate_fn false (-1) 0 ["llama"] "llama" "" (fun m => m) [[11; 12]%Z] []
     = (Return (b, last), [])
     /\ b !! "input_ids" = Some (Stacked [[11]%Z])).
Proof. repeat split; eexists _, _; split; reflexivity. Qed.

(** The [collate_batch] of the static quantization branch obeys the same
    bounds. *)
Lemma collate_batch_static_length (calib_padding : bool) (calib_len calib_pad_val : Z)
    (text : tensor) (lg : list log_record) :
  (0 < calib_len)%Z ->
  exists b last row,
    collate_batch_static calib_padding calib_len calib_pad_val [text] lg
    = (Return (b, last), lg)
    /\ b !! "input_ids" = Some (Stacked [row])
    /\ (calib_padding = false -> (Z.of_nat (length row) <= calib_len)%Z)
    /\ (calib_padding = true -> Z.of_nat (length row) = calib_len).
Proof.
  intros Hlen.
  destruct (fit_input_ids_returns calib_padding calib_len calib_pad_val text lg)
    as (row & Hfit & Hoff & Hon); [lia |].
  destruct (collate_batch_static_single calib_padding calib_len calib_pad_val text row lg Hfit)
    as (b & Hrun & Hids & _).
  exists b, [(Z.of_nat (length row) - 1)%Z], row. repeat split; try assumption.
  - intros Hp. rewrite (Hoff Hp). lia.
  - intros Hp. rewrite (Hon Hp). lia.
Qed.

(** ** Calibration: position ids *)

(** C8, as the code has it.  Every batch that the [collate_batch] of the
    SmoothQuant branch returns has "position_ids", each row of it the
    [arange] over the length of the matching input row, exactly when the
    architecture is in [MODEL_TYPES_REQUIRING_POSITION_IDS], and has no such
    key otherwise.  A batch of the [collate_batch] of the static
    quantization branch never has the key; one of
    [collate_batch_for_chatglm] always has it, holding what the model's
    [prepare_inputs_for_generation] returns. *)
Theorem collate_position_ids (calib_padding : bool) (calib_len calib_pad_val : Z)
    (MODEL_TYPES_REQUIRING_POSITION_IDS : list string) (model_type : string)
    (texts : list tensor) (lg : list log_record) (b : batch) (last : tensor)
    (lg' : list log_record) :
  (collate_batch calib_padding calib_len calib_pad_val MODEL_TYPES_REQUIRING_POSITION_IDS
     model_type texts lg = (Return (b, last), lg') ->
   exists rows,
     b !! "input_ids" = Some (Stacked rows)
     /\ b !! "position_ids"
        = if Py.in_list model_type MODEL_TYPES_REQUIRING_POSITION_IDS
          then Some (Stacked (map (fun row => Torch.arange (length row)) rows)) else None)
  /\ (collate_batch_static calib_padding calib_len calib_pad_val texts lg
      = (Return (b, last), lg') ->
      b !! "position_ids" = None)
  /\ (forall auto_config prepare_position_ids,
      collate_batch_for_chatglm calib_len auto_config prepare_position_ids texts lg
      = (Return (b, last), lg') ->
      exists input_ids,
        b !! "input_ids" = Some (Stacked input_ids)
        /\ b !! "position_ids" = Some (Stacked (prepare_position_ids input_ids))).
Proof.
  repeat split.
  - intros Hrun. apply collate_batch_inv in Hrun as (rows & Hids & _ & Hpos).
    now exists rows.
  - intros Hrun. now apply collate_batch_static_inv in Hrun as (rows & _ & _ & Hpos).
  - intros auto_config prepare_position_ids Hrun.
    apply collate_batch_for_chatglm_inv in Hrun as (text & _ & Hids & Hpos).
    now exists [chatglm_row calib_len auto_config text].
Qed.

Lemma collate_position_ids_witness :
  exists rows,
    example_short_batch !! "input_ids" = Some (Stacked rows)
    /\ example_short_batch !! "position_ids"
       = if Py.in_list "llama" ["llama"]
         then Some (Stacked (map (fun row => Torch.arange (length row)) rows)) else None.
Proof.
  apply (proj1 (collate_position_ids false 4 0 ["llama"] "llama" [[11; 12; 13]%Z] []
                  example_short_batch [2%Z] [])).
  reflexivity.
Defined.

(** C8 does not hold as stated for the calibration batches of the static
    quantization branch: whatever the set of architectures is, as soon as
    the model's type is in it (here "llama"), the batch still has no
    "position_ids". *)
Lemma collate_batch_static_counterexample :
  Py.in_list "llama" ["llama"] = true
  /\ exists b last,
       collate_batch_static false 4 0 [[11; 12; 13]%Z] [] = (Return (b, last), [])
       /\ b !! "position_ids" = None.
Proof. split; [reflexivity |]. eexists _, _. split; reflexivity. Qed.

(** ** Reloading: examples and totality *)

Lemma load_low_bit_skeleton_witness :
  exists q' skeleton lg',
    load_low_bit replace_linear_spec (convert_dtype_torch2str reference_env) true
      example_nf4_config "cpu" None example_model [] = (Return (Some (q', skeleton)), lg')
    /\ exists w,
         weight_dtype q' = Some w
         /\ Py.in_list w recognized_weight_dtypes = true
         /\ skeleton =
            if Py.in_list w ["fp8_e5m2"; "fp8_e4m3"; "nf4"; "fp4"; "int4_fullrange"]
            then replace_linear_spec example_model q' "cpu" true
            else build_woq_model example_model q'.
Proof.
  eexists _, _, _. split; [vm_compute; reflexivity |].
  eapply (load_low_bit_skeleton replace_linear_spec (convert_dtype_torch2str reference_env)
            true example_nf4_config "cpu" None example_model []).
  vm_compute. reflexivity.
Defined.

(** The two builders at work on the example model: "nf4" goes through
    [replace_linear], an unset dtype with [bits = 4] resolves to "int4_clip"
    and goes through [build_woq_model]; the generation head stays dense in
    both. *)
Example load_low_bit_nf4 :
  match load_low_bit replace_linear_spec (convert_dtype_torch2str reference_env) true
          example_nf4_config "cpu" None example_model [] with
  | (Return (Some (q', skeleton)), _) =>
      weight_dtype q' = Some "nf4"
      /\ skeleton = replace_linear_spec example_model q' "cpu" true
      /\ get_module skeleton ["lm_head"] = Some (Linear 768 32000 None)
  | _ => False
  end.
Proof. repeat split. Qed.

Example load_low_bit_int4_clip :
  match load_low_bit replace_linear_spec (convert_dtype_torch2str reference_env) true
          example_rtn_config "cpu" None example_model [] with
  | (Return (Some (q', skeleton)), _) =>
      weight_dtype q' = Some "int4_clip"
      /\ scale_dtype q' = Some "fp32"
      /\ skeleton = build_woq_model example_model q'
      /\ get_module skeleton ["lm_head"] = Some (Linear 768 32000 None)
  | _ => False
  end.
Proof. repeat split. Qed.

Lemma resolve_scale_dtype_returns q lg :
  exists q' lg',
    resolve_scale_dtype q lg = (Return q', lg') /\ weight_dtype q' = weight_dtype q.
Proof.
  unfold resolve_scale_dtype. destruct (scale_dtype q) as [s |] eqn:Hs.
  - cbv zeta. rewrite Hs. unfold Py.opt_in_list.
    destruct (Py.in_list s ["fp32"; "fp16"; "bf16"]); eexists _, _; split; reflexivity.
  - eexists _, _. split; reflexivity.
Qed.

Lemma resolve_weight_dtype_total q lg :
  (exists q' lg', resolve_weight_dtype q lg = (Return q', lg'))
  \/ (exists w msg lg',
        weight_dtype q = Some w
        /\ Py.in_list w recognized_weight_dtypes = false
        /\ resolve_weight_dtype q lg = (Raise (ValueError msg), lg')).
Proof.
  unfold resolve_weight_dtype. destruct (weight_dtype q) as [w |].
  - destruct (Py.in_list w recognized_weight_dtypes) eqn:Hin.
    + left. eexists _, _. reflexivity.
    + right. eexists w, _, _. split; [reflexivity |]. split; [assumption | reflexivity].
  - left. repeat case_bool_decide; eexists _, _; reflexivity.
Qed.

(** [load_low_bit] returns, unless a weight dtype is given that is not
    recognized: no other field, [scale_dtype] and [bits] included, makes the
    reload fail. *)
Lemma load_low_bit_total
    (replace_linear : module -> quantization_config -> string -> bool -> module)
    (convert_dtype_torch2str : torch_dtype -> string) (cpu_bf16 : bool)
    (q : quantization_config) (device_map : string) (dtype : option torch_dtype)
    (model : module) (lg : list log_record) :
  (exists r lg',
     load_low_bit replace_linear convert_dtype_torch2str cpu_bf16 q device_map dtype model lg
     = (Return r, lg'))
  \/ (exists w msg lg',
        weight_dtype q = Some w
        /\ Py.in_list w recognized_weight_dtypes = false
        /\ load_low_bit replace_linear convert_dtype_torch2str cpu_bf16 q device_map dtype
             model lg
           = (Raise (ValueError msg), lg')).
Proof.
  destruct (Py.in_list (quant_method_value (qc_class q)) ["static"; "dynamic"; "qat"]) eqn:Hgate.
  { left. unfold load_low_bit. rewrite Hgate. eexists _, _. reflexivity. }
  rewrite load_low_bit_unfold by assumption.
  set (q0 := resolve_compute_dtype _ _ _ _ _ q).
  assert (weight_dtype q0 = weight_dtype q) as Hq0.
  { unfold q0, resolve_compute_dtype.
    destruct (compute_dtype q); [destruct (_ || _) | destruct (String.eqb device_map "xpu")];
      reflexivity. }
  destruct (resolve_scale_dtype_returns q0 lg) as (q1 & lg1 & Hrun & Hq1).
  rewrite Hrun.
  destruct (resolve_weight_dtype_total q1 lg1)
    as [(q2 & lg2 & ->) | (w & msg & lg2 & Hw & Hin & ->)].
  - left. eexists _, _. reflexivity.
  - right. exists w, msg, lg2. repeat split; [congruence | assumption].
Qed.

(** C10.  The scale dtype step of [load_low_bit] always returns and changes
    no other field: an unset [scale_dtype] becomes "fp32" silently, one
    outside "fp32", "fp16", "bf16" becomes "fp32" with two warnings in the
    log, and a supported one is kept.  The reload as a whole raises only for
    a weight dtype that is given and not recognized, never because of
    [scale_dtype]. *)
Theorem resolve_scale_dtype_never_fails (q : quantization_config) (lg : list log_record) :
  (exists q' lg',
     resolve_scale_dtype q lg = (Return q', lg')
     /\ q' = set_scale_dtype q (default "fp32" (scale_dtype q'))
     /\ match scale_dtype q with
        | None => scale_dtype q' = Some "fp32" /\ lg' = lg
        | Some s =>
            if Py.in_list s ["fp32"; "fp16"; "bf16"]
            then scale_dtype q' = Some s /\ lg' = lg
            else scale_dtype q' = Some "fp32" /\ lg' = lg ++ scale_dtype_warnings
        end)
  /\ (forall replace_linear convert_dtype_torch2str cpu_bf16 device_map dtype model,
       (exists r lg',
          load_low_bit replace_linear convert_dtype_torch2str cpu_bf16 q device_map dtype
            model lg = (Return r, lg'))
       \/ (exists w, weight_dtype q = Some w
                     /\ Py.in_list w recognized_weight_dtypes = false)).
Proof.
  split.
  - unfold resolve_scale_dtype. destruct (scale_dtype q) as [s |] eqn:Hs.
    + cbv zeta. rewrite Hs. unfold Py.opt_in_list.
      destruct (Py.in_list s ["fp32"; "fp16"; "bf16"]) eqn:Hin.
      * exists q, lg. rewrite Hs. repeat split.
        destruct q; simpl in Hs; subst; reflexivity.
      * eexists _, _. split; [reflexivity |]. simpl. repeat split.
        now rewrite <- app_assoc.
    + eexists _, _. split; [reflexivity |]. simpl. repeat split.
  - intros replace_linear convert_dtype_torch2str cpu_bf16 device_map dtype model.
    destruct (load_low_bit_total replace_linear convert_dtype_torch2str cpu_bf16 q
                device_map dtype model lg) as [Hret | (w & msg & lg' & Hw & Hin & _)].
    + now left.
    + right. now exists w.
Qed.

(** * Further properties *)

(** ** [build_woq_model] packs every other dense layer *)

Lemma get_named_modules p : forall model pre m,
  get_module model p = Some m -> In (pre ++ p, m) (named_modules pre model).
Proof.
  induction p as [| n p IH]; intros model pre m Hget.
  - injection Hget as <-. rewrite app_nil_r. destruct model; now left.
  - simpl in Hget. destruct (assoc n (children model)) as [c |] eqn:Hc; [| discriminate].
    destruct model as [i o b | w | x | y | ch]; try discriminate Hc.
    simpl in Hc. apply assoc_In in Hc. right.
    specialize (IH c (pre ++ [n]) m Hget). rewrite <- app_assoc in IH. simpl in IH.
    induction ch as [| [n' c'] ch IHch]; [contradiction |].
    apply in_or_app. destruct Hc as [[= -> ->] | Hin]; [now left | right; now apply IHch].
Qed.

Lemma get_rebind_same new_module q : forall m,
  is_Some (get_module m q) -> get_module (rebind m q new_module) q = Some new_module.
Proof.
  induction q as [| n q IH]; intros m Hsome; [reflexivity |].
  destruct m as [i o b | w | x | y | ch]; simpl in *;
    try (exfalso; destruct Hsome as [z Hz]; discriminate Hz).
  rewrite assoc_update_eq.
  destruct (assoc n ch) as [c |]; [| exfalso; destruct Hsome as [z Hz]; discriminate Hz].
  simpl. now apply IH.
Qed.

Lemma get_module_below_leaf model p k m m' :
  get_module model p = Some m -> children m = [] ->
  get_module model (p ++ k) = Some m' -> k = [].
Proof.
  intros Hp Hleaf Hk. rewrite get_module_app, Hp in Hk. simpl in Hk.
  destruct k as [| n k]; [reflexivity |].
  simpl in Hk. now rewrite Hleaf in Hk.
Qed.

Lemma bool_decide_snoc_ne (p n : path) (done : list path) :
  p <> n -> bool_decide (p ∈ done) = bool_decide (p ∈ done ++ [n]).
Proof.
  intros Hne. apply bool_decide_ext.
  rewrite elem_of_app, list_elem_of_singleton. intuition.
Qed.

Section BuildWoqLeaves.

Variable q : quantization_config.
Variable model0 : module.
Hypothesis Hwf : wf_module model0 = true.

Lemma leaves_done_skip done acc n mn :
  get_module model0 n = Some mn -> eligible n mn = false ->
  leaves_done q model0 done acc -> leaves_done q model0 (done ++ [n]) acc.
Proof.
  intros Hn Hel Hinv p m Hp Hleaf. rewrite (Hinv p m Hp Hleaf).
  destruct (decide (p = n)) as [-> | Hne].
  - assert (m = mn) as -> by congruence. now rewrite Hel.
  - replace (bool_decide (p ∈ done ++ [n])) with (bool_decide (p ∈ done));
      [reflexivity | now apply bool_decide_snoc_ne].
Qed.

Lemma leaves_done_step done acc nm :
  In nm (named_modules [] model0) ->
  leaves_done q model0 done acc -> leaves_done q model0 (done ++ [nm.1]) (build_woq_step q acc nm).
Proof.
  intros Hin Hinv. destruct nm as [n mn]. cbn [fst].
  destruct (named_modules_get _ _ _ _ Hwf Hin) as (k & Hk & Hn). simpl in Hk. subst k.
  unfold build_woq_step.
  destruct (excluded (qualname n)) eqn:Hex.
  { apply leaves_done_skip with mn; [assumption | | assumption].
    unfold eligible. now rewrite Hex. }
  destruct mn as [i o b | w | x | y | ch];
    try (match type of Hn with
         | _ = Some ?mn' =>
             apply leaves_done_skip with mn';
             [assumption | unfold eligible; rewrite Hex; reflexivity | assumption]
         end).
  destruct n as [| n0 n].
  { apply leaves_done_skip with (Linear i o b); [assumption | | assumption].
    unfold eligible. now rewrite andb_false_r. }
  unfold set_module. intros p m Hp Hleaf.
  destruct (decide (p = n0 :: n)) as [-> | Hne].
  - assert (m = Linear i o b) as -> by congruence.
    rewrite get_rebind_same by (rewrite (Hinv _ _ Hn eq_refl); eauto).
    unfold eligible. rewrite Hex. cbn [negb is_linear andb].
    rewrite (bool_decide_eq_false_2 (n0 :: n = [])) by discriminate. cbn [negb andb].
    rewrite (bool_decide_eq_true_2 (n0 :: n ∈ done ++ [n0 :: n])); [reflexivity |].
    apply elem_of_app. right. apply list_elem_of_singleton. reflexivity.
  - assert (~ (n0 :: n) `prefix_of` p) as Hnp.
    { intros [k ->]. apply Hne.
      rewrite (get_module_below_leaf _ _ _ _ _ Hn eq_refl Hp). now rewrite app_nil_r. }
    assert (~ p `prefix_of` (n0 :: n)) as Hpn.
    { intros [k Hk]. apply Hne. rewrite Hk in Hn.
      rewrite (get_module_below_leaf _ _ _ _ _ Hp Hleaf Hn) in Hk.
      now rewrite app_nil_r in Hk. }
    rewrite get_rebind_unrelated by assumption. rewrite (Hinv p m Hp Hleaf).
    replace (bool_decide (p ∈ done ++ [n0 :: n])) with (bool_decide (p ∈ done));
      [reflexivity | now apply bool_decide_snoc_ne].
Qed.

Lemma leaves_done_fold l : forall done acc,
  (forall nm, In nm l -> In nm (named_modules [] model0)) ->
  leaves_done q model0 done acc ->
  leaves_done q model0 (done ++ map fst l) (fold_left (build_woq_step q) l acc).
Proof.
  induction l as [| nm l IH]; intros done acc Hsub Hinv.
  - simpl. now rewrite app_nil_r.
  - simpl. replace (done ++ nm.1 :: map fst l) with ((done ++ [nm.1]) ++ map fst l)
      by now rewrite <- app_assoc.
    apply IH; [intros nm' Hin; apply Hsub; now right |].
    apply leaves_done_step; [apply Hsub; now left | assumption].
Qed.

Lemma build_woq_model_leaves p m :
  get_module model0 p = Some m -> children m = [] ->
  get_module (build_woq_model model0 q) p
  = Some (if eligible p m then woq_skeleton q m else m).
Proof.
  intros Hp Hleaf. unfold build_woq_model.
  assert (leaves_done q model0 [] model0) as Hinit.
  { intros p' m' Hp' _. rewrite Hp'. now rewrite andb_false_r. }
  pose proof (leaves_done_fold (named_modules [] model0) [] model0
                (fun nm H => H) Hinit p m Hp Hleaf) as Hfold.
  rewrite Hfold. simpl. rewrite bool_decide_eq_true_2; [now rewrite andb_true_r |].
  apply list_elem_of_In. apply (in_map fst) with (x := (p, m)).
  now apply (get_named_modules p model0 [] m).
Qed.

End BuildWoqLeaves.

(** X1.  In a graph with distinct child names, every dense linear layer that
    has a parent and whose qualified name holds none of "lm_head",
    "output_layer", "embed_out" is, after [build_woq_model], a
    [WeightOnlyLinear] in the optimum format with the layer's own
    [in_features] and [out_features], a bias exactly if the layer had one, the
    configuration's [bits] and [group_size], and zero points as the
    configuration's [zero_point] says (or, without one, exactly when it is
    not symmetric). *)
Theorem build_woq_model_packs_linear (model : module) (q : quantization_config)
    (p : path) (in_features out_features : Z) (bias : option tensor) :
  wf_module model = true ->
  p <> [] ->
  excluded (qualname p) = false ->
  get_module model p = Some (Linear in_features out_features bias) ->
  get_module (build_woq_model model q) p
  = Some (WeightOnlyLinear
            (WeightOnlyLinear_init in_features out_features (bits q) (group_size q) "int"
               (match zero_point q with
                | Some z => z
                | None => negb (default false (sym q))
                end)
               (bool_decide (bias <> None)) "fp32" true true)).
Proof.
  intros Hwf Hne Hex Hget.
  rewrite (build_woq_model_leaves q model Hwf p _ Hget eq_refl).
  unfold eligible. rewrite Hex. cbn [negb is_linear andb].
  rewrite (bool_decide_eq_false_2 (p = [])) by assumption. reflexivity.
Qed.

Lemma build_woq_model_packs_linear_witness :
  get_module (build_woq_model example_model example_rtn_config)
    ["model"; "layers"; "0"; "mlp"]
  = Some (WeightOnlyLinear
            (WeightOnlyLinear_init 768 3072 (Some 4%Z) 128 "int" false false "fp32" true true)).
Proof.
  apply (build_woq_model_packs_linear example_model example_rtn_config
           ["model"; "layers"; "0"; "mlp"] 768 3072 None);
    [reflexivity | discriminate | reflexivity | reflexivity].
Defined.

(** X2.  In a graph with distinct child names, [build_woq_model] leaves every
    childless module that is neither a dense linear layer nor a
    [QuantizedLinearQBits] exactly as it was (an embedding, a norm, a layer
    that is already a [WeightOnlyLinear]), whatever its name.  The
    [QuantizedLinearQBits] layers are left aside: what the [isinstance] test
    says of them depends on their class, which is not among the sources at
    hand. *)
Theorem build_woq_model_keeps_other_modules (model : module) (q : quantization_config)
    (p : path) (m : module) :
  wf_module model = true ->
  get_module model p = Some m ->
  children m = [] ->
  is_linear m = false ->
  is_qbits m = false ->
  get_module (build_woq_model model q) p = Some m.
Proof.
  intros Hwf Hget Hleaf Hlin _.
  rewrite (build_woq_model_leaves q model Hwf p m Hget Hleaf).
  unfold eligible. rewrite Hlin. now rewrite andb_false_r.
Qed.

Lemma build_woq_model_keeps_other_modules_witness :
  get_module (build_woq_model example_decoder example_rtn_config) ["model"; "norm"]
  = Some (Other []).
Proof.
  apply (build_woq_model_keeps_other_modules example_decoder example_rtn_config
           ["model"; "norm"] (Other [])); reflexivity.
Defined.

(** ** [recover_export_model] on the whole graph *)

Section RecoverGraph.

Variable pack : pack_method.

Lemma recover_export_model_lookup p : forall model,
  p <> [] ->
  get_module (recover_export_model pack model) p
  = recover_child pack <$> get_module model p.
Proof.
  induction p as [| n p IH]; intros model Hne; [congruence |].
  destruct model as [i o b | w | x | y | ch]; try reflexivity.
  rewrite recover_export_model_Other. simpl.
  rewrite assoc_map_values.
  destruct (assoc n ch) as [c |]; [| reflexivity]. simpl.
  destruct p as [| n' p]; [reflexivity |].
  destruct c as [i o b | w | x | y | [| c0 ch']]; try reflexivity.
  unfold recover_child at 1. now apply IH.
Qed.

Lemma recover_child_not_qbits c : is_qbits (recover_child pack c) = false.
Proof.
  destruct c as [i o b | w | x | y | [| c0 ch']]; try reflexivity.
Qed.

Lemma recover_child_idem c :
  (forall ch, c = Other ch ->
     recover_export_model pack (recover_export_model pack c)
     = recover_export_model pack c) ->
  recover_child pack (recover_child pack c) = recover_child pack c.
Proof.
  intros IH.
  destruct c as [i o b | w | x | y | [| [n0 c0] ch']]; try reflexivity.
  unfold recover_child at 2 3.
  specialize (IH _ eq_refl).
  rewrite recover_export_model_Other in *. simpl in *. exact IH.
Qed.

Lemma recover_export_model_idem model :
  recover_export_model pack (recover_export_model pack model)
  = recover_export_model pack model.
Proof.
  induction model as [i o b | w | x | y | ch IH] using module_ind'; try reflexivity.
  rewrite !recover_export_model_Other. f_equal.
  rewrite map_map. apply map_ext_in. intros [n c] Hin. simpl. f_equal.
  apply recover_child_idem. intros ch' ->.
  rewrite Forall_forall in IH. apply list_elem_of_In in Hin. exact (IH _ Hin).
Qed.

End RecoverGraph.

(** X3.  After [recover_export_model] no [QuantizedLinearQBits] is left at
    any place below the root of the graph, at whatever depth and under
    whatever name. *)
Theorem recover_export_model_no_qbits_left (pack : pack_method) (model : module)
    (p : path) (m : module) :
  p <> [] ->
  get_module (recover_export_model pack model) p = Some m ->
  is_qbits m = false.
Proof.
  intros Hne Hget. rewrite recover_export_model_lookup in Hget by assumption.
  destruct (get_module model p) as [c |]; [| discriminate].
  injection Hget as <-. apply recover_child_not_qbits.
Qed.

Lemma recover_export_model_no_qbits_left_witness :
  is_qbits (WeightOnlyLinear (recover_linear nc_pack example_qbits)) = false.
Proof.
  apply (recover_export_model_no_qbits_left nc_pack example_packed_graph
           ["model"; "layers"; "0"; "mlp"]); [discriminate | reflexivity].
Defined.

(** X4.  [recover_export_model] touches nothing but the
    [QuantizedLinearQBits] layers: every childless module that is not one (a
    dense layer such as the head, a layer that is already a
    [WeightOnlyLinear]) is found unchanged at its path afterwards. *)
Theorem recover_export_model_keeps_others (pack : pack_method) (model : module) (p : path)
    (m : module) :
  get_module model p = Some m ->
  children m = [] ->
  is_qbits m = false ->
  get_module (recover_export_model pack model) p = Some m.
Proof.
  intros Hget Hch Hq.
  assert (Hm : recover_child pack m = m /\ recover_export_model pack m = m).
  { destruct m as [i o b | w | x | y | ch]; try (split; reflexivity); try discriminate Hq.
    simpl in Hch. subst ch. split; reflexivity. }
  destruct p as [| n p].
  - injection Hget as ->. rewrite (proj2 Hm). reflexivity.
  - rewrite recover_export_model_lookup by discriminate.
    rewrite Hget. simpl. now rewrite (proj1 Hm).
Qed.

Lemma recover_export_model_keeps_others_witness :
  get_module (recover_export_model nc_pack example_packed_graph) ["lm_head"]
  = Some (Linear 4 16 None).
Proof.
  apply (recover_export_model_keeps_others nc_pack example_packed_graph ["lm_head"]);
    reflexivity.
Defined.

(** X5.  [recover_export_model] is idempotent: run on a graph it has already
    converted, it changes nothing, for any packing routine. *)
Theorem recover_export_model_idempotent (pack : pack_method) (model : module) :
  recover_export_model pack (recover_export_model pack model)
  = recover_export_model pack model.
Proof. apply recover_export_model_idem. Qed.

(** ** [save_low_bit] on a directory *)


Lemma append_ne_self s c t : s +:+ String c t <> s.
Proof.
  induction s as [| a s IH]; simpl; [discriminate |].
  intros [= H]. now apply IH.
Qed.



Lemma untranspose_Other ch :
  untranspose (Other ch) = Other (map (fun nc => (fst nc, untranspose (snd nc))) ch).
Proof.
  simpl. f_equal. induction ch as [| [n c] ch IH]; [reflexivity |].
  simpl. now rewrite IH.
Qed.

Lemma untranspose_lookup p : forall model,
  get_module (untranspose model) p = untranspose <$> get_module model p.
Proof.
  induction p as [| n p IH]; intros model; [reflexivity |].
  destruct model as [i o b | w | x | y | ch]; try reflexivity.
  - simpl. now destruct (xl_weight_transposed y).
  - rewrite untranspose_Other. simpl. rewrite assoc_map_values.
    destruct (assoc n ch) as [c |]; [| reflexivity]. simpl. apply IH.
Qed.

Lemma untranspose_idem model : untranspose (untranspose model) = untranspose model.
Proof.
  induction model as [i o b | w | x | y | ch IH] using module_ind'; try reflexivity.
  - simpl. destruct (xl_weight_transposed y) eqn:E; simpl; [reflexivity |].
    now rewrite E.
  - rewrite !untranspose_Other. f_equal. rewrite map_map.
    apply map_ext_in. intros [n c] Hin. simpl. f_equal.
    rewrite Forall_forall in IH. apply list_elem_of_In in Hin. exact (IH _ Hin).
Qed.



Lemma convert_model_to_public_idem pack self q :
  convert_model_to_public pack (convert_model_to_public pack self q) q
  = convert_model_to_public pack self q.
Proof.
  unfold convert_model_to_public.
  destruct (device_eq_str (device self) "xpu") eqn:Hd.
  - simpl. rewrite Hd. unfold set_graph. simpl. now rewrite untranspose_idem.
  - destruct (negb (Py.opt_in_list (weight_dtype q) portable_weight_dtypes)) eqn:Hp.
    + simpl. rewrite Hd. unfold set_graph. simpl. now rewrite recover_export_model_idem.
    + now rewrite Hd.
Qed.

Lemma recover_export_model_keeps pack model p m :
  get_module model p = Some m -> children m = [] -> is_qbits m = false ->
  get_module (recover_export_model pack model) p = Some m.
Proof.
  intros Hget Hch Hq.
  assert (Hm : recover_child pack m = m /\ recover_export_model pack m = m).
  { destruct m as [i o b | w | x | y | ch]; try (split; reflexivity); try discriminate Hq.
    simpl in Hch. subst ch. split; reflexivity. }
  destruct p as [| n p].
  - injection Hget as ->. rewrite (proj2 Hm). reflexivity.
  - rewrite recover_export_model_lookup by discriminate.
    rewrite Hget. simpl. now rewrite (proj1 Hm).
Qed.

(** X6.  [convert_model_to_public] restores the layout of the
    [WeightOnlyQuantizedLinear] layers only on a model whose [device] is the
    string "xpu": there no layer stays flagged as transposed, a layer that
    was flagged holds the transposes of its [qweight] and [scales], and one
    that was not is left as it was.  On a model whose [device] is a
    [torch.device], that of an Intel GPU included, the comparison with the
    string fails and every such layer is found exactly as it was, a
    transposed one still transposed. *)
Theorem convert_model_to_public_xpu (pack : pack_method) (model : model_obj)
    (q : quantization_config) (p : path) (x : xpu_linear) :
  get_module (graph model) p = Some (WeightOnlyQuantizedLinear x) ->
  (device model = DeviceStr "xpu" ->
   exists x',
     get_module (graph (convert_model_to_public pack model q)) p
     = Some (WeightOnlyQuantizedLinear x')
     /\ xl_weight_transposed x' = false
     /\ xl_qweight x' = (if xl_weight_transposed x then t_ (xl_qweight x) else xl_qweight x)
     /\ xl_scales x' = (if xl_weight_transposed x then t_ (xl_scales x) else xl_scales x))
  /\ (forall type, device model = TorchDevice type ->
      get_module (graph (convert_model_to_public pack model q)) p
      = Some (WeightOnlyQuantizedLinear x)).
Proof.
  intros Hget. split.
  - intros Hd. unfold convert_model_to_public. rewrite Hd. simpl.
    rewrite untranspose_lookup, Hget. simpl.
    destruct (xl_weight_transposed x) eqn:E; eexists; (split; [reflexivity |]); simpl;
      repeat split. exact E.
  - intros type Hd. unfold convert_model_to_public. rewrite Hd. simpl.
    destruct (negb (Py.opt_in_list (weight_dtype q) portable_weight_dtypes));
      [| exact Hget].
    simpl. now apply recover_export_model_keeps.
Qed.

Lemma convert_model_to_public_xpu_witness :
  (exists x',
     get_module (graph (convert_model_to_public nc_pack example_xpu_model example_gptq_config))
       ["transformer"; "h"; "0"; "fc"]
     = Some (WeightOnlyQuantizedLinear x')
     /\ xl_weight_transposed x' = false
     /\ xl_qweight x' = [[1; 4]; [2; 5]; [3; 6]]%Z
     /\ xl_scales x' = [[7]; [8]]%Z)
  /\ get_module
       (graph (convert_model_to_public nc_pack
                 (set_graph example_low_bit_model (graph example_xpu_model))
                 example_gptq_config))
       ["transformer"; "h"; "0"; "fc"]
     = Some (WeightOnlyQuantizedLinear
               {| xl_qweight := [[1; 2; 3]; [4; 5; 6]]%Z; xl_scales := [[7; 8]]%Z;
                  xl_weight_transposed := true |}).
Proof.
  split.
  - apply (proj1 (convert_model_to_public_xpu nc_pack example_xpu_model example_gptq_config
                    ["transformer"; "h"; "0"; "fc"]
                    {| xl_qweight := [[1; 2; 3]; [4; 5; 6]]%Z; xl_scales := [[7; 8]]%Z;
                       xl_weight_transposed := true |} ltac:(reflexivity))).
    reflexivity.
  - apply (proj2 (convert_model_to_public_xpu nc_pack
                    (set_graph example_low_bit_model (graph example_xpu_model))
                    example_gptq_config ["transformer"; "h"; "0"; "fc"]
                    {| xl_qweight := [[1; 2; 3]; [4; 5; 6]]%Z; xl_scales := [[7; 8]]%Z;
                       xl_weight_transposed := true |} ltac:(reflexivity)) "cpu").
    reflexivity.
Defined.

Lemma parents_prefix rest : forall seen a,
  In a (parents seen rest) -> exists c t, seen +:+ rest = a +:+ String c t.
Proof.
  induction rest as [| c rest IH]; intros seen a; simpl; [contradiction |].
  intros Hin. apply in_app_or in Hin as [Hin | Hin].
  - destruct (_ && _); [| contradiction]. destruct Hin as [<- | []]. eauto.
  - apply IH in Hin as (c' & t & Heq). exists c', t. rewrite <- Heq.
    rewrite append_assoc. reflexivity.
Qed.

Lemma ancestors_prefix p a : In a (ancestors p) -> exists c t, p = a +:+ String c t.
Proof. intros Hin. apply parents_prefix in Hin. exact Hin. Qed.

Lemma ancestors_not_self p : ~ In p (ancestors p).
Proof.
  intros Hin. apply ancestors_prefix in Hin as (c & t & Heq).
  symmetry in Heq. now apply append_ne_self in Heq.
Qed.






(** The directory above the target is made as well. *)
Example save_low_bit_makes_parents :
  fs (save_low_bit nc_pack "pytorch_model.bin" "quantize_config.json" "runs/first" false None
        (World example_fs example_low_bit_model [])).2 !! "runs"
  = Some Directory.
Proof. vm_compute. reflexivity. Qed.










(** ** What a reload leaves in the configuration *)

Section ReloadInvariant.

Variable replace_linear : module -> quantization_config -> string -> bool -> module.
Variable convert_dtype_torch2str : torch_dtype -> string.
Variable cpu_bf16 : bool.

Lemma resolve_compute_dtype_fields use_cpu use_xpu dtype q :
  let q' := resolve_compute_dtype convert_dtype_torch2str cpu_bf16 use_cpu use_xpu dtype q in
  same_scheme q q' /\ weight_dtype q' = weight_dtype q /\ scale_dtype q' = scale_dtype q
  /\ compute_dtype q' <> None.
Proof.
  unfold resolve_compute_dtype, same_scheme.
  destruct (compute_dtype q) as [c |] eqn:Hc.
  - destruct (_ || _); simpl; rewrite ?Hc; repeat split; discriminate.
  - destruct use_xpu; simpl; repeat split; discriminate.
Qed.

Lemma resolve_scale_dtype_fields q lg q' lg' :
  resolve_scale_dtype q lg = (Return q', lg') ->
  same_scheme q q' /\ weight_dtype q' = weight_dtype q /\ compute_dtype q' = compute_dtype q
  /\ exists s, scale_dtype q' = Some s /\ Py.in_list s ["fp32"; "fp16"; "bf16"] = true.
Proof.
  unfold resolve_scale_dtype, same_scheme. destruct (scale_dtype q) as [s |] eqn:Hs.
  - cbv zeta. rewrite Hs. unfold Py.opt_in_list.
    destruct (Py.in_list s ["fp32"; "fp16"; "bf16"]) eqn:Hin; run_st; intros [= <- _]; simpl.
    + repeat split. eauto.
    + repeat split. eexists. split; reflexivity.
  - run_st. intros [= <- _]. simpl. repeat split. eexists. split; reflexivity.
Qed.

Lemma resolve_weight_dtype_fields q lg q' lg' :
  resolve_weight_dtype q lg = (Return q', lg') ->
  same_scheme q q' /\ scale_dtype q' = scale_dtype q /\ compute_dtype q' = compute_dtype q.
Proof.
  unfold resolve_weight_dtype, same_scheme. destruct (weight_dtype q) as [w |].
  - destruct (Py.in_list w recognized_weight_dtypes); run_st; [| discriminate].
    intros [= <- _]. repeat split.
  - repeat case_bool_decide; run_st; intros [= <- _]; simpl; repeat split.
Qed.

Lemma load_low_bit_fields q device_map dtype model lg q' skeleton lg' :
  load_low_bit replace_linear convert_dtype_torch2str cpu_bf16 q device_map dtype model lg
  = (Return (Some (q', skeleton)), lg') ->
  same_scheme q q'
  /\ compute_dtype q' <> None
  /\ (exists s, scale_dtype q' = Some s /\ Py.in_list s ["fp32"; "fp16"; "bf16"] = true)
  /\ (exists w, weight_dtype q' = Some w /\ Py.in_list w recognized_weight_dtypes = true)
  /\ skeleton = allocate_skeleton replace_linear model q' device_map.
Proof.
  destruct (Py.in_list (quant_method_value (qc_class q)) ["static"; "dynamic"; "qat"]) eqn:Hgate.
  { unfold load_low_bit. rewrite Hgate. discriminate. }
  rewrite load_low_bit_unfold by assumption.
  destruct (resolve_compute_dtype_fields (String.eqb device_map "cpu")
              (String.eqb device_map "xpu") dtype q) as (S0 & W0 & _ & C0).
  destruct (resolve_scale_dtype _ lg) as [[q1 | e | c] lg1] eqn:H1; try discriminate.
  destruct (resolve_weight_dtype q1 lg1) as [[q2 | e | c] lg2] eqn:H2; try discriminate.
  intros [= <- <- <-].
  destruct (resolve_scale_dtype_fields _ _ _ _ H1) as (S1 & W1 & C1 & s & Hs & Hin).
  destruct (resolve_weight_dtype_fields _ _ _ _ H2) as (S2 & Hs2 & C2).
  destruct (resolve_weight_dtype_returns _ _ _ _ H2) as (w & Hw & Hrec).
  unfold same_scheme in *.
  destruct S0 as (? & ? & ? & ? & ?), S1 as (? & ? & ? & ? & ?), S2 as (? & ? & ? & ? & ?).
  repeat split; try congruence.
  - exists s. split; congruence.
  - exists w. split; assumption.
Qed.

End ReloadInvariant.

(** X11.  Whenever [load_low_bit] gets as far as the skeleton, the
    configuration it goes on with has all three dtypes settled: a compute
    dtype, a scale dtype among "fp32", "fp16", "bf16" and a recognized weight
    dtype; its method, [bits], [group_size], [sym] and [zero_point] are those
    read from the checkpoint. *)
Theorem load_low_bit_config_settled
    (replace_linear : module -> quantization_config -> string -> bool -> module)
    (convert_dtype_torch2str : torch_dtype -> string) (cpu_bf16 : bool)
    (q : quantization_config) (device_map : string) (dtype : option torch_dtype)
    (model : module) (lg : list log_record)
    (q' : quantization_config) (skeleton : module) (lg' : list log_record) :
  load_low_bit replace_linear convert_dtype_torch2str cpu_bf16 q device_map dtype model lg
  = (Return (Some (q', skeleton)), lg') ->
  is_Some (compute_dtype q')
  /\ (exists s, scale_dtype q' = Some s /\ Py.in_list s ["fp32"; "fp16"; "bf16"] = true)
  /\ (exists w, weight_dtype q' = Some w /\ Py.in_list w recognized_weight_dtypes = true)
  /\ qc_class q' = qc_class q /\ bits q' = bits q /\ group_size q' = group_size q
  /\ sym q' = sym q /\ zero_point q' = zero_point q.
Proof.
  intros Hrun.
  destruct (load_low_bit_fields _ _ _ _ _ _ _ _ _ _ _ Hrun) as (S & C & Hs & Hw & _).
  split; [| split; [exact Hs | split; [exact Hw | exact S]]].
  destruct (compute_dtype q'); [eauto | congruence].
Qed.

Lemma load_low_bit_config_settled_witness :
  is_Some (compute_dtype (set_weight_dtype (set_scale_dtype (set_compute_dtype
             example_3bit_config "fp32") "fp32") "int4_clip"))
  /\ (exists s, Some "fp32" = Some s /\ Py.in_list s ["fp32"; "fp16"; "bf16"] = true)
  /\ (exists w, Some "int4_clip" = Some w /\ Py.in_list w recognized_weight_dtypes = true)
  /\ RtnConfig = RtnConfig /\ Some 3%Z = Some 3%Z /\ 128%Z = 128%Z
  /\ Some true = Some true /\ @None bool = None.
Proof.
  apply (load_low_bit_config_settled replace_linear_spec (fun _ => "fp32") false
           example_3bit_config "cpu" None example_model []
           (set_weight_dtype (set_scale_dtype (set_compute_dtype example_3bit_config "fp32")
                                "fp32") "int4_clip")
           (build_woq_model example_model
              (set_weight_dtype (set_scale_dtype (set_compute_dtype example_3bit_config "fp32")
                                   "fp32") "int4_clip"))
           ([] ++ bits_warnings)).
  reflexivity.
Defined.

(** X12.  A reload whose resolved weight dtype is none of "fp8_e5m2",
    "fp8_e4m3", "fp4", "nf4", "int4_fullrange" hands back a skeleton in which
    every dense layer below the root, outside the excluded names, is a
    [WeightOnlyLinear] of the layer's own shape with the [bits], [group_size]
    and zero-point choice read from the checkpoint (the module graph having
    distinct child names). *)
Theorem load_low_bit_skeleton_layers
    (replace_linear : module -> quantization_config -> string -> bool -> module)
    (convert_dtype_torch2str : torch_dtype -> string) (cpu_bf16 : bool)
    (q : quantization_config) (device_map : string) (dtype : option torch_dtype)
    (model : module) (lg : list log_record)
    (q' : quantization_config) (skeleton : module) (lg' : list log_record)
    (p : path) (in_features out_features : Z) (bias : option tensor) :
  load_low_bit replace_linear convert_dtype_torch2str cpu_bf16 q device_map dtype model lg
  = (Return (Some (q', skeleton)), lg') ->
  Py.opt_in_list (weight_dtype q') replace_linear_weight_dtypes = false ->
  wf_module model = true ->
  p <> [] ->
  excluded (qualname p) = false ->
  get_module model p = Some (Linear in_features out_features bias) ->
  get_module skeleton p
  = Some (WeightOnlyLinear
            (WeightOnlyLinear_init in_features out_features (bits q) (group_size q) "int"
               (zp_of q) (bool_decide (bias <> None)) "fp32" true true)).
Proof.
  intros Hrun Hdt Hwf Hne Hex Hget.
  destruct (load_low_bit_fields _ _ _ _ _ _ _ _ _ _ _ Hrun)
    as ((_ & Hb & Hg & Hsym & Hzp) & _ & _ & _ & ->).
  unfold allocate_skeleton. rewrite Hdt. simpl.
  rewrite (build_woq_model_leaves q' model Hwf p _ Hget eq_refl).
  unfold eligible. rewrite Hex. cbn [negb is_linear andb].
  rewrite (bool_decide_eq_false_2 (p = [])) by assumption.
  unfold woq_skeleton, zp_of. now rewrite Hb, Hg, Hsym, Hzp.
Qed.

Lemma load_low_bit_skeleton_layers_witness :
  get_module
    (build_woq_model example_model
       (set_weight_dtype (set_scale_dtype (set_compute_dtype example_3bit_config "fp32")
                            "fp32") "int4_clip"))
    ["model"; "layers"; "0"; "mlp"]
  = Some (WeightOnlyLinear
            (WeightOnlyLinear_init 768 3072 (Some 3%Z) 128 "int" false false "fp32" true true)).
Proof.
  apply (load_low_bit_skeleton_layers replace_linear_spec (fun _ => "fp32") false
           example_3bit_config "cpu" None example_model []
           (set_weight_dtype (set_scale_dtype (set_compute_dtype example_3bit_config "fp32")
                                "fp32") "int4_clip")
           (build_woq_model example_model
              (set_weight_dtype (set_scale_dtype (set_compute_dtype example_3bit_config "fp32")
                                   "fp32") "int4_clip"))
           ([] ++ bits_warnings)
           ["model"; "layers"; "0"; "mlp"] 768 3072 None);
    first [reflexivity | discriminate].
Defined.

(** ** More of the dispatcher *)

Section DispatcherFacts.

Variable env : collaborators.

Lemma resolve_use_neural_speed_xpu r lg b lg' :
  use_xpu r = true ->
  resolve_use_neural_speed r lg = (Return b, lg') -> b = false.
Proof.
  intros Hx. unfold resolve_use_neural_speed. rewrite Hx.
  destruct (rq_use_llm_runtime r) as [b0 |].
  - run_st. intros [= <- _]. apply andb_false_r.
  - destruct (rq_use_neural_speed r) as [b0 |].
    + run_st. intros [= <- _]. apply andb_false_r.
    + destruct (rq_config_model_type r) as [t |]; run_st; [| discriminate].
      rewrite andb_false_r. now intros [= <- _].
Qed.

Lemma dispatch_without_neural_speed q lg rt lg' :
  dispatch env false q lg = (Return rt, lg') -> is_neural_speed rt = false.
Proof.
  unfold dispatch. destruct q as [q |]; [destruct (qc_class q) |]; run_st;
    intros [= <- _]; reflexivity.
Qed.

Lemma load_fresh_without_neural_speed r lg rt lg' :
  load_fresh env r false lg = (Return rt, lg') -> is_neural_speed rt = false.
Proof.
  unfold load_fresh. case_bool_decide; [now intros [= <- _] |].
  destruct (rq_load_in_8bit r || rq_load_in_4bit r);
    [| apply dispatch_without_neural_speed].
  unfold mbind at 1. unfold ST_bind at 1.
  destruct (load_in_bits env r false lg) as [[[rt0 | q] | e | c] lg1] eqn:Hbits;
    try discriminate.
  - intros [= <- _]. revert Hbits. unfold load_in_bits.
    destruct (_ && _ && _ && _); run_st; [now intros [= <- _] |].
    destruct (use_xpu r && _); run_st; [discriminate |].
    destruct (rq_load_in_4bit r).
    + destruct (rq_quantization_config r) as [q0 |]; [| discriminate].
      destruct (weight_dtype q0); [| discriminate].
      destruct (_ && _); discriminate.
    + destruct (rq_quantization_config r) as [q0 |]; [| discriminate].
      destruct (_ && _); discriminate.
  - apply dispatch_without_neural_speed.
Qed.

Lemma load_saved_low_bit_outcome saved lg :
  (exists lg', load_saved_low_bit env saved lg = (Return LowBitReload, lg'))
  \/ (exists c lg', load_saved_low_bit env saved lg = (Exit c, lg')).
Proof.
  unfold load_saved_low_bit, try_except. run_st.
  destruct (reload env saved _) as [[[] | e | c] lg1]; eauto.
Qed.

Lemma from_pretrained_without_neural_speed r lg lg1 rt lg' :
  rq_model_file r = None ->
  resolve_use_neural_speed r lg = (Return false, lg1) ->
  from_pretrained env r lg = (Return rt, lg') ->
  is_neural_speed rt = false.
Proof.
  intros Hfile Hns. unfold from_pretrained. rewrite Hfile.
  destruct (rq_use_embedding_runtime r); [now intros [= <- _] |].
  unfold mbind at 1. unfold ST_bind at 1. rewrite Hns.
  destruct (rq_config_quantization_config r) as [[saved |] |].
  - intros Hrun.
    destruct (load_saved_low_bit_outcome saved lg1) as [(l & H) | (c & l & H)];
      rewrite H in Hrun; [now injection Hrun as <- | discriminate].
  - run_st. apply load_fresh_without_neural_speed.
  - apply load_fresh_without_neural_speed.
Qed.

End DispatcherFacts.

(** X13.  On an Intel GPU ([device_map="xpu"]) a call without a GGUF
    [model_file] never ends in a [neural_speed] model, whatever is passed as
    [use_neural_speed] or [use_llm_runtime] and whatever the checkpoint and
    the configuration are. *)
Theorem from_pretrained_xpu_never_neural_speed (env : collaborators) (r : request)
    (lg : list log_record) (rt : route) (lg' : list log_record) :
  rq_device_map r = "xpu" ->
  rq_model_file r = None ->
  from_pretrained env r lg = (Return rt, lg') ->
  is_neural_speed rt = false.
Proof.
  intros Hdev Hfile Hrun.
  destruct (rq_use_embedding_runtime r) eqn:Hemb.
  { unfold from_pretrained in Hrun. rewrite Hfile, Hemb in Hrun. now injection Hrun as <-. }
  destruct (resolve_use_neural_speed r lg) as [[b | e | c] lg1] eqn:Hns.
  - assert (b = false) as ->.
    { eapply resolve_use_neural_speed_xpu; [| exact Hns]. unfold use_xpu. now rewrite Hdev. }
    eapply from_pretrained_without_neural_speed; eassumption.
  - unfold from_pretrained in Hrun. rewrite Hfile, Hemb in Hrun.
    unfold mbind, ST_bind in Hrun. rewrite Hns in Hrun. discriminate.
  - unfold from_pretrained in Hrun. rewrite Hfile, Hemb in Hrun.
    unfold mbind, ST_bind in Hrun. rewrite Hns in Hrun. discriminate.
Qed.

Lemma from_pretrained_xpu_never_neural_speed_witness :
  is_neural_speed LowBitReload = false.
Proof.
  apply (from_pretrained_xpu_never_neural_speed reference_env example_xpu_request []
           LowBitReload
           [LogRecord INFO "quantization_config: {...}";
            LogRecord INFO
              "Saved low bit model loading successfully. Other input args will be ignored."]);
    reflexivity.
Defined.

(** X14.  A checkpoint whose [config] carries a quantization dictionary,
    loaded without neural speed, is handed to [load_low_bit] whatever the
    other arguments are, and no exception of that reload reaches the caller:
    when it raises, the exception and "Saved low bit model loading failed,
    please check your model." are logged as errors and the process ends with
    [exit(0)]; when it returns, the reloaded model is the result. *)
Theorem from_pretrained_reload_failure_exits (env : collaborators) (r : request)
    (saved : saved_dict) (lg lg1 : list log_record) :
  rq_model_file r = None ->
  rq_use_embedding_runtime r = false ->
  rq_config_quantization_config r = Some (Some saved) ->
  resolve_use_neural_speed r lg = (Return false, lg1) ->
  (forall e lg', from_pretrained env r lg <> (Raise e, lg'))
  /\ (forall e lg2,
        reload env saved (lg1 ++ [LogRecord INFO "quantization_config: {...}"])
        = (Raise e, lg2) ->
        from_pretrained env r lg
        = (Exit 0,
           lg2 ++ [LogRecord ERROR (exn_message env e);
                   LogRecord ERROR
                     "Saved low bit model loading failed, please check your model."]))
  /\ (forall lg2,
        reload env saved (lg1 ++ [LogRecord INFO "quantization_config: {...}"])
        = (Return tt, lg2) ->
        from_pretrained env r lg
        = (Return LowBitReload,
           lg2 ++ [LogRecord INFO
                     "Saved low bit model loading successfully. Other input args will be ignored."])).
Proof.
  intros Hfile Hemb Hcfg Hns.
  assert (from_pretrained env r lg = load_saved_low_bit env saved lg1) as ->.
  { unfold from_pretrained. rewrite Hfile, Hemb.
    unfold mbind at 1. unfold ST_bind at 1. now rewrite Hns, Hcfg. }
  split; [| split].
  - intros e lg' H.
    destruct (load_saved_low_bit_outcome env saved lg1) as [(l & H') | (c & l & H')];
      rewrite H' in H; discriminate.
  - intros e lg2 H. unfold load_saved_low_bit, try_except. run_st. rewrite H.
    now rewrite <- app_assoc.
  - intros lg2 H. unfold load_saved_low_bit, try_except. run_st. now rewrite H.
Qed.

Lemma from_pretrained_reload_failure_exits_witness :
  from_pretrained failing_reload_env example_xpu_request []
  = (Exit 0,
     [LogRecord INFO "quantization_config: {...}";
      LogRecord ERROR "archive_file";
      LogRecord ERROR "Saved low bit model loading failed, please check your model."]).
Proof.
  apply (proj1 (proj2 (from_pretrained_reload_failure_exits failing_reload_env
                         example_xpu_request example_saved_gptq [] []
                         ltac:(reflexivity) ltac:(reflexivity) ltac:(reflexivity)
                         ltac:(reflexivity)))
           (UnboundLocalError "archive_file")
           [LogRecord INFO "quantization_config: {...}"]).
  reflexivity.
Defined.

(** X15.  With neither [use_neural_speed] nor [use_llm_runtime] passed, a
    GPTQ request for a dense checkpoint of a model type in [model_type_list],
    not on [xpu], is decided by the model type alone: for a type in
    [model_type_list_for_gptq] neural speed is switched on and the call ends
    with the error "Only Supports RTN Quantization in Neural Speed." and
    [exit(0)]; for any other type the model goes to the weight-only
    quantization with the caller's configuration. *)
Theorem from_pretrained_default_gptq (env : collaborators) (r : request)
    (q : quantization_config) (model_type : string) (lg : list log_record) :
  rq_model_file r = None ->
  rq_use_embedding_runtime r = false ->
  rq_use_llm_runtime r = None ->
  rq_use_neural_speed r = None ->
  rq_config_model_type r = Some model_type ->
  Py.in_list model_type model_type_list = true ->
  rq_device_map r <> "xpu" ->
  rq_config_quantization_config r = None ->
  rq_load_in_8bit r = false ->
  rq_load_in_4bit r = false ->
  rq_quantization_config r = Some q ->
  qc_class q = GPTQConfig ->
  from_pretrained env r lg
  = if Py.in_list model_type model_type_list_for_gptq
    then (Exit 0, lg ++ [LogRecord INFO "Applying Weight Only Quantization."; rtn_only_error])
    else (Return (WeightOnlyPath q),
          lg ++ [LogRecord INFO "Applying Weight Only Quantization."]).
Proof.
  intros Hfile Hemb Hllm Hns Hmt Hin Hdev Hcfg H8 H4 Hq Hc.
  assert (use_xpu r = false) as Hx.
  { unfold use_xpu. now apply String.eqb_neq. }
  assert (resolve_use_neural_speed r lg
          = (Return (Py.in_list model_type model_type_list_for_gptq), lg)) as Hres.
  { unfold resolve_use_neural_speed. rewrite Hllm, Hns, Hmt, Hin, Hx, Hq, Hc.
    rewrite bool_decide_eq_true_2 by reflexivity.
    now destruct (Py.in_list model_type model_type_list_for_gptq). }
  unfold from_pretrained. rewrite Hfile, Hemb, Hcfg.
  unfold mbind at 1. unfold ST_bind at 1. rewrite Hres.
  destruct (Py.in_list model_type model_type_list_for_gptq);
    unfold load_fresh; rewrite Hq, H8, H4; simpl; rewrite ?Hc;
    rewrite bool_decide_eq_false_2 by discriminate; simpl; rewrite ?Hc; run_st.
  - now rewrite <- app_assoc.
  - reflexivity.
Qed.

Lemma from_pretrained_default_gptq_witness :
  from_pretrained reference_env example_opt_gptq_request []
  = (Return (WeightOnlyPath example_gptq_config),
     [LogRecord INFO "Applying Weight Only Quantization."]).
Proof.
  apply (from_pretrained_default_gptq reference_env example_opt_gptq_request
           example_gptq_config "opt" []);
    first [reflexivity | discriminate].
Defined.

(** ** More of the calibration *)

Lemma take_app_replicate {A} (n : nat) (l : list A) (x : A) :
  take n (l ++ replicate (n - length l) x) = take n l ++ replicate (n - length l) x.
Proof.
  rewrite take_app. f_equal. apply take_ge. rewrite length_replicate. lia.
Qed.

Lemma fit_input_ids_value (calib_padding : bool) (calib_len calib_pad_val : Z)
    (input_ids : tensor) (lg : list log_record) :
  (0 <= calib_len)%Z ->
  fit_input_ids calib_padding calib_len calib_pad_val input_ids lg
  = (Return (take (Z.to_nat calib_len) input_ids
             ++ (if calib_padding
                 then replicate (Z.to_nat calib_len - length input_ids) calib_pad_val
                 else [])), lg).
Proof.
  intros Hlen. destruct calib_padding.
  - rewrite fit_input_ids_padding by (reflexivity || assumption).
    now rewrite take_app_replicate.
  - rewrite fit_input_ids_no_padding by (reflexivity || assumption).
    now rewrite app_nil_r.
Qed.

Lemma mapM_ST_pure {S A B} (f : A -> ST S B) (g : A -> B) (l : list A) (s : S) :
  (forall x, f x s = (Return (g x), s)) ->
  mapM f l s = (Return (map g l), s).
Proof.
  intros Hf. induction l as [| x l IH]; cbn [mapM]; [reflexivity |].
  unfold mbind at 1. unfold ST_bind at 1. rewrite Hf.
  unfold mbind at 1. unfold ST_bind at 1. rewrite IH. reflexivity.
Qed.

(** X16.  From one record, with a [calib_len] that is not negative,
    [collate_batch] always builds a batch: its "input_ids" row is the first
    [calib_len] tokens of the record in their order, followed, when padding
    is on, by as many [calib_pad_val] as are missing; its "attention_mask"
    row is all ones and as long as that row, for bloom and qwen with one
    more entry, a leading 0; and the index returned with it is that of the
    row's last position. *)
Theorem collate_batch_record (calib_padding : bool) (calib_len calib_pad_val : Z)
    (MODEL_TYPES_REQUIRING_POSITION_IDS : list string) (model_type : string)
    (text : tensor) (lg : list log_record) :
  (0 <= calib_len)%Z ->
  let row :=
    take (Z.to_nat calib_len) text
    ++ (if calib_padding then replicate (Z.to_nat calib_len - length text) calib_pad_val
        else []) in
  exists b,
    collate_batch calib_padding calib_len calib_pad_val MODEL_TYPES_REQUIRING_POSITION_IDS
      model_type [text] lg
    = (Return (b, [(Z.of_nat (length row) - 1)%Z]), lg)
    /\ b !! "input_ids" = Some (Stacked [row])
    /\ b !! "attention_mask"
       = Some (Stacked [if Py.in_list model_type ["bloom"; "qwen"]
                        then 0%Z :: replicate (length row) 1%Z
                        else replicate (length row) 1%Z]).
Proof.
  intros Hlen row. unfold collate_batch. cbn [mapM].
  unfold mbind at 1. unfold ST_bind at 1.
  unfold mbind at 1. unfold ST_bind at 1.
  unfold mbind at 1. unfold ST_bind at 1.
  rewrite fit_input_ids_value by assumption. fold row.
  destruct (Py.in_list model_type MODEL_TYPES_REQUIRING_POSITION_IDS);
    destruct (Py.in_list model_type ["bloom"; "qwen"]);
    (eexists; split; [reflexivity | split; reflexivity]).
Qed.

Lemma collate_batch_record_witness :
  exists b,
    collate_batch true 4 0 ["llama"] "bloom" [[11; 12]%Z] []
    = (Return (b, [3%Z]), [])
    /\ b !! "input_ids" = Some (Stacked [[11; 12; 0; 0]%Z])
    /\ b !! "attention_mask" = Some (Stacked [[0; 1; 1; 1; 1]%Z]).
Proof.
  apply (collate_batch_record true 4 0 ["llama"] "bloom" [11; 12]%Z []). lia.
Defined.

Lemma collate_batch_static_rows (calib_padding : bool) (calib_len calib_pad_val : Z)
    (texts : list tensor) (lg : list log_record) :
  (0 <= calib_len)%Z ->
  let fit := fun text : tensor =>
    take (Z.to_nat calib_len) text
    ++ (if calib_padding then replicate (Z.to_nat calib_len - length text) calib_pad_val
        else []) in
  collate_batch_static calib_padding calib_len calib_pad_val texts lg
  = match Torch.vstack (map fit texts) lg with
    | (Return m, lg') =>
        (Return ({[ "input_ids" := Stacked m ]},
                 map (fun text => (Z.of_nat (length (fit text)) - 1)%Z) texts), lg')
    | (Raise e, lg') => (Raise e, lg')
    | (Exit c, lg') => (Exit c, lg')
    end.
Proof.
  intros Hlen fit. unfold collate_batch_static.
  unfold mbind at 1. unfold ST_bind at 1.
  rewrite (mapM_ST_pure _ (fun text => (fit text, (Z.of_nat (length (fit text)) - 1)%Z))).
  - rewrite !map_map. cbn [fst snd].
    unfold mbind at 1. unfold ST_bind at 1.
    change (map (fun x : tensor => fit x) texts) with (map fit texts).
    destruct (Torch.vstack (map fit texts) lg) as [[m | e | c] lg']; reflexivity.
  - intros text. unfold mbind at 1. unfold ST_bind at 1.
    rewrite fit_input_ids_value by assumption. reflexivity.
Qed.

(** X17.  With padding on and a length that is not negative, the
    [collate_batch] of the quantization-aware training branch (whose
    [DataLoader] takes [train_batch_size] records at a time) stacks every
    batch that is not empty, whatever the lengths of its records: each row
    is the record's first [train_len] tokens filled at the right with
    [train_pad_val], and every index returned is [train_len - 1]. *)
Theorem collate_batch_static_padded (train_len train_pad_val : Z)
    (texts : list tensor) (lg : list log_record) :
  (0 <= train_len)%Z ->
  texts <> [] ->
  collate_batch_static true train_len train_pad_val texts lg
  = (Return ({[ "input_ids" :=
                 Stacked (map (fun text =>
                                 take (Z.to_nat train_len) text
                                 ++ replicate (Z.to_nat train_len - length text) train_pad_val)
                              texts) ]},
             map (fun _ => (train_len - 1)%Z) texts), lg).
Proof.
  intros Hlen Hne. rewrite collate_batch_static_rows by assumption. cbv zeta.
  assert (forall text : tensor,
            length (take (Z.to_nat train_len) text
                    ++ replicate (Z.to_nat train_len - length text) train_pad_val)
            = Z.to_nat train_len) as Hrow.
  { intros text. rewrite length_app, length_take, length_replicate. lia. }
  destruct texts as [| t0 rest]; [congruence |].
  unfold Torch.vstack. cbn [map].
  replace (forallb _ _) with true.
  - unfold mret, ST_ret. do 3 f_equal.
    cbn [map]. f_equal; [rewrite Hrow; lia |].
    apply map_ext. intros text. rewrite Hrow. lia.
  - symmetry. apply forallb_forall. intros r Hin.
    apply in_map_iff in Hin as (text & <- & _). rewrite !Hrow. apply Nat.eqb_refl.
Qed.

Lemma collate_batch_static_padded_witness :
  collate_batch_static true 3 0 [[11; 12; 13; 14]%Z; [21]%Z] []
  = (Return ({[ "input_ids" := Stacked [[11; 12; 13]%Z; [21; 0; 0]%Z] ]}, [2%Z; 2%Z]), []).
Proof.
  apply (collate_batch_static_padded 3 0 [[11; 12; 13; 14]%Z; [21]%Z] []);
    [lia | discriminate].
Defined.

(** X18.  With padding off, the same [collate_batch] fails on a batch in
    which some record is left, after truncation to [train_len], with a
    number of tokens other than that of the first record: [torch.vstack]
    raises and no batch is built. *)
Theorem collate_batch_static_ragged (train_len train_pad_val : Z)
    (first other : tensor) (rest : list tensor) (lg : list log_record) :
  (0 <= train_len)%Z ->
  In other rest ->
  min (Z.to_nat train_len) (length other) <> min (Z.to_nat train_len) (length first) ->
  collate_batch_static false train_len train_pad_val (first :: rest) lg
  = (Raise (RuntimeError "Sizes of tensors must match except in dimension 0"), lg).
Proof.
  intros Hlen Hin Hneq. rewrite collate_batch_static_rows by assumption. cbv zeta.
  unfold Torch.vstack. cbn [map].
  replace (forallb _ _) with false; [reflexivity |].
  symmetry. apply not_true_is_false. intros Hall.
  rewrite forallb_forall in Hall.
  specialize (Hall (take (Z.to_nat train_len) other ++ [])).
  rewrite !app_nil_r, !length_take in Hall.
  apply Nat.eqb_eq in Hall; [lia |].
  apply in_map_iff. exists other. split; [now rewrite app_nil_r | assumption].
Qed.

Lemma collate_batch_static_ragged_witness :
  collate_batch_static false 3 0 [[11; 12; 13; 14]%Z; [21]%Z] []
  = (Raise (RuntimeError "Sizes of tensors must match except in dimension 0"), []).
Proof.
  apply (collate_batch_static_ragged 3 0 [11; 12; 13; 14]%Z [21]%Z [[21]%Z] []);
    [lia | now left | vm_compute; discriminate].
Defined.

Section CalibFuncFacts.

Variable calib_padding : bool.
Variable calib_len : Z.
Variable calib_pad_val : Z.
Variable calib_iters : Z.

Hypothesis calib_len_nonneg : (0 <= calib_len)%Z.

Lemma collate_batch_static_one (text : tensor) lg :
  exists last,
    collate_batch_static calib_padding calib_len calib_pad_val [text] lg
    = (Return (input_ids_batch
                 (take (Z.to_nat calib_len) text
                  ++ (if calib_padding
                      then replicate (Z.to_nat calib_len - length text) calib_pad_val
                      else [])), last), lg).
Proof.
  rewrite collate_batch_static_rows by assumption. cbv zeta.
  eexists. reflexivity.
Qed.

Lemma calib_loop_calls (dataset : list tensor) : forall (i : Z) lg,
  (0 <= i)%Z ->
  calib_loop calib_padding calib_len calib_pad_val calib_iters i dataset lg
  = (Return (map (fun text =>
                    input_ids_batch
                      (take (Z.to_nat calib_len) text
                       ++ (if calib_padding
                           then replicate (Z.to_nat calib_len - length text) calib_pad_val
                           else [])))
               (take (Z.to_nat (calib_iters - i)) dataset)), lg).
Proof.
  induction dataset as [| text rest IH]; intros i lg Hi; cbn [calib_loop].
  - now rewrite take_nil.
  - unfold mbind at 1. unfold ST_bind at 1.
    destruct (collate_batch_static_one text lg) as (last & ->). cbn [fst].
    destruct (Z.geb_spec i calib_iters) as [Hge | Hlt].
    + replace (Z.to_nat (calib_iters - i)) with 0 by lia. reflexivity.
    + unfold mbind at 1. unfold ST_bind at 1. rewrite IH by lia.
      replace (Z.to_nat (calib_iters - i)) with (S (Z.to_nat (calib_iters - (i + 1))))
        by lia.
      reflexivity.
Qed.

End CalibFuncFacts.

(** X19.  The default [calib_func] of the static quantization branch calls
    the model on the first [calib_iters] records of the tokenized dataset, in
    their order, one record per call, and on all of them when there are
    fewer; each call gets the record's "input_ids" row and nothing else.
    With a [calib_iters] that is not positive the model is not called. *)
Theorem calib_func_calls (calib_padding : bool) (calib_len calib_pad_val calib_iters : Z)
    (dataset : list tensor) (lg : list log_record) :
  (0 <= calib_len)%Z ->
  calib_func calib_padding calib_len calib_pad_val calib_iters dataset lg
  = (Return (map (fun text =>
                    input_ids_batch
                      (take (Z.to_nat calib_len) text
                       ++ (if calib_padding
                           then replicate (Z.to_nat calib_len - length text) calib_pad_val
                           else [])))
               (take (Z.to_nat calib_iters) dataset)), lg).
Proof.
  intros Hlen. unfold calib_func.
  rewrite calib_loop_calls by lia. now rewrite Z.sub_0_r.
Qed.

Lemma calib_func_calls_witness :
  calib_func false 2 0 1 [[11; 12; 13]%Z; [21]%Z] []
  = (Return [input_ids_batch [11; 12]%Z], []).
Proof.
  apply (calib_func_calls false 2 0 1 [[11; 12; 13]%Z; [21]%Z] []). lia.
Defined.

(** ** The checkpoint file of [load_low_bit] *)

Section CheckpointFacts.

Variable WEIGHTS_NAME : string.
Variable WEIGHTS_INDEX_NAME : string.
Variable SAFE_WEIGHTS_NAME : string.
Variable SAFE_WEIGHTS_INDEX_NAME : string.
Variable add_variant : string -> option string -> string.
Variable cached_file : string -> string -> load_error + option string.
Variable has_file : string -> string -> load_error + bool.

Lemma fetch_safetensors name variant r :
  fetch WEIGHTS_NAME WEIGHTS_INDEX_NAME SAFE_WEIGHTS_NAME SAFE_WEIGHTS_INDEX_NAME add_variant
    cached_file has_file name variant (Some true) (add_variant SAFE_WEIGHTS_NAME variant)
  = inr r ->
  (cached_file name (add_variant SAFE_WEIGHTS_NAME variant) = inr (Some r.1.2)
   /\ r.2 = false)
  \/ (cached_file name (add_variant SAFE_WEIGHTS_NAME variant) = inr None
      /\ cached_file name (add_variant SAFE_WEIGHTS_INDEX_NAME variant) = inr (Some r.1.2)
      /\ r.2 = true).
Proof.
  unfold fetch.
  destruct (cached_file name (add_variant SAFE_WEIGHTS_NAME variant)) as [e | [f |]];
    [discriminate | |]; cbn.
  - intros [= <-]. now left.
  - rewrite String.eqb_refl.
    destruct (cached_file name (add_variant SAFE_WEIGHTS_INDEX_NAME variant))
      as [e | [f |]]; [discriminate | | discriminate]; cbn.
    intros [= <-]. right. repeat split.
Qed.

Lemma reraise_error {A} name variant (r : load_error + A) e :
  reraise WEIGHTS_NAME add_variant name variant r = inl e ->
  exists msg, e = EnvironmentError msg.
Proof.
  unfold reraise. destruct r as [[msg | e0] | a]; intros [= <-]; eauto.
Qed.

End CheckpointFacts.

(** X20.  Pointed at a local directory that holds none of the four weight
    files, [load_low_bit] does not report a missing file: the look-up leaves
    [archive_file] unassigned and fails with [UnboundLocalError], whatever
    [use_safetensors] is and without asking the cache or the hub. *)
Theorem resolve_archive_file_empty_directory
    (WEIGHTS_NAME WEIGHTS_INDEX_NAME SAFE_WEIGHTS_NAME SAFE_WEIGHTS_INDEX_NAME : string)
    (add_variant : string -> option string -> string)
    (os_path_isdir os_path_isfile : string -> bool) (os_path_join : list string -> string)
    (is_remote_url : string -> bool) (download_url : string -> load_error + string)
    (cached_file : string -> string -> load_error + option string)
    (has_file : string -> string -> load_error + bool) (is_safetensors_available : bool)
    (name subfolder : string) (variant : option string) (use_safetensors : option bool) :
  os_path_isdir name = true ->
  (forall file,
     In file [WEIGHTS_NAME; WEIGHTS_INDEX_NAME; SAFE_WEIGHTS_NAME; SAFE_WEIGHTS_INDEX_NAME] ->
     os_path_isfile (os_path_join [name; subfolder; add_variant file variant]) = false) ->
  resolve_archive_file WEIGHTS_NAME WEIGHTS_INDEX_NAME SAFE_WEIGHTS_NAME
    SAFE_WEIGHTS_INDEX_NAME add_variant os_path_isdir os_path_isfile os_path_join
    is_remote_url download_url cached_file has_file is_safetensors_available
    (Some name) subfolder variant use_safetensors
  = inl (OtherError (UnboundLocalError "archive_file")).
Proof.
  intros Hdir Hnone. unfold resolve_archive_file. rewrite Hdir.
  rewrite !Hnone by (simpl; auto). reflexivity.
Qed.

Lemma resolve_archive_file_empty_directory_witness :
  resolve_archive_file "pytorch_model.bin" "pytorch_model.bin.index.json"
    "model.safetensors" "model.safetensors.index.json" (fun file _ => file)
    (fun p => String.eqb p "out") (fun _ => false) example_join
    (fun _ => false) (fun url => inr url) example_cached_file (fun _ _ => inr false) true
    (Some "out") "" None None
  = inl (OtherError (UnboundLocalError "archive_file")).
Proof.
  apply (resolve_archive_file_empty_directory "pytorch_model.bin"
           "pytorch_model.bin.index.json" "model.safetensors" "model.safetensors.index.json"
           (fun file _ => file) (fun p => String.eqb p "out") (fun _ => false)
           example_join (fun _ => false) (fun url => inr url)
           example_cached_file (fun _ _ => inr false) true "out" "" None None);
    reflexivity.
Defined.

(** X21.  For a local directory the answer is a file of that directory that
    exists, found without consulting [use_safetensors]: the first present of
    the PyTorch weights, their index, the safetensors weights and their
    index, in this order, so that PyTorch weights are taken even under
    [use_safetensors=True]; [is_sharded] is set for an index only when the
    file before it is absent, and the record logged names the file. *)
Theorem resolve_archive_file_local
    (WEIGHTS_NAME WEIGHTS_INDEX_NAME SAFE_WEIGHTS_NAME SAFE_WEIGHTS_INDEX_NAME : string)
    (add_variant : string -> option string -> string)
    (os_path_isdir os_path_isfile : string -> bool) (os_path_join : list string -> string)
    (is_remote_url : string -> bool) (download_url : string -> load_error + string)
    (cached_file : string -> string -> load_error + option string)
    (has_file : string -> string -> load_error + bool) (is_safetensors_available : bool)
    (name subfolder : string) (variant : option string) (use_safetensors : option bool)
    (resolved : option string) (is_sharded : bool) (records : list log_record) :
  os_path_isdir name = true ->
  resolve_archive_file WEIGHTS_NAME WEIGHTS_INDEX_NAME SAFE_WEIGHTS_NAME
    SAFE_WEIGHTS_INDEX_NAME add_variant os_path_isdir os_path_isfile os_path_join
    is_remote_url download_url cached_file has_file is_safetensors_available
    (Some name) subfolder variant use_safetensors
  = inr (resolved, is_sharded, records) ->
  let at_ := fun file => os_path_join [name; subfolder; add_variant file variant] in
  exists file,
    resolved = Some (at_ file)
    /\ os_path_isfile (at_ file) = true
    /\ records = [LogRecord INFO ("loading weights file " +:+ at_ file)]
    /\ ((file = WEIGHTS_NAME /\ is_sharded = false)
        \/ (file = WEIGHTS_INDEX_NAME /\ is_sharded = true
            /\ os_path_isfile (at_ WEIGHTS_NAME) = false)
        \/ (file = SAFE_WEIGHTS_NAME /\ is_sharded = false
            /\ os_path_isfile (at_ WEIGHTS_NAME) = false
            /\ os_path_isfile (at_ WEIGHTS_INDEX_NAME) = false)
        \/ (file = SAFE_WEIGHTS_INDEX_NAME /\ is_sharded = true
            /\ os_path_isfile (at_ WEIGHTS_NAME) = false
            /\ os_path_isfile (at_ WEIGHTS_INDEX_NAME) = false
            /\ os_path_isfile (at_ SAFE_WEIGHTS_NAME) = false)).
Proof.
  intros Hdir. unfold resolve_archive_file. rewrite Hdir. cbv zeta.
  destruct (os_path_isfile (os_path_join [name; subfolder; add_variant WEIGHTS_NAME variant]))
    eqn:H1.
  { intros [= <- <- <-]. exists WEIGHTS_NAME.
    split; [reflexivity |]. split; [assumption |]. split; [reflexivity |].
    left. now split. }
  destruct (os_path_isfile
              (os_path_join [name; subfolder; add_variant WEIGHTS_INDEX_NAME variant])) eqn:H2.
  { intros [= <- <- <-]. exists WEIGHTS_INDEX_NAME.
    split; [reflexivity |]. split; [assumption |]. split; [reflexivity |].
    right. left. repeat split; assumption. }
  destruct (os_path_isfile
              (os_path_join [name; subfolder; add_variant SAFE_WEIGHTS_NAME variant])) eqn:H3.
  { intros [= <- <- <-]. exists SAFE_WEIGHTS_NAME.
    split; [reflexivity |]. split; [assumption |]. split; [reflexivity |].
    right. right. left. repeat split; assumption. }
  destruct (os_path_isfile
              (os_path_join [name; subfolder; add_variant SAFE_WEIGHTS_INDEX_NAME variant]))
    eqn:H4; [| discriminate].
  intros [= <- <- <-]. exists SAFE_WEIGHTS_INDEX_NAME.
  split; [reflexivity |]. split; [assumption |]. split; [reflexivity |].
  right. right. right. repeat split; assumption.
Qed.

Lemma resolve_archive_file_local_witness :
  exists file,
    Some "out/pytorch_model.bin" = Some (example_join ["out"; ""; file])
    /\ String.eqb (example_join ["out"; ""; file]) "out/pytorch_model.bin" = true
    /\ [LogRecord INFO "loading weights file out/pytorch_model.bin"]
       = [LogRecord INFO ("loading weights file " +:+ example_join ["out"; ""; file])]
    /\ ((file = "pytorch_model.bin" /\ false = false)
        \/ (file = "pytorch_model.bin.index.json" /\ false = true
            /\ String.eqb (example_join ["out"; ""; "pytorch_model.bin"])
                 "out/pytorch_model.bin" = false)
        \/ (file = "model.safetensors" /\ false = false
            /\ String.eqb (example_join ["out"; ""; "pytorch_model.bin"])
                 "out/pytorch_model.bin" = false
            /\ String.eqb (example_join ["out"; ""; "pytorch_model.bin.index.json"])
                 "out/pytorch_model.bin" = false)
        \/ (file = "model.safetensors.index.json" /\ false = true
            /\ String.eqb (example_join ["out"; ""; "pytorch_model.bin"])
                 "out/pytorch_model.bin" = false
            /\ String.eqb (example_join ["out"; ""; "pytorch_model.bin.index.json"])
                 "out/pytorch_model.bin" = false
            /\ String.eqb (example_join ["out"; ""; "model.safetensors"])
                 "out/pytorch_model.bin" = false)).
Proof.
  apply (resolve_archive_file_local "pytorch_model.bin" "pytorch_model.bin.index.json"
           "model.safetensors" "model.safetensors.index.json" (fun file _ => file)
           (fun p => String.eqb p "out") (fun p => String.eqb p "out/pytorch_model.bin")
           example_join (fun _ => false) (fun url => inr url)
           example_cached_file (fun _ _ => inr false) true "out" "" None (Some true)
           (Some "out/pytorch_model.bin") false
           [LogRecord INFO "loading weights file out/pytorch_model.bin"]);
    reflexivity.
Defined.

(** X22.  For a model that is neither a local directory, nor a local file,
    nor a URL, [use_safetensors=True] never ends with PyTorch weights: the
    file resolved is the one the cache gives for the safetensors name, or,
    when that one is missing, for the safetensors index, and only then is
    [is_sharded] set. *)
Theorem resolve_archive_file_safetensors_only
    (WEIGHTS_NAME WEIGHTS_INDEX_NAME SAFE_WEIGHTS_NAME SAFE_WEIGHTS_INDEX_NAME : string)
    (add_variant : string -> option string -> string)
    (os_path_isdir os_path_isfile : string -> bool) (os_path_join : list string -> string)
    (is_remote_url : string -> bool) (download_url : string -> load_error + string)
    (cached_file : string -> string -> load_error + option string)
    (has_file : string -> string -> load_error + bool) (is_safetensors_available : bool)
    (name subfolder : string) (variant : option string)
    (resolved : option string) (is_sharded : bool) (records : list log_record) :
  os_path_isdir name = false ->
  os_path_isfile (os_path_join [subfolder; name]) = false ->
  is_remote_url name = false ->
  resolve_archive_file WEIGHTS_NAME WEIGHTS_INDEX_NAME SAFE_WEIGHTS_NAME
    SAFE_WEIGHTS_INDEX_NAME add_variant os_path_isdir os_path_isfile os_path_join
    is_remote_url download_url cached_file has_file is_safetensors_available
    (Some name) subfolder variant (Some true)
  = inr (resolved, is_sharded, records) ->
  (cached_file name (add_variant SAFE_WEIGHTS_NAME variant) = inr resolved
   /\ is_Some resolved /\ is_sharded = false)
  \/ (cached_file name (add_variant SAFE_WEIGHTS_NAME variant) = inr None
      /\ cached_file name (add_variant SAFE_WEIGHTS_INDEX_NAME variant) = inr resolved
      /\ is_Some resolved /\ is_sharded = true).
Proof.
  intros Hdir Hfile Hurl. unfold resolve_archive_file. rewrite Hdir, Hfile, Hurl.
  cbn [bool_decide andb negb]. rewrite andb_false_l. cbv zeta.
  rewrite (bool_decide_eq_false_2 (Some true = Some false)) by discriminate.
  cbn [negb].
  destruct (fetch _ _ _ _ _ _ _ name variant (Some true) _) as [e | r] eqn:Hfetch.
  { destruct e; discriminate. }
  cbn. intros [= <- <- <-].
  apply fetch_safetensors in Hfetch as [[H1 H2] | (H1 & H2 & H3)].
  - left. repeat split; eauto.
  - right. repeat split; eauto.
Qed.

Lemma resolve_archive_file_safetensors_only_witness :
  (example_safetensors_cache "org/model" "model.safetensors"
   = inr (Some "cache/model.safetensors.index.json")
   /\ is_Some (Some "cache/model.safetensors.index.json") /\ true = false)
  \/ (example_safetensors_cache "org/model" "model.safetensors" = inr None
      /\ example_safetensors_cache "org/model" "model.safetensors.index.json"
         = inr (Some "cache/model.safetensors.index.json")
      /\ is_Some (Some "cache/model.safetensors.index.json") /\ true = true).
Proof.
  apply (resolve_archive_file_safetensors_only "pytorch_model.bin"
           "pytorch_model.bin.index.json" "model.safetensors" "model.safetensors.index.json"
           (fun file _ => file) (fun _ => false) (fun _ => false)
           example_join (fun _ => false) (fun url => inr url)
           example_safetensors_cache (fun _ _ => inr false) true "org/model" "" None
           (Some "cache/model.safetensors.index.json") true
           [LogRecord INFO
              "loading weights file model.safetensors from cache at cache/model.safetensors.index.json"]);
    reflexivity.
Defined.

(** X23.  For such a model (no local directory, no local file, no URL) the
    look-up fails with [EnvironmentError] only: whatever exception
    [cached_file] or [has_file] raise, what leaves the block is an
    [EnvironmentError], theirs or the one that wraps theirs. *)
Theorem resolve_archive_file_environment_error
    (WEIGHTS_NAME WEIGHTS_INDEX_NAME SAFE_WEIGHTS_NAME SAFE_WEIGHTS_INDEX_NAME : string)
    (add_variant : string -> option string -> string)
    (os_path_isdir os_path_isfile : string -> bool) (os_path_join : list string -> string)
    (is_remote_url : string -> bool) (download_url : string -> load_error + string)
    (cached_file : string -> string -> load_error + option string)
    (has_file : string -> string -> load_error + bool) (is_safetensors_available : bool)
    (name subfolder : string) (variant : option string) (use_safetensors : option bool)
    (e : load_error) :
  os_path_isdir name = false ->
  os_path_isfile (os_path_join [subfolder; name]) = false ->
  is_remote_url name = false ->
  resolve_archive_file WEIGHTS_NAME WEIGHTS_INDEX_NAME SAFE_WEIGHTS_NAME
    SAFE_WEIGHTS_INDEX_NAME add_variant os_path_isdir os_path_isfile os_path_join
    is_remote_url download_url cached_file has_file is_safetensors_available
    (Some name) subfolder variant use_safetensors
  = inl e ->
  exists msg, e = EnvironmentError msg.
Proof.
  intros Hdir Hfile Hurl. unfold resolve_archive_file. rewrite Hdir, Hfile, Hurl.
  cbv zeta.
  match goal with
  | |- context [reraise _ _ name variant ?r] =>
      destruct (reraise WEIGHTS_NAME add_variant name variant r) as [e' | found] eqn:Hr
  end; [| discriminate].
  cbn. intros [= <-]. now apply reraise_error in Hr.
Qed.

Lemma resolve_archive_file_environment_error_witness :
  exists msg,
    EnvironmentError
      ("Can't load the model for 'org/model'. If you were trying to load it"
       +:+ " from 'https://huggingface.co/models', make sure you don't have a local directory with the"
       +:+ " same name. Otherwise, make sure 'org/model' is the correct path to a"
       +:+ " directory containing a file named pytorch_model.bin.")
    = EnvironmentError msg.
Proof.
  apply (resolve_archive_file_environment_error "pytorch_model.bin"
           "pytorch_model.bin.index.json" "model.safetensors" "model.safetensors.index.json"
           (fun file _ => file) (fun _ => false) (fun _ => false)
           example_join (fun _ => false) (fun url => inr url)
           (fun _ _ => inl (OtherError (RuntimeError "connection reset")))
           (fun _ _ => inr false) true "org/model" "" None None);
    reflexivity.
Defined.

(** ** The example script *)

(** X24.  In the example script a [--scheme] given on the command line is
    never used: with [--woq] and any algorithm but AutoRound the
    configuration is built symmetric ([sym=True]; for Awq
    [zero_point=False]) whatever [--scheme] says, and with AutoRound it is
    built with [sym=False] exactly when [--scheme] is left out. *)
Theorem script_scheme_ignored (args : script_args) (out : list string)
    (call : config_call) (out' : list string) :
  arg_woq args = true ->
  script_quantization_config args out = (Return (Some call), out') ->
  if String.eqb (arg_woq_algo args) "AutoRound"
  then call_sym call = Some (bool_decide (arg_scheme args <> None))
       /\ call_zero_point call = None
  else if String.eqb (arg_woq_algo args) "Awq"
  then call_zero_point call = Some false /\ call_sym call = None
  else call_sym call = Some true /\ call_zero_point call = None.
Proof.
  intros Hwoq. unfold script_quantization_config, scheme. rewrite Hwoq.
  destruct (String.eqb_spec (arg_woq_algo args) "AutoRound") as [Ha | Ha].
  - rewrite Ha. cbn. intros [= <- _]. cbn.
    destruct (arg_scheme args); split; reflexivity.
  - rewrite andb_false_r. cbn [String.eqb Ascii.eqb Bool.eqb andb].
    destruct (String.eqb_spec (arg_woq_algo args) "Rtn") as [Hr | Hr].
    { rewrite Hr. cbn. intros [= <- _]. now split. }
    destruct (String.eqb (arg_woq_algo args) "Awq"); [intros [= <- _]; now split |].
    destruct (String.eqb (arg_woq_algo args) "Teq"); [intros [= <- _]; now split |].
    destruct (String.eqb (arg_woq_algo args) "GPTQ"); [intros [= <- _]; now split |].
    discriminate.
Qed.

Lemma script_scheme_ignored_witness :
  call_sym (weight_only_call GPTQConfig example_script_args (Some true) None) = Some true
  /\ call_zero_point (weight_only_call GPTQConfig example_script_args (Some true) None) = None.
Proof.
  apply (script_scheme_ignored example_script_args []
           (weight_only_call GPTQConfig example_script_args (Some true) None) []);
    reflexivity.
Defined.

(** X25.  Run from the example script without [--use_neural_speed],
    [from_pretrained] never ends in a [neural_speed] model, whatever the
    algorithm, the model type and the checkpoint: the script passes
    [use_neural_speed] on every call, so the choice by model type that the
    library makes for a caller who leaves it out is never consulted. *)
Theorem script_without_neural_speed (env : collaborators)
    (new_config : config_call -> quantization_config) (args : script_args)
    (quantization_config : option config_call) (config_model_type : option string)
    (config_quantization_config : option (option saved_dict)) (r : request)
    (lg : list log_record) (rt : route) (lg' : list log_record) :
  arg_use_neural_speed args = false ->
  script_request new_config args quantization_config config_model_type
    config_quantization_config = Some r ->
  from_pretrained env r lg = (Return rt, lg') ->
  is_neural_speed rt = false.
Proof.
  intros Hflag Hreq.
  assert (rq_model_file r = None /\ rq_use_llm_runtime r = None
          /\ rq_use_neural_speed r = Some false) as (Hfile & Hllm & Hns).
  { unfold script_request in Hreq. rewrite Hflag in Hreq.
    destruct quantization_config as [call |];
      [| destruct (arg_load_in_4bit args || arg_load_in_8bit args); [| discriminate]];
      injection Hreq as <-; repeat split. }
  apply from_pretrained_without_neural_speed with (lg1 := lg); [assumption |].
  unfold resolve_use_neural_speed. now rewrite Hllm, Hns.
Qed.

Lemma script_without_neural_speed_witness :
  is_neural_speed
    (WeightOnlyPath
       (example_new_config (weight_only_call GPTQConfig example_script_args (Some true) None)))
  = false.
Proof.
  apply (script_without_neural_speed reference_env example_new_config example_script_args
           (Some (weight_only_call GPTQConfig example_script_args (Some true) None))
           (Some "llama") None
           {| rq_model_file := None; rq_model_type := None; rq_hub_model_type := None;
              rq_use_embedding_runtime := false; rq_device_map := "cpu";
              rq_quantization_config :=
                Some (example_new_config
                        (weight_only_call GPTQConfig example_script_args (Some true) None));
              rq_config_model_type := Some "llama";
              rq_config_quantization_config := None;
              rq_use_llm_runtime := None; rq_use_neural_speed := Some false;
              rq_load_in_8bit := false; rq_load_in_4bit := false; rq_torch_dtype := None |}
           [] _ [LogRecord INFO "Applying Weight Only Quantization."]);
    reflexivity.
Defined.
